(** * open-mr.py: opening a merge request and linking it to its ticket

    A shallow embedding of [src/open-mr.py] and the properties of its
    specification.  Python [str] and [bytes] values are [string]s, decoded
    JSON documents are values of [json], and the effects of the script
    (console output, git queries, HTTPS exchanges, exceptions and [exit]) are
    threaded by a small monad over an abstract world, which records what was
    printed and sent. *)

From Stdlib Require Import String Ascii List ZArith Lia Bool DecimalString DecimalZ
  DecimalPos.
Import ListNotations.
Open Scope string_scope.

(* ================================================================== *)
(** ** Text *)

Module Text.

Definition chr (n : nat) : string := String (ascii_of_nat n) EmptyString.

(** ['\n'], ['\033'] and the double quote, which have no literal form. *)
Definition nl : string := chr 10.
Definition esc : string := chr 27.
Definition dq : string := chr 34.

(** [occurs sub s]: [sub] is a (contiguous) part of [s]. *)
Definition occurs (sub s : string) : Prop :=
  exists a b, s = a ++ sub ++ b.

Fixpoint all (p : ascii -> bool) (s : string) : bool :=
  match s with
  | EmptyString => true
  | String c s' => p c && all p s'
  end.

Fixpoint rev_acc (s acc : string) : string :=
  match s with
  | EmptyString => acc
  | String c s' => rev_acc s' (String c acc)
  end.

Definition rev (s : string) : string := rev_acc s EmptyString.

(** [lstrip_nl] drops the leading newlines; [strip_nl s] is Python's
    [s.strip('\n')]. *)
Fixpoint lstrip_nl (s : string) : string :=
  match s with
  | String c s' => if Ascii.eqb c (ascii_of_nat 10) then lstrip_nl s' else s
  | EmptyString => EmptyString
  end.

Definition strip_nl (s : string) : string :=
  rev (lstrip_nl (rev (lstrip_nl s))).

(** Python's [str(n)] for an [int]. *)
Definition of_Z (n : Z) : string := NilZero.string_of_int (Z.to_int n).

End Text.

(* ================================================================== *)
(** ** The fragment of Python's [re] that the script uses

    The three patterns of the script are made of literal characters,
    character sets, greedy stars over one character or set, and capturing
    groups.  Matching is by backtracking, the longest repetition first, as
    [re] does it. *)

Module Re.

Inductive atom : Type :=
| Chr (c : ascii)                 (* a literal character, possibly escaped *)
| Set_ (cls : ascii -> bool).     (* [...] *)

Inductive item : Type :=
| One (a : atom)                  (* a   *)
| Many (a : atom).                (* a*  *)

Inductive node : Type :=
| Plain (i : item)
| Group (body : list item).       (* ( ... ) *)

Definition regex : Type := list node.

Definition accepts (a : atom) (c : ascii) : bool :=
  match a with
  | Chr c' => Ascii.eqb c c'
  | Set_ cls => cls c
  end.

(** A match object: the text matched by the whole pattern and by each
    group, in order. *)
Record matched : Type := { whole : string; groups : list string }.

Section Items.
Context {R : Type}.

(** [star a k s]: as many characters accepted by [a] as possible, fewer
    when the continuation [k] fails on what follows. *)
Fixpoint star (a : atom) (k : string -> option (string * R)) (s : string)
  : option (string * R) :=
  match s with
  | String c s' =>
      if accepts a c then
        match star a k s' with
        | Some (m, r) => Some (String c m, r)
        | None => k s
        end
      else k s
  | EmptyString => k s
  end.

(** [match_items body k s]: the text consumed by [body] at the start of
    [s], with the result of [k] on the rest. *)
Fixpoint match_items (body : list item) (k : string -> option R) (s : string)
  : option (string * R) :=
  match body with
  | [] => match k s with Some r => Some (EmptyString, r) | None => None end
  | One a :: body' =>
      match s with
      | String c s' =>
          if accepts a c then
            match match_items body' k s' with
            | Some (m, r) => Some (String c m, r)
            | None => None
            end
          else None
      | EmptyString => None
      end
  | Many a :: body' => star a (match_items body' k) s
  end.
End Items.

(** The pattern matched at the start of [s]. *)
Fixpoint match_here (re : regex) (s : string) : option matched :=
  match re with
  | [] => Some {| whole := EmptyString; groups := [] |}
  | Plain i :: re' =>
      match match_items [i] (match_here re') s with
      | Some (m, r) => Some {| whole := m ++ whole r; groups := groups r |}
      | None => None
      end
  | Group body :: re' =>
      match match_items body (match_here re') s with
      | Some (m, r) => Some {| whole := m ++ whole r; groups := m :: groups r |}
      | None => None
      end
  end.

(** [re.match(pattern, s)]: anchored at the start of [s] only. *)
Definition match_ (re : regex) (s : string) : option matched := match_here re s.

(** [re.search(pattern, s)]: the match at the leftmost offset that has one. *)
Fixpoint search (re : regex) (s : string) : option matched :=
  match match_here re s with
  | Some m => Some m
  | None =>
      match s with
      | String _ s' => search re s'
      | EmptyString => None
      end
  end.

(** [m.group()] and [m.group(n)] for [n >= 1]. *)
Definition group0 (m : matched) : string := whole m.
Definition group (n : nat) (m : matched) : option string := nth_error (groups m) (pred n).

(** A literal text as a sequence of pattern nodes. *)
Fixpoint lit (s : string) : regex :=
  match s with
  | EmptyString => []
  | String c s' => Plain (One (Chr c)) :: lit s'
  end.

Definition in_range (lo hi : string) (c : ascii) : bool :=
  match lo, hi with
  | String l _, String h _ =>
      (nat_of_ascii l <=? nat_of_ascii c)%nat && (nat_of_ascii c <=? nat_of_ascii h)%nat
  | _, _ => false
  end.

Definition digit (c : ascii) : bool := in_range "0" "9" c.
Definition letter (c : ascii) : bool := in_range "a" "z" c || in_range "A" "Z" c.
Definition hyphen (c : ascii) : bool := Ascii.eqb c "-".

End Re.

Import Re.

(* ================================================================== *)
(** ** Python values and exceptions *)

(** The values that [json.load] builds.  [JNull] is Python's [None].  The
    keys of an object are distinct, as they are in a [dict].  Numbers are
    integers: the script reads no fractional number. *)
#[warnings="-register-all"]
Inductive json : Type :=
| JNull
| JBool (b : bool)
| JInt (n : Z)
| JStr (s : string)
| JArr (items : list json)
| JObj (fields : list (string * json)).

(** The exceptions that the script can raise.  [PyException msg] is
    [raise Exception(msg)]; the others are raised by the interpreter and its
    library, and only their class is kept. *)
Inductive exn : Type :=
| PyException (msg : string)
| AttributeError      (* [.group] on [None] *)
| TypeError
| KeyError
| IndexError
| ValueError          (* [JSONDecodeError], [UnicodeDecodeError] *)
| OSError.            (* no response from the connection *)

(** How a computation ends: with a value, with an exception that nothing
    catches, or with [exit(code)]. *)
Inductive outcome (A : Type) : Type :=
| Ret (a : A)
| Raise (e : exn)
| Exit (code : Z).
Arguments Ret {A} a.
Arguments Raise {A} e.
Arguments Exit {A} code.

Definition and_then {A B : Type} (o : outcome A) (f : A -> outcome B) : outcome B :=
  match o with
  | Ret a => f a
  | Raise e => Raise e
  | Exit c => Exit c
  end.

Fixpoint lookup {V : Type} (k : string) (d : list (string * V)) : option V :=
  match d with
  | [] => None
  | (k', v) :: d' => if String.eqb k k' then Some v else lookup k d'
  end.

(** [a == b] on decoded JSON values. *)
Fixpoint py_eq (a b : json) {struct a} : bool :=
  match a, b with
  | JNull, JNull => true
  | JBool x, JBool y => Bool.eqb x y
  | JBool x, JInt n => Z.eqb (Z.b2z x) n
  | JInt n, JBool y => Z.eqb n (Z.b2z y)
  | JInt n, JInt m => Z.eqb n m
  | JStr s, JStr t => String.eqb s t
  | JArr xs, JArr ys =>
      (fix all2 (xs ys : list json) {struct xs} : bool :=
         match xs, ys with
         | [], [] => true
         | x :: xs', y :: ys' => py_eq x y && all2 xs' ys'
         | _, _ => false
         end) xs ys
  | JObj d, JObj e =>
      Nat.eqb (List.length d) (List.length e) &&
      (fix each (d : list (string * json)) : bool :=
         match d with
         | [] => true
         | (k, v) :: d' =>
             match lookup k e with
             | Some v' => py_eq v v'
             | None => false
             end && each d'
         end) d
  | _, _ => false
  end.

(** [v[key]] for a string [key]. *)
Definition get_item (v : json) (key : string) : outcome json :=
  match v with
  | JObj d => match lookup key d with Some x => Ret x | None => Raise KeyError end
  | _ => Raise TypeError
  end.

(** [v[0]]. *)
Definition get_first (v : json) : outcome json :=
  match v with
  | JArr (x :: _) => Ret x
  | JArr [] => Raise IndexError
  | JStr (String c _) => Ret (JStr (String c EmptyString))
  | JStr EmptyString => Raise IndexError
  | JObj _ => Raise KeyError
  | _ => Raise TypeError
  end.

(** [len(v)]. *)
Definition py_len (v : json) : outcome nat :=
  match v with
  | JArr l => Ret (List.length l)
  | JObj d => Ret (List.length d)
  | JStr s => Ret (String.length s)
  | _ => Raise TypeError
  end.

Fixpoint chars (s : string) : list json :=
  match s with
  | EmptyString => []
  | String c s' => JStr (String c EmptyString) :: chars s'
  end.

(** The values that [for x in v] goes through. *)
Definition py_iter (v : json) : outcome (list json) :=
  match v with
  | JArr l => Ret l
  | JObj d => Ret (map (fun kv => JStr (fst kv)) d)
  | JStr s => Ret (chars s)
  | _ => Raise TypeError
  end.

(** [a + v] for a [str] [a]. *)
Definition str_add (a : string) (v : json) : outcome string :=
  match v with
  | JStr b => Ret (a ++ b)
  | _ => Raise TypeError
  end.

(** The process exit status that an outcome of the script gives: an uncaught
    exception prints a traceback and exits with status 1. *)
Definition exit_status {A : Type} (o : outcome A) : Z :=
  match o with
  | Ret _ => 0
  | Raise _ => 1
  | Exit c => c
  end.

(* ================================================================== *)
(** ** Effects *)

(** What [connection.request] sends. *)
Record request : Type := {
  rq_method : string;
  rq_host : string;
  rq_path : string;
  rq_headers : list (string * string);
  rq_body : string
}.

(** What [connection.getresponse] gives: a status and a body (as bytes), or
    no response at all. *)
Inductive reply : Type :=
| Response (status : Z) (content : string)
| NoResponse.

(** What a run leaves behind: the lines it printed and the calls of
    [send_https_request] with the status they expected and their reply. *)
Inductive event : Type :=
| Printed (line : string)
| Sent (rq : request) (expected : Z) (r : reply).

(** The number of requests in a trace that satisfy [p]. *)
Definition count_sent (p : request -> bool) (evs : list event) : nat :=
  List.length (filter (fun ev => match ev with Sent rq _ _ => p rq | Printed _ => false end) evs).

(** The surroundings of a run: the state of everything outside the process,
    what [git] prints there, how the servers answer, and the library
    functions that the script calls and that are taken as they are:
    [json.load] on a response body ([None] when it raises), [json.dumps],
    [bytes.decode("utf-8")] ([None] when it raises) and [str] of a list or
    dict. *)
Class Platform : Type := {
  World : Type;
  git : World -> list string -> string;
  https : World -> request -> World * reply;
  json_load : string -> option json;
  json_dumps : json -> string;
  decode_utf8 : string -> option string;
  str_of_container : json -> string
}.

Section Script.

Context {platform : Platform}.

Record run (A : Type) : Type := {
  out : outcome A;
  world : World;
  events : list event
}.
Arguments out {A} r.
Arguments world {A} r.
Arguments events {A} r.
Arguments Build_run {A} out world events.

Definition M (A : Type) : Type := World -> run A.

Definition ret {A : Type} (a : A) : M A :=
  fun w => {| out := Ret a; world := w; events := [] |}.

Definition lift {A : Type} (o : outcome A) : M A :=
  fun w => {| out := o; world := w; events := [] |}.

(** [exit(code)] *)
Definition exit {A : Type} (code : Z) : M A := lift (Exit code).

Definition bind {A B : Type} (m : M A) (f : A -> M B) : M B :=
  fun w =>
    let r := m w in
    match out r with
    | Ret a =>
        let r' := f a (world r) in
        {| out := out r'; world := world r'; events := (events r ++ events r')%list |}
    | Raise e => {| out := Raise e; world := world r; events := events r |}
    | Exit c => {| out := Exit c; world := world r; events := events r |}
    end.

Notation "x <- m ;; k" := (bind m (fun x => k))
  (at level 61, m at next level, right associativity).
Notation "m ;; k" := (bind m (fun _ => k))
  (at level 61, right associativity).

(** [print(line)] *)
Definition print (line : string) : M unit :=
  fun w => {| out := Ret tt; world := w; events := [Printed line] |}.

(** [subprocess.run(args, capture_output=True, text=True).stdout] *)
Definition subprocess_stdout (args : list string) : M string :=
  fun w => {| out := Ret (git w args); world := w; events := [] |}.

(** [str(v)], which is also how an f-string formats [v]. *)
Definition py_str (v : json) : string :=
  match v with
  | JNull => "None"
  | JBool true => "True"
  | JBool false => "False"
  | JInt n => Text.of_Z n
  | JStr s => s
  | JArr _ | JObj _ => str_of_container v
  end.

(** *** Configuration *)

Definition RED : string := Text.esc ++ "[0;31m".
Definition GREEN : string := Text.esc ++ "[0;32m".
Definition BLUE : string := Text.esc ++ "[0;34m".
Definition NC : string := Text.esc ++ "[0m".

Definition JIRA_HOST : string := "jira.atlassian.com".
Definition JIRA_API_VERSION : string := "2".
Definition GITLAB_HOST : string := "gitlab.com".
Definition GITLAB_API_VERSION : string := "v4".
Definition TARGET_BRANCH : string := "develop".
(** [TCRM-[0-9]*] *)
Definition TASK_NAME_REGEX : regex :=
  (lit "TCRM-" ++ [Plain (Many (Set_ digit))])%list.
Definition SQUASH : bool := true.
Definition REMOVE_SOURCE_BRANCH : bool := true.

(** The pattern of [get_project_id]: a slash, the group of [[a-zA-Z0-9\-]*],
    and [\.git]. *)
Definition PROJECT_NAME_REGEX : regex :=
  (lit "/" ++ [Group [Many (Set_ (fun c => letter c || digit c || hyphen c))]]
     ++ lit ".git")%list.

(** The pattern of [get_service_name_from]: an escaped slash, the group of
    [[a-zA-Z\-]*], and [\/-\/merge_requests]. *)
Definition SERVICE_NAME_REGEX : regex :=
  (lit "/" ++ [Group [Many (Set_ (fun c => letter c || hyphen c))]]
     ++ lit "/-/merge_requests")%list.

(** [re.search(pattern, s).group(1)] *)
Definition search_group1 (re : regex) (s : string) : outcome string :=
  match search re s with
  | None => Raise AttributeError
  | Some m =>
      match group 1 m with
      | Some g => Ret g
      | None => Raise IndexError
      end
  end.

(** *** The functions of the script *)

Definition get_current_branch : M string :=
  stdout <- subprocess_stdout ["git"; "branch"; "--show-current"] ;;
  ret (Text.strip_nl stdout).

Definition failure_message (method host path body : string) (status : Z) (text : string)
  : string :=
  RED ++ "Request failed" ++ NC ++ Text.nl ++
  "request: " ++ method ++ " https://" ++ host ++ path ++ Text.nl ++ body ++ Text.nl ++ Text.nl ++
  "response status: " ++ Text.of_Z status ++ Text.nl ++
  "response body: " ++ text.

(** How [send_https_request] ends on a reply. *)
Definition check_reply (method host path body : string) (expected_status : Z) (r : reply)
  : outcome json :=
  match r with
  | NoResponse => Raise OSError
  | Response status content =>
      if negb (Z.eqb status expected_status) then
        match decode_utf8 content with
        | Some text =>
            Raise (PyException (failure_message method host path body status text))
        | None => Raise ValueError
        end
      else
        match json_load content with
        | Some v => Ret v
        | None => Raise ValueError
        end
  end.

Definition send_https_request (method host path : string)
    (headers : list (string * string)) (body : string) (expected_status : Z) : M json :=
  fun w =>
    let rq := {| rq_method := method; rq_host := host; rq_path := path;
                 rq_headers := headers; rq_body := body |} in
    let answer := https w rq in
    {| out := check_reply method host path body expected_status (snd answer);
       world := fst answer;
       events := [Sent rq expected_status (snd answer)] |}.

Section WithTokens.

(** The two credentials, read from the environment when the script is
    loaded. *)
Variables JIRA_TOKEN GITLAB_TOKEN : string.

Fixpoint find_project (remote_url : string) (projects : list json) : outcome json :=
  match projects with
  | [] => Raise (PyException (RED ++ "Cannot find project whith url:" ++ NC ++ " " ++ remote_url))
  | project :: rest =>
      and_then (get_item project "ssh_url_to_repo") (fun ssh =>
      and_then (get_item project "http_url_to_repo") (fun http =>
      if py_eq (JStr remote_url) ssh || py_eq (JStr remote_url) http
      then get_item project "id"
      else find_project remote_url rest))
  end.

Definition projects_path (project_name : string) : string :=
  "/api/" ++ GITLAB_API_VERSION ++ "/projects?" ++
  "archived=false" ++
  "&min_access_level=" ++ "30" ++
  "&simple=true" ++
  "&with_merge_requests_enabled=true" ++
  "&pagination=keyset" ++
  "&per_page=" ++ "100" ++
  "&sort=desc" ++
  "&order_by=id" ++
  "&search=" ++ project_name.

Definition get_project_id : M json :=
  stdout <- subprocess_stdout ["git"; "remote"; "get-url"; "origin"] ;;
  let remote_url := Text.strip_nl stdout in
  project_name <- lift (search_group1 PROJECT_NAME_REGEX remote_url) ;;
  response <- send_https_request "GET" GITLAB_HOST (projects_path project_name)
                [("PRIVATE-TOKEN", GITLAB_TOKEN)] EmptyString 200 ;;
  projects <- lift (py_iter response) ;;
  lift (find_project remote_url projects).

Definition get_user_id : M json :=
  response <- send_https_request "GET" GITLAB_HOST
                ("/api/" ++ GITLAB_API_VERSION ++ "/user")
                [("PRIVATE-TOKEN", GITLAB_TOKEN)] EmptyString 200 ;;
  lift (get_item response "id").

Definition get_already_exist_mr_link (project_id : json)
    (current_branch target_branch : string) : M json :=
  response <- send_https_request "GET" GITLAB_HOST
                ("/api/" ++ GITLAB_API_VERSION ++ "/projects/" ++ py_str project_id
                   ++ "/merge_requests?" ++
                 "state=opened" ++
                 "&source_branch=" ++ current_branch ++
                 "&target_branch=" ++ target_branch)
                [("PRIVATE-TOKEN", GITLAB_TOKEN); ("Content-Type", "application/json")]
                EmptyString 200 ;;
  n <- lift (py_len response) ;;
  if (0 <? n)%nat then
    first <- lift (get_first response) ;;
    lift (get_item first "web_url")
  else ret JNull.

Definition create_mr_request_body (title : string) (current_branch target_branch : string)
    (user_id : json) (squash remove_source_branch : bool) : string :=
  json_dumps (JObj [
    ("title", JStr title);
    ("source_branch", JStr current_branch);
    ("target_branch", JStr target_branch);
    ("assignee_id", user_id);
    ("squash", JBool squash);
    ("remove_source_branch", JBool remove_source_branch)
  ]).

Definition create_mr (project_id : json) (title current_branch target_branch : string)
    (user_id : json) (squash remove_source_branch : bool) : M json :=
  response <- send_https_request "POST" GITLAB_HOST
                ("/api/" ++ GITLAB_API_VERSION ++ "/projects/" ++ py_str project_id
                   ++ "/merge_requests")
                [("PRIVATE-TOKEN", GITLAB_TOKEN); ("Content-Type", "application/json")]
                (create_mr_request_body title current_branch target_branch user_id
                   squash remove_source_branch)
                201 ;;
  lift (get_item response "web_url").

Definition get_task_title (task : string) : M json :=
  response <- send_https_request "GET" JIRA_HOST
                ("/rest/api/" ++ JIRA_API_VERSION ++ "/issue/" ++ task)
                [("Authorization", "Bearer " ++ JIRA_TOKEN)] EmptyString 200 ;;
  lift (and_then (get_item response "fields") (fun fields => get_item fields "summary")).

(** [re.search] takes a [str]: the link comes from a decoded response and
    can be any value. *)
Definition get_service_name_from (mr_link : json) : outcome string :=
  match mr_link with
  | JStr url => search_group1 SERVICE_NAME_REGEX url
  | _ => Raise TypeError
  end.

Fixpoint any_link_to (mr_link : json) (links : list json) : outcome bool :=
  match links with
  | [] => Ret false
  | issue :: rest =>
      and_then (get_item issue "object") (fun object =>
      and_then (get_item object "url") (fun url =>
      if py_eq url mr_link then Ret true else any_link_to mr_link rest))
  end.

Definition remotelink_path (task : string) : string :=
  "/rest/api/" ++ JIRA_API_VERSION ++ "/issue/" ++ task ++ "/remotelink".

Definition is_issue_link_already_exist (task : string) (mr_link : json) : M bool :=
  response <- send_https_request "GET" JIRA_HOST (remotelink_path task)
                [("Authorization", "Bearer " ++ JIRA_TOKEN)] EmptyString 200 ;;
  links <- lift (py_iter response) ;;
  lift (any_link_to mr_link links).

Definition create_jira_issue_link_request_body (mr_link : json) : outcome string :=
  and_then (get_service_name_from mr_link) (fun title =>
  Ret (json_dumps (JObj [
    ("object", JObj [
       ("url", mr_link);
       ("title", JStr title);
       ("icon", JObj [("url16x16", JStr ("https://" ++ GITLAB_HOST ++ "/favicon.ico"))])
    ])
  ]))).

Definition add_jira_issue_link (task : string) (mr_link : json) : M json :=
  body <- lift (create_jira_issue_link_request_body mr_link) ;;
  send_https_request "POST" JIRA_HOST (remotelink_path task)
    [("Authorization", "Bearer " ++ JIRA_TOKEN); ("Content-Type", "application/json")]
    body 201.

(** *** [main], by its banners *)

(** Lines 182-184: the current branch must not be the target. *)
Definition check_not_target (current_branch : string) : M unit :=
  if String.eqb current_branch TARGET_BRANCH then
    print (RED ++ "Cannot open MR:" ++ NC ++ " current branch is target ("
             ++ TARGET_BRANCH ++ ")") ;;
    exit 1
  else ret tt.

(** Lines 186-192: the ticket of the branch. *)
Definition extract_task (current_branch : string) : M string :=
  print ">>> Extracting task name from branch name..." ;;
  match match_ TASK_NAME_REGEX current_branch with
  | None =>
      print (RED ++ "Cannot open MR:" ++ NC ++ " current branch name ("
               ++ TARGET_BRANCH ++ ") doesn't start with 'TCRM-[0-9]*'") ;;
      exit 1
  | Some m =>
      let task := group0 m in
      print task ;;
      ret task
  end.

(** Lines 198-221: the open merge request of the branch, created when
    there is none. *)
Definition find_or_create_mr (project_id : json) (task current_branch : string) : M json :=
  print ">>> Check if MR is already oppened..." ;;
  mr_link <- get_already_exist_mr_link project_id current_branch TARGET_BRANCH ;;
  match mr_link with
  | JNull =>
      print "No open MR was found. A new one will be created" ;;
      print ">>> Getting task title..." ;;
      summary <- get_task_title task ;;
      title <- lift (str_add task summary) ;;
      print title ;;
      print ">>> Creating MR..." ;;
      user_id <- get_user_id ;;
      mr_link <- create_mr project_id title current_branch TARGET_BRANCH user_id
                   SQUASH REMOVE_SOURCE_BRANCH ;;
      print (GREEN ++ "MR opened:" ++ NC ++ " " ++ current_branch) ;;
      print (BLUE ++ py_str mr_link ++ NC) ;;
      ret mr_link
  | _ =>
      print ("MR already opened:" ++ Text.nl ++ BLUE ++ py_str mr_link ++ NC) ;;
      ret mr_link
  end.

(** Lines 223-230: the link from the ticket to the merge request, added
    when the ticket has none. *)
Definition link_task (task : string) (mr_link : json) : M unit :=
  print ">>> Check if MR link in task is already exist..." ;;
  exists_ <- is_issue_link_already_exist task mr_link ;;
  if exists_ : bool then
    print "MR link already added to task"
  else
    print "MR link not found" ;;
    print ">>> Adding MR link to task..." ;;
    _ <- add_jira_issue_link task mr_link ;;
    print (GREEN ++ "MR link added to task" ++ NC).

(** Lines 198-232: [main] from the merge-request check on. *)
Definition main_from_mr_check (project_id : json) (task current_branch : string) : M unit :=
  mr_link <- find_or_create_mr project_id task current_branch ;;
  link_task task mr_link ;;
  print (BLUE ++ "https://" ++ JIRA_HOST ++ "/browse/" ++ task ++ NC).

Definition main : M unit :=
  print ">>> Geting current branch name..." ;;
  current_branch <- get_current_branch ;;
  print current_branch ;;
  check_not_target current_branch ;;
  task <- extract_task current_branch ;;
  print ">>> Getting GitLab project id..." ;;
  project_id <- get_project_id ;;
  print (py_str project_id) ;;
  main_from_mr_check project_id task current_branch.

End WithTokens.

(** The script from its first line: [os.environ] must hold the two tokens. *)
Definition script (environ : list (string * string)) : M unit :=
  match lookup "JIRA_TOKEN" environ with
  | None =>
      print (RED ++ "There is no " ++ Text.dq ++ "JIRA_TOKEN" ++ Text.dq
               ++ " in ENV variables! Exiting..." ++ NC) ;;
      exit 1
  | Some jira_token =>
      match lookup "GITLAB_TOKEN" environ with
      | None =>
          print (RED ++ "There is no " ++ Text.dq ++ "GITLAB_TOKEN" ++ Text.dq
                   ++ " in ENV variables! Exiting..." ++ NC) ;;
          exit 1
      | Some gitlab_token => main jira_token gitlab_token
      end
  end.

End Script.

Arguments out {platform A} r.
Arguments world {platform A} r.
Arguments events {platform A} r.
Arguments Build_run {platform A} out world events.

Notation "x <- m ;; k" := (bind m (fun x => k))
  (at level 61, m at next level, right associativity).
Notation "m ;; k" := (bind m (fun _ => k))
  (at level 61, right associativity).

(* ================================================================== *)
(** ** Vocabulary of the properties *)

(** The longest prefix of [s] made of characters of [cls], and what follows it. *)
Fixpoint take_while (cls : ascii -> bool) (s : string) : string :=
  match s with
  | String c s' => if cls c then String c (take_while cls s') else EmptyString
  | EmptyString => EmptyString
  end.

Fixpoint drop_while (cls : ascii -> bool) (s : string) : string :=
  match s with
  | String c s' => if cls c then drop_while cls s' else s
  | EmptyString => EmptyString
  end.

(** [strip_prefix p s]: what follows [p] in [s], when [s] starts with [p]. *)
Fixpoint strip_prefix (p s : string) : option string :=
  match p, s with
  | EmptyString, _ => Some s
  | String a p', String b s' => if Ascii.eqb b a then strip_prefix p' s' else None
  | String _ _, EmptyString => None
  end.

(** The characters of a service name for [get_service_name_from]. *)
Definition service_char (c : ascii) : bool := letter c || hyphen c.

Definition mr_marker : string := "/-/merge_requests".

(** The offsets of [s], counted from [from], at which [sub] occurs. *)
Fixpoint occurrences (sub s : string) (from : nat) : list nat :=
  ((if prefix sub s then [from] else []) ++
   match s with
   | EmptyString => []
   | String _ s' => occurrences sub s' (S from)
   end)%list.

(** A merge-request URL read as: what precedes the repository segment, the
    segment, the marker, and what follows (the number of the request). *)
Definition mr_url (pre seg post : string) : string :=
  pre ++ "/" ++ seg ++ mr_marker ++ post.

Definition no_slash (s : string) : bool :=
  Text.all (fun c => negb (Ascii.eqb c "/")) s.

(** The pattern of a ticket with the given prefix, [<prefix>-[0-9]*]. *)
Definition ticket_pattern (prefix : string) : regex :=
  (lit (prefix ++ "-") ++ [Plain (Many (Set_ digit))])%list.

(** The search of [get_service_name_from], written out: the first slash
    whose run of service characters is followed by the marker. *)
Fixpoint find_service (s : string) : option string :=
  match s with
  | EmptyString => None
  | String c s' =>
      if Ascii.eqb c "/" && prefix mr_marker (drop_while service_char s')
      then Some (take_while service_char s')
      else find_service s'
  end.

(** The branch that [get_current_branch] reads in [w]. *)
Definition branch_in {platform : Platform} (w : World) : string :=
  Text.strip_nl (git w ["git"; "branch"; "--show-current"]).

(** The remote URL that [get_project_id] reads in [w]. *)
Definition remote_in {platform : Platform} (w : World) : string :=
  Text.strip_nl (git w ["git"; "remote"; "get-url"; "origin"]).

(** No call of [send_https_request] in a trace. *)
Definition no_request (evs : list event) : Prop :=
  count_sent (fun _ => true) evs = 0.

(** The last thing a trace did was to print a message in red. *)
Definition reports_error (evs : list event) : Prop :=
  exists before msg, evs = (before ++ [Printed (RED ++ msg)])%list.

(** The request that creates a merge request: the only [POST] to GitLab. *)
Definition is_create (rq : request) : bool :=
  String.eqb (rq_method rq) "POST" && String.eqb (rq_host rq) GITLAB_HOST.

(** The request that adds a remote link: the only [POST] to Jira. *)
Definition is_add_link (rq : request) : bool :=
  String.eqb (rq_method rq) "POST" && String.eqb (rq_host rq) JIRA_HOST.

(** A call whose response has another status than the expected one. *)
Definition unexpected (ev : event) : bool :=
  match ev with
  | Sent _ expected (Response status _) => negb (Z.eqb status expected)
  | _ => false
  end.

(** The exception that [send_https_request] raises for a call with an
    unexpected status. *)
Definition failure {platform : Platform} (ev : event) : exn :=
  match ev with
  | Sent rq _ (Response status content) =>
      match decode_utf8 content with
      | Some text =>
          PyException
            (failure_message (rq_method rq) (rq_host rq) (rq_path rq) (rq_body rq) status text)
      | None => ValueError
      end
  | _ => OSError
  end.

(** [ends_at_unexpected o evs]: in a run with trace [evs] and outcome [o], a
    call with an unexpected status is the last event and [o] is the exception
    raised for it. *)
Fixpoint ends_at_unexpected {platform : Platform} {A : Type} (o : outcome A)
    (evs : list event) : Prop :=
  match evs with
  | [] => True
  | ev :: rest =>
      if unexpected ev then rest = [] /\ o = Raise (failure ev)
      else ends_at_unexpected o rest
  end.

(** [m] stops at the first call with an unexpected status, in every world. *)
Definition stops_at_unexpected {platform : Platform} {A : Type} (m : M A) : Prop :=
  forall w, ends_at_unexpected (out (m w)) (events (m w)).

(** [m] sends at most [n] requests that satisfy [p], in every world. *)
Definition at_most {platform : Platform} {A : Type} (n : nat) (p : request -> bool)
    (m : M A) : Prop :=
  forall w, count_sent p (events (m w)) <= n.

(** The request of [create_mr]. *)
Definition create_request {platform : Platform} (gitlab_token : string) (project_id : json)
    (title current_branch : string) (user_id : json) : request :=
  {| rq_method := "POST"; rq_host := GITLAB_HOST;
     rq_path := "/api/" ++ GITLAB_API_VERSION ++ "/projects/" ++ py_str project_id
                  ++ "/merge_requests";
     rq_headers := [("PRIVATE-TOKEN", gitlab_token); ("Content-Type", "application/json")];
     rq_body := create_mr_request_body title current_branch TARGET_BRANCH user_id
                  SQUASH REMOVE_SOURCE_BRANCH |}.

(** The request of [get_already_exist_mr_link]. *)
Definition lookup_request {platform : Platform} (gitlab_token : string) (project_id : json)
    (current_branch target_branch : string) : request :=
  {| rq_method := "GET"; rq_host := GITLAB_HOST;
     rq_path := "/api/" ++ GITLAB_API_VERSION ++ "/projects/" ++ py_str project_id
                  ++ "/merge_requests?" ++ "state=opened" ++
                  "&source_branch=" ++ current_branch ++
                  "&target_branch=" ++ target_branch;
     rq_headers := [("PRIVATE-TOKEN", gitlab_token); ("Content-Type", "application/json")];
     rq_body := EmptyString |}.

(** The request of [is_issue_link_already_exist]. *)
Definition links_request (jira_token task : string) : request :=
  {| rq_method := "GET"; rq_host := JIRA_HOST;
     rq_path := remotelink_path task;
     rq_headers := [("Authorization", "Bearer " ++ jira_token)];
     rq_body := EmptyString |}.

(** The request of [add_jira_issue_link] for a link with the given title. *)
Definition add_link_request {platform : Platform} (jira_token task : string) (mr_link : json)
    (title : string) : request :=
  {| rq_method := "POST"; rq_host := JIRA_HOST;
     rq_path := remotelink_path task;
     rq_headers := [("Authorization", "Bearer " ++ jira_token);
                    ("Content-Type", "application/json")];
     rq_body := json_dumps (JObj [
       ("object", JObj [
          ("url", mr_link);
          ("title", JStr title);
          ("icon", JObj [("url16x16", JStr ("https://" ++ GITLAB_HOST ++ "/favicon.ico"))])
       ])
     ]) |}.

(** [entry] is a project of a search result, with its id and clone URLs. *)
Definition project_entry (entry : json) (id : Z) (ssh http : string) : Prop :=
  exists fields,
    entry = JObj fields /\
    lookup "id" fields = Some (JInt id) /\
    lookup "ssh_url_to_repo" fields = Some (JStr ssh) /\
    lookup "http_url_to_repo" fields = Some (JStr http).

(** Every entry of a search result is a project. *)
Definition project_entries (entries : list json) : Prop :=
  Forall (fun entry => exists id ssh http, project_entry entry id ssh http) entries.

(** The entry has [url] as one of its clone URLs. *)
Definition cloned_from (url : string) (entry : json) : Prop :=
  exists id ssh http, project_entry entry id ssh http /\ (ssh = url \/ http = url).

(** [link] is a remote link of a ticket, to [url]. *)
Definition remote_link (link : json) (url : json) : Prop :=
  exists fields object,
    link = JObj fields /\
    lookup "object" fields = Some (JObj object) /\
    lookup "url" object = Some url.

(* ------------------------------------------------------------------ *)
(** *** A platform to run the script on

    The world holds what [git] prints and the replies that the servers will
    give, in order.  Documents are decoded by a table. *)

Module Mock.

Record world : Type := {
  branch_out : string;
  remote_out : string;
  replies : list reply
}.

Definition run_git (w : world) (args : list string) : string :=
  match args with
  | [_; "branch"; _] => branch_out w
  | _ => remote_out w
  end.

Definition answer (w : world) (rq : request) : world * reply :=
  match replies w with
  | r :: rest =>
      ({| branch_out := branch_out w; remote_out := remote_out w; replies := rest |}, r)
  | [] => (w, NoResponse)
  end.

Definition project (id : Z) (path : string) : json :=
  JObj [("id", JInt id);
        ("ssh_url_to_repo", JStr ("git@gitlab.com:" ++ path ++ ".git"));
        ("http_url_to_repo", JStr ("https://gitlab.com/" ++ path ++ ".git"))].

Definition link_to (url : string) : json :=
  JObj [("id", JInt 10000); ("object", JObj [("url", JStr url); ("title", JStr "a link")])].

Definition review (url : string) : json :=
  JObj [("iid", JInt 7); ("web_url", JStr url)].

Definition documents : list (string * json) :=
  [ ("[]", JArr []);
    ("projects", JArr [project 11 "group/my-service-api"; project 12 "group/my-service"]);
    ("others", JArr [project 11 "group/my-service-api"]);
    ("reviews", JArr [review "https://gitlab.com/group/my-service/-/merge_requests/7"]);
    ("projects2", JArr [project 13 "group/my-service2"]);
    ("reviews2", JArr [review "https://gitlab.com/group/my-service2/-/merge_requests/7"]);
    ("review", review "https://gitlab.com/group/my-service/-/merge_requests/8");
    ("issue", JObj [("key", JStr "TCRM-42");
                    ("fields", JObj [("summary", JStr "Fix the bug")])]);
    ("user", JObj [("id", JInt 5); ("username", JStr "dev")]);
    ("links", JArr [link_to "https://example.org/doc";
                    link_to "https://gitlab.com/group/my-service/-/merge_requests/7"]);
    ("link", JObj [("id", JInt 10001)]) ].

(** The document of a value, for texts that need no escape. *)
Fixpoint dumps (v : json) : string :=
  match v with
  | JNull => "null"
  | JBool true => "true"
  | JBool false => "false"
  | JInt n => Text.of_Z n
  | JStr s => Text.dq ++ s ++ Text.dq
  | JArr items =>
      "[" ++
      (fix each (items : list json) : string :=
         match items with
         | [] => EmptyString
         | x :: rest =>
             dumps x ++ match rest with [] => EmptyString | _ => ", " ++ each rest end
         end) items
      ++ "]"
  | JObj fields =>
      "{" ++
      (fix each (fields : list (string * json)) : string :=
         match fields with
         | [] => EmptyString
         | (k, x) :: rest =>
             Text.dq ++ k ++ Text.dq ++ ": " ++ dumps x
             ++ match rest with [] => EmptyString | _ => ", " ++ each rest end
         end) fields
      ++ "}"
  end.

(** The text of ASCII bytes. *)
Definition decode (content : string) : option string :=
  if Text.all (fun c => (nat_of_ascii c <? 128)%nat) content then Some content else None.

Definition platform : Platform := {|
  World := world;
  git := run_git;
  https := answer;
  json_load := fun content => lookup content documents;
  json_dumps := dumps;
  decode_utf8 := decode;
  str_of_container := dumps
|}.

(** A checkout of the repository at [path], on [branch]. *)
Definition checkout (path branch : string) (answers : list reply) : world :=
  {| branch_out := branch ++ Text.nl;
     remote_out := "git@gitlab.com:" ++ path ++ ".git" ++ Text.nl;
     replies := answers |}.

Definition at_branch (branch : string) (answers : list reply) : world :=
  checkout "group/my-service" branch answers.

Definition environ : list (string * string) :=
  [("HOME", "/home/dev"); ("JIRA_TOKEN", "jira-secret"); ("GITLAB_TOKEN", "gitlab-secret")].

(** The URL of a merge request of a repository with a digit in its name. *)
Definition digit_url : string :=
  "https://gitlab.com/group/my-service2/-/merge_requests/7".

(** A body that is no UTF-8 text: the bytes FF FE. *)
Definition binary_body : string :=
  String (ascii_of_nat 255) (String (ascii_of_nat 254) EmptyString).

End Mock.

(* ------------------------------------------------------------------ *)
(** *** Further vocabulary *)

(** The characters of a project name for [get_project_id]. *)
Definition project_char (c : ascii) : bool := letter c || digit c || hyphen c.

Definition git_suffix : string := ".git".

(** A search for a slash, a run of [cls] and [marker], written out: the run
    after the first slash at which [marker] follows the run. *)
Fixpoint find_run (cls : ascii -> bool) (marker s : string) : option string :=
  match s with
  | EmptyString => None
  | String c s' =>
      if Ascii.eqb c "/" && prefix marker (drop_while cls s')
      then Some (take_while cls s')
      else find_run cls marker s'
  end.

(** A remote URL read as: what precedes the name of the project, the name,
    the suffix, and what follows. *)
Definition remote_url_of (pre name post : string) : string :=
  pre ++ "/" ++ name ++ git_suffix ++ post.

(** The request of [get_project_id] for a project name. *)
Definition projects_request (gitlab_token project_name : string) : request :=
  {| rq_method := "GET"; rq_host := GITLAB_HOST;
     rq_path := projects_path project_name;
     rq_headers := [("PRIVATE-TOKEN", gitlab_token)];
     rq_body := EmptyString |}.

(** The request of [get_task_title]. *)
Definition title_request (jira_token task : string) : request :=
  {| rq_method := "GET"; rq_host := JIRA_HOST;
     rq_path := "/rest/api/" ++ JIRA_API_VERSION ++ "/issue/" ++ task;
     rq_headers := [("Authorization", "Bearer " ++ jira_token)];
     rq_body := EmptyString |}.

Definition is_newline (c : ascii) : bool := Ascii.eqb c (ascii_of_nat 10).

Definition starts_with_newline (s : string) : bool :=
  match s with
  | String c _ => is_newline c
  | EmptyString => false
  end.

Definition ends_with_newline (s : string) : bool := starts_with_newline (Text.rev s).

Definition is_post (rq : request) : bool := String.eqb (rq_method rq) "POST".

Definition any_request (rq : request) : bool := true.

(** How the call recorded by an event ended. *)
Definition ended {platform : Platform} (ev : event) : outcome json :=
  match ev with
  | Sent rq expected r =>
      check_reply (rq_method rq) (rq_host rq) (rq_path rq) (rq_body rq) expected r
  | Printed _ => Ret JNull
  end.

(** A call that gave no value. *)
Definition failed {platform : Platform} (ev : event) : bool :=
  match ended ev with
  | Ret _ => false
  | _ => true
  end.

(** [ends_at_failure o evs]: in a run with trace [evs] and outcome [o], a
    call that gave no value is the last event, and [o] is how it ended. *)
Fixpoint ends_at_failure {platform : Platform} {A : Type} (o : outcome A)
    (evs : list event) : Prop :=
  match evs with
  | [] => True
  | ev :: rest =>
      if failed ev then rest = [] /\ exists e, ended ev = Raise e /\ o = Raise e
      else ends_at_failure o rest
  end.

(** [m] goes past a call only when the call gave a value, in every world. *)
Definition halts_at_failure {platform : Platform} {A : Type} (m : M A) : Prop :=
  forall w, ends_at_failure (out (m w)) (events (m w)).

(** A request of the script: a [GET] or a [POST], to GitLab with its token
    and nothing for Jira, or to Jira with its token and nothing for GitLab. *)
Definition authorised (jira_token gitlab_token : string) (ev : event) : Prop :=
  match ev with
  | Printed _ => True
  | Sent rq _ _ =>
      (rq_method rq = "GET" \/ rq_method rq = "POST") /\
      ((rq_host rq = GITLAB_HOST /\
        lookup "PRIVATE-TOKEN" (rq_headers rq) = Some gitlab_token /\
        lookup "Authorization" (rq_headers rq) = None) \/
       (rq_host rq = JIRA_HOST /\
        lookup "Authorization" (rq_headers rq) = Some ("Bearer " ++ jira_token) /\
        lookup "PRIVATE-TOKEN" (rq_headers rq) = None))
  end.

(** Every event of [m] satisfies [P], in every world. *)
Definition always {platform : Platform} {A : Type} (P : event -> Prop) (m : M A) : Prop :=
  forall w, Forall P (events (m w)).

(** The request of [get_user_id]. *)
Definition user_request (gitlab_token : string) : request :=
  {| rq_method := "GET"; rq_host := GITLAB_HOST;
     rq_path := "/api/" ++ GITLAB_API_VERSION ++ "/user";
     rq_headers := [("PRIVATE-TOKEN", gitlab_token)];
     rq_body := EmptyString |}.

(** A test of requests that looks at the method and the host only. *)
Definition by_route (q : string -> string -> bool) (rq : request) : bool :=
  q (rq_method rq) (rq_host rq).

Definition one_if (b : bool) : nat := if b then 1 else 0.

(** The last line that a run prints when it ends well. *)
Definition browse_line (task : string) : string :=
  BLUE ++ "https://" ++ JIRA_HOST ++ "/browse/" ++ task ++ NC.

(* ------------------------------------------------------------------ *)
(** *** More answers for the mock servers *)

Module Lab.

Definition documents : list (string * json) :=
  [ ("twice", JArr [Mock.project 21 "group/my-service"; Mock.project 22 "group/my-service"]);
    ("broken", JArr [JObj [("id", JInt 1)]; Mock.project 12 "group/my-service"]);
    ("nameless", JArr [JObj [("iid", JInt 7)]]);
    ("nulled", JArr [JObj [("iid", JInt 7); ("web_url", JNull)]]);
    ("several", JArr [Mock.review "https://gitlab.com/group/my-service/-/merge_requests/7";
                      JInt 0]);
    ("{}", JObj []);
    ("numbered", JObj [("fields", JObj [("summary", JInt 42)])]);
    ("created", JObj [("iid", JInt 8)]);
    ("mixed", JArr [Mock.link_to "https://gitlab.com/group/my-service/-/merge_requests/7";
                    JObj [("id", JInt 3)]]);
    ("unlinked", JArr [JObj [("id", JInt 3)];
                       Mock.link_to "https://gitlab.com/group/my-service/-/merge_requests/7"]);
    ("plain", JArr [JInt 0; Mock.project 12 "group/my-service"])
  ].

Definition platform : Platform := {|
  World := Mock.world;
  git := Mock.run_git;
  https := Mock.answer;
  json_load := fun content => lookup content (documents ++ Mock.documents)%list;
  json_dumps := Mock.dumps;
  decode_utf8 := Mock.decode;
  str_of_container := Mock.dumps
|}.

(** A checkout whose remote is [remote], on [branch]. *)
Definition cloned (remote branch : string) (answers : list reply) : Mock.world :=
  {| Mock.branch_out := branch ++ Text.nl;
     Mock.remote_out := remote ++ Text.nl;
     Mock.replies := answers |}.

Definition service_url : string :=
  "https://gitlab.com/group/my-service/-/merge_requests/7".

End Lab.

(* ================================================================== *)
(** ** Facts about texts *)

Lemma append_nil_r (s : string) : s ++ EmptyString = s.
Proof. induction s as [|c s IH]; simpl; [reflexivity | now rewrite IH]. Qed.

Lemma append_assoc (a b c : string) : (a ++ b) ++ c = a ++ (b ++ c).
Proof. induction a as [|x a IH]; simpl; [reflexivity | now rewrite IH]. Qed.

Lemma all_append (p : ascii -> bool) (a b : string) :
  Text.all p (a ++ b) = Text.all p a && Text.all p b.
Proof.
  induction a as [|x a IH]; simpl; [reflexivity |].
  now rewrite IH, andb_assoc.
Qed.

Lemma take_drop_while (cls : ascii -> bool) (s : string) :
  take_while cls s ++ drop_while cls s = s.
Proof.
  induction s as [|c s IH]; simpl; [reflexivity |].
  destruct (cls c); simpl; [now rewrite IH | reflexivity].
Qed.

Lemma take_while_all (cls : ascii -> bool) (s : string) :
  Text.all cls (take_while cls s) = true.
Proof.
  induction s as [|c s IH]; simpl; [reflexivity |].
  destruct (cls c) eqn:E; simpl; [now rewrite E | reflexivity].
Qed.

(** A run of [cls] followed by a character outside [cls] is taken whole. *)
Lemma take_while_run (cls : ascii -> bool) (run : string) (c : ascii) (rest : string) :
  Text.all cls run = true -> cls c = false ->
  take_while cls (run ++ String c rest) = run /\
  drop_while cls (run ++ String c rest) = String c rest.
Proof.
  intros Hrun Hc. induction run as [|x run IH]; simpl in *.
  - now rewrite Hc.
  - apply andb_true_iff in Hrun as [Hx Hrun]. rewrite Hx.
    destruct (IH Hrun) as [-> ->]. now split.
Qed.

Lemma strip_prefix_append (p s : string) : strip_prefix p (p ++ s) = Some s.
Proof.
  induction p as [|c p IH]; simpl; [reflexivity |].
  now rewrite Ascii.eqb_refl.
Qed.

Lemma strip_prefix_some (p s t : string) : strip_prefix p s = Some t -> s = p ++ t.
Proof.
  revert s. induction p as [|c p IH]; intros s H; simpl in *.
  - now injection H as ->.
  - destruct s as [|b s]; [discriminate |].
    destruct (Ascii.eqb_spec b c) as [->|]; [|discriminate].
    now rewrite (IH _ H).
Qed.

Lemma prefix_strip (p s : string) :
  prefix p s = match strip_prefix p s with Some _ => true | None => false end.
Proof.
  revert s. induction p as [|c p IH]; intros s.
  - now destruct s.
  - destruct s as [|b s]; [reflexivity |]. simpl.
    destruct (ascii_dec c b) as [->|N].
    + now rewrite Ascii.eqb_refl.
    + destruct (Ascii.eqb_spec b c) as [->|]; [now elim N | reflexivity].
Qed.

Lemma same_length_prefix (a1 r1 a2 r2 : string) :
  a1 ++ r1 = a2 ++ r2 -> String.length a1 = String.length a2 -> a1 = a2 /\ r1 = r2.
Proof.
  revert a2. induction a1 as [|c a1 IH]; intros [|d a2] E L; simpl in *; try discriminate.
  - now split.
  - injection E as -> E. injection L as L. destruct (IH _ E L) as [-> ->]. now split.
Qed.

(** The text after the last slash is determined. *)
Lemma last_slash_unique (a x b y : string) :
  a ++ "/" ++ x = b ++ "/" ++ y -> no_slash x = true -> no_slash y = true ->
  a = b /\ x = y.
Proof.
  unfold no_slash. revert b.
  induction a as [|c a IH]; intros [|d b] E Hx Hy; simpl in *.
  - injection E as ->. now split.
  - injection E as <- ->. rewrite all_append in Hx. simpl in Hx.
    now rewrite andb_false_r in Hx.
  - injection E as -> <-. rewrite all_append in Hy. simpl in Hy.
    now rewrite andb_false_r in Hy.
  - injection E as -> E. destruct (IH _ E Hx Hy) as [-> ->]. now split.
Qed.

Lemma occurrences_here (sub a t : string) (from : nat) :
  prefix sub t = true -> In (from + String.length a) (occurrences sub (a ++ t) from).
Proof.
  intros Ht. revert from. induction a as [|c a IH]; intros from; simpl.
  - destruct t; simpl in *; rewrite Ht; rewrite Nat.add_0_r; now left.
  - apply in_or_app. right.
    replace (from + S (String.length a)) with (S from + String.length a) by lia.
    apply IH.
Qed.

Lemma prefix_append (p s : string) : prefix p (p ++ s) = true.
Proof. now rewrite prefix_strip, strip_prefix_append. Qed.

(* ================================================================== *)
(** ** Facts about matching *)

Lemma match_here_lit (p : string) (re : regex) (s : string) :
  match_here (lit p ++ re)%list s =
  match strip_prefix p s with
  | Some s' =>
      match match_here re s' with
      | Some m => Some {| whole := p ++ whole m; groups := groups m |}
      | None => None
      end
  | None => None
  end.
Proof.
  revert s. induction p as [|c p IH]; intros s; simpl.
  - destruct (match_here re s) as [[w g]|]; reflexivity.
  - destruct s as [|b s]; [reflexivity |]. simpl.
    destruct (Ascii.eqb b c) eqn:E; [|reflexivity].
    apply Ascii.eqb_eq in E as ->.
    rewrite IH. destruct (strip_prefix p s) as [s'|]; [|reflexivity].
    destruct (match_here re s') as [[w g]|]; reflexivity.
Qed.

(** When what follows always matches, the star takes the whole run. *)
Lemma star_total {R : Type} (cls : ascii -> bool) (k : string -> option (string * R)) (r0 : R)
    (s : string) :
  (forall t, k t = Some (EmptyString, r0)) ->
  star (Set_ cls) k s = Some (take_while cls s, r0).
Proof.
  intros Hk. induction s as [|c s IH]; simpl.
  - apply Hk.
  - destruct (cls c); [now rewrite IH | apply Hk].
Qed.

(** When what follows cannot start inside the set, only the whole run can be
    taken. *)
Lemma star_maximal {R : Type} (cls : ascii -> bool) (k : string -> option (string * R))
    (s : string) :
  (forall c t, cls c = true -> k (String c t) = None) ->
  star (Set_ cls) k s =
  match k (drop_while cls s) with
  | Some (m, r) => Some (take_while cls s ++ m, r)
  | None => None
  end.
Proof.
  intros Hk. induction s as [|c s IH]; simpl.
  - destruct (k EmptyString) as [[m r]|]; reflexivity.
  - destruct (cls c) eqn:E.
    + rewrite IH. destruct (k (drop_while cls s)) as [[m r]|]; [reflexivity |].
      now apply Hk.
    + destruct (k (String c s)) as [[m r]|]; reflexivity.
Qed.

Lemma match_ticket_pattern (prefix rest : string) :
  match_ (ticket_pattern prefix) (prefix ++ "-" ++ rest) =
  Some {| whole := prefix ++ "-" ++ take_while digit rest; groups := [] |}.
Proof.
  unfold match_, ticket_pattern.
  rewrite match_here_lit, <- append_assoc, strip_prefix_append. simpl.
  rewrite (star_total digit _ {| whole := EmptyString; groups := [] |}) by reflexivity.
  simpl. now rewrite !append_nil_r, append_assoc.
Qed.

Lemma service_char_not_slash (c : ascii) : service_char c = true -> Ascii.eqb c "/" = false.
Proof.
  intros H. destruct (Ascii.eqb_spec c "/") as [->|]; [discriminate | reflexivity].
Qed.

Lemma match_here_group (body : list item) (re : regex) (s : string) :
  match_here (Group body :: re) s =
  match match_items body (match_here re) s with
  | Some (m, r) => Some {| whole := m ++ whole r; groups := m :: groups r |}
  | None => None
  end.
Proof. reflexivity. Qed.

Lemma match_items_many {R : Type} (a : atom) (k : string -> option R) (s : string) :
  match_items [Many a] k s = star a (match_items [] k) s.
Proof. reflexivity. Qed.

Lemma match_here_marker (t : string) :
  match_here (lit mr_marker) t =
  if prefix mr_marker t then Some {| whole := mr_marker; groups := [] |} else None.
Proof.
  rewrite <- (app_nil_r (lit mr_marker)), match_here_lit, prefix_strip.
  destruct (strip_prefix mr_marker t); reflexivity.
Qed.

Lemma match_here_service (s : string) :
  match_here SERVICE_NAME_REGEX s =
  match s with
  | String c s' =>
      if Ascii.eqb c "/" && prefix mr_marker (drop_while service_char s')
      then Some {| whole := "/" ++ take_while service_char s' ++ mr_marker;
                   groups := [take_while service_char s'] |}
      else None
  | EmptyString => None
  end.
Proof.
  change SERVICE_NAME_REGEX
    with (lit "/" ++ (Group [Many (Set_ service_char)] :: lit mr_marker))%list.
  rewrite match_here_lit.
  destruct s as [|c s]; [reflexivity |].
  cbn [strip_prefix]. destruct (Ascii.eqb c "/"); [|reflexivity].
  rewrite match_here_group, match_items_many, star_maximal.
  - cbn [match_items andb]. rewrite match_here_marker.
    destruct (prefix mr_marker (drop_while service_char s)); [|reflexivity].
    cbn [whole groups]. now rewrite append_nil_r.
  - intros c' t Hc'. cbn [match_items]. rewrite match_here_marker.
    cbn [mr_marker prefix]. destruct (ascii_dec "/" c') as [<-|]; [discriminate | reflexivity].
Qed.

Lemma search_service (s : string) :
  search SERVICE_NAME_REGEX s =
  match find_service s with
  | Some g => Some {| whole := "/" ++ g ++ mr_marker; groups := [g] |}
  | None => None
  end.
Proof.
  induction s as [|c s IH].
  - reflexivity.
  - cbn [search find_service]. rewrite match_here_service.
    destruct (Ascii.eqb c "/" && prefix mr_marker (drop_while service_char s));
      [reflexivity | exact IH].
Qed.

Lemma search_group1_service (s : string) :
  search_group1 SERVICE_NAME_REGEX s =
  match find_service s with
  | Some g => Ret g
  | None => Raise AttributeError
  end.
Proof.
  unfold search_group1. rewrite search_service.
  destruct (find_service s); reflexivity.
Qed.

(** What the search finds is a run of service characters between a slash and
    the marker. *)
Lemma find_service_sound (s g : string) :
  find_service s = Some g ->
  exists a b, s = a ++ "/" ++ g ++ mr_marker ++ b /\ Text.all service_char g = true.
Proof.
  induction s as [|c s IH]; [discriminate |].
  cbn [find_service].
  destruct (Ascii.eqb c "/" && prefix mr_marker (drop_while service_char s)) eqn:E.
  - intros [= <-]. apply andb_true_iff in E as [Ec Ep].
    apply Ascii.eqb_eq in Ec as ->.
    rewrite prefix_strip in Ep.
    destruct (strip_prefix mr_marker (drop_while service_char s)) as [b|] eqn:Eb;
      [|discriminate].
    apply strip_prefix_some in Eb.
    exists EmptyString, b. split; [|apply take_while_all].
    cbn [append]. rewrite <- Eb, take_drop_while. reflexivity.
  - intros H. destruct (IH H) as (a & b & -> & Hg).
    exists (String c a), b. now split.
Qed.

(** A run of service characters between a slash and the marker makes the
    search succeed. *)
Lemma find_service_complete (a g b : string) :
  Text.all service_char g = true ->
  exists g', find_service (a ++ "/" ++ g ++ mr_marker ++ b) = Some g'.
Proof.
  intros Hg. induction a as [|c a IH].
  - exists g. cbn [append find_service].
    destruct (take_while_run service_char g "/" ("-/merge_requests" ++ b) Hg eq_refl)
      as [Ht Hd].
    change (g ++ mr_marker ++ b) with (g ++ String "/" ("-/merge_requests" ++ b)).
    rewrite Ht, Hd.
    change (String "/" ("-/merge_requests" ++ b)) with (mr_marker ++ b).
    now rewrite prefix_append.
  - cbn [append find_service].
    destruct (Ascii.eqb c "/" && prefix mr_marker _); [eauto | exact IH].
Qed.

Lemma service_chars_no_slash (g : string) :
  Text.all service_char g = true -> no_slash g = true.
Proof.
  unfold no_slash. induction g as [|c g IH]; simpl; [reflexivity |].
  intros H. apply andb_true_iff in H as [Hc Hg].
  now rewrite (service_char_not_slash _ Hc), IH.
Qed.

(** In a URL with one marker, the search can only find the segment before it. *)
Lemma find_service_segment (pre seg post g : string) :
  no_slash seg = true ->
  occurrences mr_marker (mr_url pre seg post) 0 = [String.length (pre ++ "/" ++ seg)] ->
  find_service (mr_url pre seg post) = Some g ->
  g = seg /\ Text.all service_char seg = true.
Proof.
  intros Hseg Hocc Hfind.
  destruct (find_service_sound _ _ Hfind) as (a & b & E & Hg).
  assert (E' : (a ++ "/" ++ g) ++ (mr_marker ++ b) = (pre ++ "/" ++ seg) ++ (mr_marker ++ post)).
  { unfold mr_url in E. now rewrite !append_assoc, <- E. }
  assert (L : String.length (a ++ "/" ++ g) = String.length (pre ++ "/" ++ seg)).
  { pose proof (occurrences_here mr_marker (a ++ "/" ++ g) (mr_marker ++ b) 0
                  (prefix_append _ _)) as Hin.
    rewrite E' in Hin.
    replace ((pre ++ "/" ++ seg) ++ mr_marker ++ post) with (mr_url pre seg post) in Hin
      by (unfold mr_url; now rewrite !append_assoc).
    rewrite Hocc in Hin. destruct Hin as [Hin|[]]. now rewrite Hin. }
  destruct (same_length_prefix _ _ _ _ E' L) as [Eq _].
  destruct (last_slash_unique _ _ _ _ Eq (service_chars_no_slash _ Hg) Hseg) as [_ ->].
  now split.
Qed.

Lemma service_name_of_segment (pre seg post : string) :
  Text.all service_char seg = true ->
  occurrences mr_marker (mr_url pre seg post) 0 = [String.length (pre ++ "/" ++ seg)] ->
  get_service_name_from (JStr (mr_url pre seg post)) = Ret seg.
Proof.
  intros Hseg Hocc. cbn [get_service_name_from]. rewrite search_group1_service.
  destruct (find_service_complete pre seg post Hseg) as [g Hg].
  fold (mr_url pre seg post) in Hg. rewrite Hg.
  now destruct (find_service_segment _ _ _ _ (service_chars_no_slash _ Hseg) Hocc Hg) as [-> _].
Qed.

Lemma no_service_name (pre seg post : string) :
  no_slash seg = true ->
  Text.all service_char seg = false ->
  occurrences mr_marker (mr_url pre seg post) 0 = [String.length (pre ++ "/" ++ seg)] ->
  get_service_name_from (JStr (mr_url pre seg post)) = Raise AttributeError.
Proof.
  intros Hslash Hseg Hocc. cbn [get_service_name_from]. rewrite search_group1_service.
  destruct (find_service (mr_url pre seg post)) as [g|] eqn:Hg; [|reflexivity].
  destruct (find_service_segment _ _ _ _ Hslash Hocc Hg) as [_ H]. congruence.
Qed.

(* ================================================================== *)
(** ** Facts about runs *)

Section Runs.

Context {platform : Platform}.

Lemma bind_ret {A B : Type} (m : M A) (f : A -> M B) (w : World) (a : A) :
  out (m w) = Ret a ->
  bind m f w =
  {| out := out (f a (world (m w)));
     world := world (f a (world (m w)));
     events := (events (m w) ++ events (f a (world (m w))))%list |}.
Proof. intros H. unfold bind. now rewrite H. Qed.

Lemma bind_raise {A B : Type} (m : M A) (f : A -> M B) (w : World) (e : exn) :
  out (m w) = Raise e ->
  bind m f w = {| out := Raise e; world := world (m w); events := events (m w) |}.
Proof. intros H. unfold bind. now rewrite H. Qed.

Lemma bind_print {B : Type} (line : string) (f : unit -> M B) (w : World) :
  bind (print line) f w =
  {| out := out (f tt w); world := world (f tt w);
     events := Printed line :: events (f tt w) |}.
Proof. reflexivity. Qed.

(** One step of the script on a known state of affairs. *)
Ltac exec :=
  cbn [script main main_from_mr_check find_or_create_mr link_task extract_task
       check_not_target get_current_branch
       bind print ret lift exit subprocess_stdout out world events app].

(** C6. When the current branch is the target branch, the script ends with
    [exit(1)], a status that is not zero, and has sent no request. *)
Theorem exits_on_target_branch (environ : list (string * string)) (w : World) :
  branch_in w = TARGET_BRANCH ->
  out (script environ w) = Exit 1 /\
  exit_status (out (script environ w)) <> 0%Z /\
  no_request (events (script environ w)).
Proof.
  intros Hb. unfold script.
  destruct (lookup "JIRA_TOKEN" environ) as [jt|]; [|now cbv].
  destruct (lookup "GITLAB_TOKEN" environ) as [gt|]; [|now cbv].
  exec. fold (branch_in w). rewrite Hb. change (TARGET_BRANCH =? TARGET_BRANCH) with true.
  exec. split; [|split]; [reflexivity | discriminate | reflexivity].
Qed.

(** C5. When the current branch does not match the ticket pattern, the
    script ends with [exit(1)], a status that is not zero, after printing an
    error message, and has sent no request. *)
Theorem exits_on_unticketed_branch (environ : list (string * string)) (w : World) :
  match_ TASK_NAME_REGEX (branch_in w) = None ->
  out (script environ w) = Exit 1 /\
  exit_status (out (script environ w)) <> 0%Z /\
  no_request (events (script environ w)) /\
  reports_error (events (script environ w)).
Proof.
  intros Hm. unfold script, reports_error.
  destruct (lookup "JIRA_TOKEN" environ) as [jt|];
    [|exec; split; [|split; [|split]];
      [reflexivity | discriminate | reflexivity | now eexists [], _]].
  destruct (lookup "GITLAB_TOKEN" environ) as [gt|];
    [|exec; split; [|split; [|split]];
      [reflexivity | discriminate | reflexivity | now eexists [], _]].
  exec. fold (branch_in w). unfold check_not_target.
  destruct (branch_in w =? TARGET_BRANCH); exec.
  - split; [|split; [|split]]; [reflexivity | discriminate | reflexivity |].
    now eexists [_; _], _.
  - unfold extract_task. exec. rewrite Hm. exec.
    split; [|split; [|split]]; [reflexivity | discriminate | reflexivity |].
    now eexists [_; _; _], _.
Qed.

Lemma drop_while_head (cls : ascii -> bool) (s : string) :
  match drop_while cls s with
  | String c _ => cls c = false
  | EmptyString => True
  end.
Proof.
  induction s as [|c s IH]; simpl; [exact I |].
  destruct (cls c) eqn:E; [exact IH | exact E].
Qed.

Lemma extract_task_ticket (rest : string) (w : World) :
  extract_task ("TCRM-" ++ rest) w =
  {| out := Ret ("TCRM-" ++ take_while digit rest);
     world := w;
     events := [Printed ">>> Extracting task name from branch name...";
                Printed ("TCRM-" ++ take_while digit rest)] |}.
Proof.
  unfold extract_task.
  change TASK_NAME_REGEX with (ticket_pattern "TCRM").
  change ("TCRM-" ++ rest) with ("TCRM" ++ "-" ++ rest).
  rewrite match_ticket_pattern. reflexivity.
Qed.

(** C7. The ticket is the text matched by the pattern at the start of the
    branch: for the pattern of a prefix and a branch [<prefix>-<digits>-<rest>]
    it is [<prefix>-<digits>]; the pattern of the script is the one of the
    prefix [TCRM], for which [extract_task] returns it; and the branch
    [TICKET-42-fix-bug] gives [TICKET-42] under the pattern of [TICKET]. *)
Theorem ticket_is_matched_prefix (prefix digits rest : string) (w : World) :
  Text.all digit digits = true ->
  option_map group0
    (match_ (ticket_pattern prefix) (prefix ++ "-" ++ digits ++ "-" ++ rest))
    = Some (prefix ++ "-" ++ digits) /\
  TASK_NAME_REGEX = ticket_pattern "TCRM" /\
  out (extract_task ("TCRM-" ++ digits ++ "-" ++ rest) w) = Ret ("TCRM-" ++ digits) /\
  option_map group0 (match_ (ticket_pattern "TICKET") "TICKET-42-fix-bug")
    = Some "TICKET-42".
Proof.
  intros Hd.
  destruct (take_while_run digit digits "-" rest Hd eq_refl) as [Ht _].
  change (digits ++ "-" ++ rest) with (digits ++ String "-" rest).
  split; [|split; [|split]].
  - now rewrite match_ticket_pattern, Ht.
  - reflexivity.
  - now rewrite extract_task_ticket, Ht.
  - reflexivity.
Qed.

(** C9. A branch that starts with [TCRM-] passes the two gates of [main],
    whatever follows: the ticket is [TCRM-] with the longest run of digits
    after it, which is empty when no digit follows, and the run goes on to
    the look-up of the project. *)
Theorem bare_prefix_passes_gate (rest jira_token gitlab_token : string) (w : World) :
  branch_in w = "TCRM-" ++ rest ->
  out (extract_task (branch_in w) w) = Ret ("TCRM-" ++ take_while digit rest) /\
  (exists later,
     events (main jira_token gitlab_token w) =
     (Printed ">>> Geting current branch name..." ::
      Printed (branch_in w) ::
      Printed ">>> Extracting task name from branch name..." ::
      Printed ("TCRM-" ++ take_while digit rest) ::
      Printed ">>> Getting GitLab project id..." :: later)) /\
  (exists tail,
     rest = take_while digit rest ++ tail /\
     Text.all digit (take_while digit rest) = true /\
     match tail with String c _ => digit c = false | EmptyString => True end) /\
  (match rest with String c _ => digit c = false | EmptyString => True end ->
   out (extract_task (branch_in w) w) = Ret "TCRM-").
Proof.
  intros Hb. split; [|split; [|split]].
  - now rewrite Hb, extract_task_ticket.
  - unfold main, get_current_branch, check_not_target.
    cbn [bind print ret subprocess_stdout out world events app].
    fold (branch_in w). rewrite Hb.
    change ("TCRM-" ++ rest =? TARGET_BRANCH) with false.
    cbn [bind print ret subprocess_stdout out world events app].
    rewrite (bind_ret (extract_task _) _ w ("TCRM-" ++ take_while digit rest))
      by now rewrite extract_task_ticket.
    rewrite extract_task_ticket.
    cbn [bind print ret subprocess_stdout out world events app].
    eexists. reflexivity.
  - exists (drop_while digit rest). split; [|split].
    + now rewrite take_drop_while.
    + apply take_while_all.
    + apply drop_while_head.
  - intros Hc. rewrite Hb, extract_task_ticket.
    destruct rest as [|c rest]; [reflexivity |]. cbn [take_while]. now rewrite Hc.
Qed.

Lemma link_body_of_segment (pre seg post : string) :
  get_service_name_from (JStr (mr_url pre seg post)) = Ret seg ->
  create_jira_issue_link_request_body (JStr (mr_url pre seg post)) =
  Ret (json_dumps (JObj [
    ("object", JObj [
       ("url", JStr (mr_url pre seg post));
       ("title", JStr seg);
       ("icon", JObj [("url16x16", JStr "https://gitlab.com/favicon.ico")])])])).
Proof. intros H. unfold create_jira_issue_link_request_body. now rewrite H. Qed.

(** X19. What [get_service_name_from] derives: whenever it returns a title, the
    title is a path segment of the URL that comes just before
    [/-/merge_requests]; a segment of letters and hyphens before the only
    marker of the URL is returned, and is the title in the body of the link;
    and [https://host/group/my-service/-/merge_requests/7] gives
    [my-service]. *)
Lemma display_title_is_segment (pre seg post : string) :
  Text.all service_char seg = true ->
  occurrences mr_marker (mr_url pre seg post) 0 = [String.length (pre ++ "/" ++ seg)] ->
  get_service_name_from (JStr (mr_url pre seg post)) = Ret seg /\
  create_jira_issue_link_request_body (JStr (mr_url pre seg post)) =
    Ret (json_dumps (JObj [
      ("object", JObj [
         ("url", JStr (mr_url pre seg post));
         ("title", JStr seg);
         ("icon", JObj [("url16x16", JStr "https://gitlab.com/favicon.ico")])])])) /\
  (forall url title,
     get_service_name_from (JStr url) = Ret title ->
     exists before after,
       url = before ++ "/" ++ title ++ mr_marker ++ after /\ no_slash title = true) /\
  get_service_name_from (JStr "https://host/group/my-service/-/merge_requests/7")
    = Ret "my-service".
Proof.
  intros Hseg Hocc.
  pose proof (service_name_of_segment pre seg post Hseg Hocc) as Hname.
  split; [exact Hname | split; [now apply link_body_of_segment | split]].
  - intros url title H. cbn [get_service_name_from] in H.
    rewrite search_group1_service in H.
    destruct (find_service url) as [g|] eqn:Hg; [|discriminate].
    injection H as <-.
    destruct (find_service_sound _ _ Hg) as (a & b & E & Hall).
    exists a, b. split; [exact E | now apply service_chars_no_slash].
  - reflexivity.
Qed.

(** C10. For a merge-request URL whose repository segment has a character
    that is neither a letter nor a hyphen, the pattern finds nothing and
    [.group] fails on [None]: [get_service_name_from], the construction of
    the body and [add_jira_issue_link] end with [AttributeError] before any
    request is sent, and the step that links the ticket ends with this
    exception, not with [exit(1)] after an error message. *)
Theorem bad_segment_raises_uncaught (pre seg post jira_token task : string) (w : World) :
  no_slash seg = true ->
  Text.all service_char seg = false ->
  occurrences mr_marker (mr_url pre seg post) 0 = [String.length (pre ++ "/" ++ seg)] ->
  let mr_link := JStr (mr_url pre seg post) in
  search SERVICE_NAME_REGEX (mr_url pre seg post) = None /\
  get_service_name_from mr_link = Raise AttributeError /\
  create_jira_issue_link_request_body mr_link = Raise AttributeError /\
  out (add_jira_issue_link jira_token task mr_link w) = Raise AttributeError /\
  events (add_jira_issue_link jira_token task mr_link w) = [] /\
  (out (is_issue_link_already_exist jira_token task mr_link w) = Ret false ->
   out (link_task jira_token task mr_link w) = Raise AttributeError /\
   out (link_task jira_token task mr_link w) <> Exit 1 /\
   count_sent is_add_link (events (link_task jira_token task mr_link w)) = 0 /\
   ~ reports_error (events (link_task jira_token task mr_link w))).
Proof.
  intros Hslash Hseg Hocc mr_link.
  pose proof (no_service_name pre seg post Hslash Hseg Hocc) as Hname.
  assert (Hbody : create_jira_issue_link_request_body mr_link = Raise AttributeError).
  { unfold create_jira_issue_link_request_body. subst mr_link. now rewrite Hname. }
  assert (Hadd : forall w', add_jira_issue_link jira_token task mr_link w' =
                 {| out := Raise AttributeError; world := w'; events := [] |}).
  { intros w'. unfold add_jira_issue_link. unfold bind. cbn [lift out world events].
    now rewrite Hbody. }
  split; [|split; [exact Hname | split; [exact Hbody | split; [|split]]]].
  - rewrite search_service.
    cbn [get_service_name_from] in Hname. rewrite search_group1_service in Hname.
    now destruct (find_service (mr_url pre seg post)).
  - now rewrite Hadd.
  - now rewrite Hadd.
  - intros Hcheck. unfold link_task.
    rewrite bind_print. cbn [out world events].
    rewrite (bind_ret _ _ _ _ Hcheck). cbn [out world events].
    rewrite !bind_print. cbn [out world events].
    rewrite (bind_raise _ _ _ AttributeError) by now rewrite Hadd.
    rewrite Hadd. cbn [out world events].
    split; [reflexivity | split; [discriminate | split]].
    + unfold is_issue_link_already_exist, bind.
      cbn [send_https_request out world events].
      destruct (check_reply _ _ _ _ _ _) as [v| |]; cbn [out world events];
        [|reflexivity..].
      cbn [lift out world events].
      destruct (py_iter v); reflexivity.
    + intros (before & msg & E).
      apply (f_equal (@List.rev event)) in E.
      rewrite rev_app_distr in E. cbn [List.rev app] in E.
      rewrite !rev_app_distr in E. cbn [List.rev app] in E.
      discriminate E.
Qed.

(** *** A call with an unexpected status ends the run *)

Lemma ends_ret_quiet {A : Type} (a : A) (evs : list event) :
  ends_at_unexpected (Ret a) evs -> forallb (fun ev => negb (unexpected ev)) evs = true.
Proof.
  induction evs as [|ev evs IH]; simpl; [reflexivity |].
  destruct (unexpected ev); simpl; [intros [_ H]; discriminate | exact IH].
Qed.

Lemma ends_exit_quiet {A : Type} (c : Z) (evs : list event) :
  ends_at_unexpected (@Exit A c) evs -> forallb (fun ev => negb (unexpected ev)) evs = true.
Proof.
  induction evs as [|ev evs IH]; simpl; [reflexivity |].
  destruct (unexpected ev); simpl; [intros [_ H]; discriminate | exact IH].
Qed.

Lemma quiet_ends {A : Type} (o : outcome A) (evs later : list event) :
  forallb (fun ev => negb (unexpected ev)) evs = true ->
  ends_at_unexpected o later -> ends_at_unexpected o (evs ++ later).
Proof.
  induction evs as [|ev evs IH]; simpl; [auto |].
  destruct (unexpected ev); simpl; [discriminate | exact IH].
Qed.

Lemma ends_raise_any {A B : Type} (e : exn) (evs : list event) :
  ends_at_unexpected (@Raise A e) evs -> ends_at_unexpected (@Raise B e) evs.
Proof.
  induction evs as [|ev evs IH]; simpl; [auto |].
  destruct (unexpected ev); [|exact IH].
  intros [-> H]. injection H as ->. now split.
Qed.

Lemma stops_bind {A B : Type} (m : M A) (f : A -> M B) :
  stops_at_unexpected m -> (forall a, stops_at_unexpected (f a)) ->
  stops_at_unexpected (bind m f).
Proof.
  intros Hm Hf w. specialize (Hm w). unfold bind.
  destruct (out (m w)) as [a|e|c] eqn:E; cbn [out events].
  - apply quiet_ends; [now apply (ends_ret_quiet a) | apply Hf].
  - now apply (ends_raise_any (A := A)).
  - pose proof (ends_exit_quiet _ _ Hm) as Hq.
    rewrite <- (app_nil_r (events (m w))). now apply quiet_ends.
Qed.

Lemma stops_lift {A : Type} (o : outcome A) : stops_at_unexpected (lift o).
Proof. intros w. exact I. Qed.

Lemma stops_print (line : string) : stops_at_unexpected (print line).
Proof. intros w. exact I. Qed.

Lemma stops_subprocess (args : list string) : stops_at_unexpected (subprocess_stdout args).
Proof. intros w. exact I. Qed.

Lemma stops_send (method host path : string) (headers : list (string * string))
    (body : string) (expected : Z) :
  stops_at_unexpected (send_https_request method host path headers body expected).
Proof.
  intros w. cbn [send_https_request out events ends_at_unexpected unexpected].
  destruct (snd (https w _)) as [status content|]; [|exact I].
  cbn [check_reply failure rq_method rq_host rq_path rq_body].
  destruct (negb (status =? expected)%Z); [|exact I].
  split; [reflexivity |]. now destruct (decode_utf8 content).
Qed.

Ltac stops :=
  repeat first
    [ apply stops_print | apply stops_send | apply stops_subprocess
    | apply stops_lift
    | apply stops_bind; [|intros ?]
    | match goal with
      | |- stops_at_unexpected (match ?x with _ => _ end) => destruct x
      end ].

Lemma stops_main (jira_token gitlab_token : string) :
  stops_at_unexpected (main jira_token gitlab_token).
Proof.
  unfold main, main_from_mr_check, link_task, find_or_create_mr, extract_task,
    check_not_target, get_current_branch, get_project_id, get_already_exist_mr_link,
    get_task_title, get_user_id, create_mr, is_issue_link_already_exist,
    add_jira_issue_link, exit, ret.
  stops.
Qed.

Lemma stops_script (environ : list (string * string)) :
  stops_at_unexpected (script environ).
Proof.
  unfold script.
  destruct (lookup "JIRA_TOKEN" environ); [|unfold exit; stops].
  destruct (lookup "GITLAB_TOKEN" environ); [|unfold exit; stops].
  apply stops_main.
Qed.

(** What [ends_at_unexpected] says of an event of the trace. *)
Lemma ends_at_unexpected_in {A : Type} (o : outcome A) (evs : list event) (ev : event) :
  ends_at_unexpected o evs -> In ev evs -> unexpected ev = true ->
  o = Raise (failure ev) /\ exists before, evs = (before ++ [ev])%list.
Proof.
  induction evs as [|x evs IH]; simpl; [intros _ [] |].
  intros H [->|Hin] Hev.
  - rewrite Hev in H. destruct H as [-> H]. split; [exact H | now exists []].
  - destruct (unexpected x) eqn:Ex.
    + destruct H as [-> _]. destruct Hin.
    + destruct (IH H Hin Hev) as [Ho [before ->]].
      split; [exact Ho | now exists (x :: before)].
Qed.

Ltac occurs_between a b :=
  exists a, b; unfold failure_message; repeat rewrite append_assoc;
  rewrite ?append_nil_r; reflexivity.

Lemma failure_message_parts (method host path body : string) (status : Z) (text : string) :
  let msg := failure_message method host path body status text in
  Text.occurs method msg /\
  Text.occurs ("https://" ++ host ++ path) msg /\
  Text.occurs body msg /\
  Text.occurs (Text.of_Z status) msg /\
  Text.occurs text msg.
Proof.
  cbv zeta. split; [|split; [|split; [|split]]].
  - occurs_between
      (RED ++ "Request failed" ++ NC ++ Text.nl ++ "request: ")
      (" https://" ++ host ++ path ++ Text.nl ++ body ++ Text.nl ++ Text.nl ++
       "response status: " ++ Text.of_Z status ++ Text.nl ++ "response body: " ++ text).
  - occurs_between
      (RED ++ "Request failed" ++ NC ++ Text.nl ++ "request: " ++ method ++ " ")
      (Text.nl ++ body ++ Text.nl ++ Text.nl ++
       "response status: " ++ Text.of_Z status ++ Text.nl ++ "response body: " ++ text).
  - occurs_between
      (RED ++ "Request failed" ++ NC ++ Text.nl ++ "request: " ++ method ++ " https://"
         ++ host ++ path ++ Text.nl)
      (Text.nl ++ Text.nl ++
       "response status: " ++ Text.of_Z status ++ Text.nl ++ "response body: " ++ text).
  - occurs_between
      (RED ++ "Request failed" ++ NC ++ Text.nl ++ "request: " ++ method ++ " https://"
         ++ host ++ path ++ Text.nl ++ body ++ Text.nl ++ Text.nl ++ "response status: ")
      (Text.nl ++ "response body: " ++ text).
  - occurs_between
      (RED ++ "Request failed" ++ NC ++ Text.nl ++ "request: " ++ method ++ " https://"
         ++ host ++ path ++ Text.nl ++ body ++ Text.nl ++ Text.nl ++ "response status: "
         ++ Text.of_Z status ++ Text.nl ++ "response body: ")
      EmptyString.
Qed.

(** The status in the message is written in decimal: it reads back as the
    status. *)
Lemma of_Z_reads_back (n : Z) :
  option_map Z.of_int (NilZero.int_of_string (Text.of_Z n)) = Some n.
Proof.
  unfold Text.of_Z. rewrite NilZero.isi.
  - cbn [option_map]. now rewrite DecimalZ.of_to.
  - destruct n as [|p|p]; cbn; try discriminate.
    intros [= H]. now apply (Unsigned.to_uint_nonnil p).
  - destruct n as [|p|p]; cbn; try discriminate.
    intros [= H]. now apply (Unsigned.to_uint_nonnil p).
Qed.

(** X20. What [send_https_request] gives, by the answer.  The call is
    recorded once.  On a status other than the expected one it raises: when
    the body of the response is UTF-8 text, an [Exception] whose message
    holds the method, the URL, the body of the request, the status in
    decimal and the body of the response; when it is not, the error of the
    decoding.  A run of the script in which a call has another status than
    the expected one ends at this call, with its exception and the exit
    status 1.  On the expected status, the decoded JSON body is returned,
    and the error of the decoding is raised for a body that is no JSON. *)
Theorem unexpected_status_raises (method host path : string)
    (headers : list (string * string)) (body : string) (expected : Z) (w : World)
    (status : Z) (content : string) :
  let rq := {| rq_method := method; rq_host := host; rq_path := path;
               rq_headers := headers; rq_body := body |} in
  let r := send_https_request method host path headers body expected w in
  snd (https w rq) = Response status content ->
  events r = [Sent rq expected (Response status content)] /\
  (status <> expected ->
     (exists e, out r = Raise e) /\
     (forall text, decode_utf8 content = Some text ->
        let msg := failure_message method host path body status text in
        out r = Raise (PyException msg) /\
        Text.occurs method msg /\
        Text.occurs ("https://" ++ host ++ path) msg /\
        Text.occurs body msg /\
        Text.occurs (Text.of_Z status) msg /\
        option_map Z.of_int (NilZero.int_of_string (Text.of_Z status)) = Some status /\
        Text.occurs text msg) /\
     (decode_utf8 content = None -> out r = Raise ValueError) /\
     (forall environ w0,
        In (Sent rq expected (Response status content)) (events (script environ w0)) ->
        (exists e, out r = Raise e /\ out (script environ w0) = Raise e) /\
        exit_status (out (script environ w0)) = 1%Z /\
        (exists before,
           events (script environ w0) =
           (before ++ [Sent rq expected (Response status content)])%list))) /\
  (status = expected ->
     (forall v, json_load content = Some v -> out r = Ret v) /\
     (json_load content = None -> out r = Raise ValueError)).
Proof.
  intros rq r Hreply. subst r.
  cbn [send_https_request out events]. fold rq. rewrite Hreply. cbn [check_reply].
  split; [reflexivity | split].
  - intros Hne. apply Z.eqb_neq in Hne. rewrite Hne. cbn [negb].
    split; [|split; [|split]].
    + destruct (decode_utf8 content); eauto.
    + intros text Ht. rewrite Ht. split; [reflexivity |].
      destruct (failure_message_parts method host path body status text)
        as (Hm & Hu & Hb & Hs & Ht').
      repeat split; try assumption. apply of_Z_reads_back.
    + intros Hnone. now rewrite Hnone.
    + intros environ w0 Hin.
      destruct (ends_at_unexpected_in _ _ _ (stops_script environ w0) Hin) as [Ho Hlast].
      { cbn [unexpected]. now rewrite Hne. }
      rewrite Ho. cbn [failure rq rq_method rq_host rq_path rq_body].
      split; [|split; [reflexivity | exact Hlast]].
      destruct (decode_utf8 content); eauto.
  - intros ->. rewrite Z.eqb_refl. cbn [negb]. split.
    + intros v Hv. now rewrite Hv.
    + intros Hnone. now rewrite Hnone.
Qed.

(** *** The look-up of the project *)

Lemma project_entry_items (entry : json) (id : Z) (ssh http : string) :
  project_entry entry id ssh http ->
  get_item entry "ssh_url_to_repo" = Ret (JStr ssh) /\
  get_item entry "http_url_to_repo" = Ret (JStr http) /\
  get_item entry "id" = Ret (JInt id).
Proof.
  intros (fields & -> & Hid & Hssh & Hhttp). cbn [get_item].
  now rewrite Hid, Hssh, Hhttp.
Qed.

Lemma find_project_other (url : string) (entry : json) (rest : list json) :
  (exists id ssh http, project_entry entry id ssh http) ->
  ~ cloned_from url entry ->
  find_project url (entry :: rest) = find_project url rest.
Proof.
  intros (id & ssh & http & He) Hno.
  destruct (project_entry_items _ _ _ _ He) as (Hs & Hh & _).
  cbn [find_project]. rewrite Hs, Hh. cbn [and_then py_eq].
  destruct (String.eqb_spec url ssh) as [->|_].
  - elim Hno. exists id, ssh, http. auto.
  - destruct (String.eqb_spec url http) as [->|_]; [|reflexivity].
    elim Hno. exists id, ssh, http. auto.
Qed.

Lemma find_project_first (url : string) (before : list json) (entry : json)
    (after : list json) (id : Z) (ssh http : string) :
  project_entries before ->
  (forall other, In other before -> ~ cloned_from url other) ->
  project_entry entry id ssh http ->
  ssh = url \/ http = url ->
  find_project url (before ++ entry :: after) = Ret (JInt id).
Proof.
  intros Hwf Hno He Hurl. induction before as [|x before IH]; cbn [app].
  - destruct (project_entry_items _ _ _ _ He) as (Hs & Hh & Hi).
    cbn [find_project]. rewrite Hs, Hh, Hi. cbn [and_then py_eq].
    destruct Hurl as [->| ->]; rewrite String.eqb_refl; [reflexivity |].
    now rewrite orb_true_r.
  - inversion Hwf as [|? ? Hx Hrest]; subst.
    rewrite find_project_other; [|exact Hx | apply Hno; now left].
    apply IH; [exact Hrest |]. intros other Hin. apply Hno. now right.
Qed.

Lemma find_project_none (url : string) (entries : list json) :
  project_entries entries ->
  (forall entry, In entry entries -> ~ cloned_from url entry) ->
  find_project url entries =
  Raise (PyException (RED ++ "Cannot find project whith url:" ++ NC ++ " " ++ url)).
Proof.
  intros Hwf Hno. induction entries as [|x entries IH]; [reflexivity |].
  inversion Hwf as [|? ? Hx Hrest]; subst.
  rewrite find_project_other; [|exact Hx | apply Hno; now left].
  apply IH; [exact Hrest |]. intros entry Hin. apply Hno. now right.
Qed.

Lemma get_project_id_found (gitlab_token name content : string) (entries : list json)
    (w : World) :
  search_group1 PROJECT_NAME_REGEX (remote_in w) = Ret name ->
  snd (https w {| rq_method := "GET"; rq_host := GITLAB_HOST;
                  rq_path := projects_path name;
                  rq_headers := [("PRIVATE-TOKEN", gitlab_token)];
                  rq_body := EmptyString |}) = Response 200 content ->
  json_load content = Some (JArr entries) ->
  out (get_project_id gitlab_token w) = find_project (remote_in w) entries.
Proof.
  intros Hname Hreply Hload. unfold get_project_id, bind.
  cbn [subprocess_stdout out world events]. fold (remote_in w).
  rewrite Hname. cbn [lift out world events send_https_request].
  rewrite Hreply. cbn [check_reply Z.eqb Pos.eqb negb]. rewrite Hload.
  cbn [py_iter lift out world events]. reflexivity.
Qed.

(** C3. When the search answers with a list of projects, [get_project_id]
    returns the numeric id of the entry whose SSH or HTTPS clone URL is the
    URL of the remote, for a result in which exactly one entry has it, and
    raises an exception whose message ends with the URL of the remote when
    no entry has it. *)
Theorem project_id_of_matching_entry (gitlab_token name content : string)
    (entries : list json) (w : World) :
  search_group1 PROJECT_NAME_REGEX (remote_in w) = Ret name ->
  snd (https w {| rq_method := "GET"; rq_host := GITLAB_HOST;
                  rq_path := projects_path name;
                  rq_headers := [("PRIVATE-TOKEN", gitlab_token)];
                  rq_body := EmptyString |}) = Response 200 content ->
  json_load content = Some (JArr entries) ->
  project_entries entries ->
  (forall before entry after id ssh http,
     entries = (before ++ entry :: after)%list ->
     project_entry entry id ssh http ->
     ssh = remote_in w \/ http = remote_in w ->
     (forall other, In other before \/ In other after -> ~ cloned_from (remote_in w) other) ->
     out (get_project_id gitlab_token w) = Ret (JInt id)) /\
  ((forall entry, In entry entries -> ~ cloned_from (remote_in w) entry) ->
   out (get_project_id gitlab_token w) =
     Raise (PyException (RED ++ "Cannot find project whith url:" ++ NC ++ " " ++ remote_in w))).
Proof.
  intros Hname Hreply Hload Hwf.
  rewrite (get_project_id_found _ _ _ _ _ Hname Hreply Hload).
  split.
  - intros before entry after id ssh http -> He Hurl Hno.
    apply (find_project_first _ _ _ _ id ssh http); auto.
    unfold project_entries in *. rewrite Forall_app in Hwf. tauto.
  - intros Hno. now apply find_project_none.
Qed.

(** *** Counting requests *)

Lemma count_sent_app (p : request -> bool) (evs later : list event) :
  count_sent p (evs ++ later) = count_sent p evs + count_sent p later.
Proof. unfold count_sent. now rewrite filter_app, length_app. Qed.

Lemma count_sent_cons_printed (p : request -> bool) (line : string) (evs : list event) :
  count_sent p (Printed line :: evs) = count_sent p evs.
Proof. reflexivity. Qed.

Lemma count_sent_cons_sent (p : request -> bool) (rq : request) (expected : Z) (r : reply)
    (evs : list event) :
  count_sent p (Sent rq expected r :: evs) = (if p rq then 1 else 0) + count_sent p evs.
Proof. unfold count_sent. cbn [filter]. now destruct (p rq). Qed.

Lemma at_most_bind {A B : Type} (a b : nat) (p : request -> bool) (m : M A) (f : A -> M B) :
  at_most a p m -> (forall x, at_most b p (f x)) -> at_most (a + b) p (bind m f).
Proof.
  intros Hm Hf w. specialize (Hm w). unfold bind.
  destruct (out (m w)) as [x|e|c]; cbn [events]; [|lia..].
  rewrite count_sent_app. specialize (Hf x (world (m w))). lia.
Qed.

Lemma at_most_lift {A : Type} (p : request -> bool) (o : outcome A) : at_most 0 p (lift o).
Proof. intros w. reflexivity. Qed.

Lemma at_most_print (p : request -> bool) (line : string) : at_most 0 p (print line).
Proof. intros w. reflexivity. Qed.

Lemma at_most_send (p : request -> bool) (method host path : string)
    (headers : list (string * string)) (body : string) (expected : Z) :
  p {| rq_method := method; rq_host := host; rq_path := path;
       rq_headers := headers; rq_body := body |} = false ->
  at_most 0 p (send_https_request method host path headers body expected).
Proof. intros Hp w. unfold count_sent. cbn. now rewrite Hp. Qed.

Ltac quiet :=
  repeat first
    [ apply at_most_print | apply at_most_lift
    | apply at_most_send; reflexivity
    | apply (at_most_bind 0 0); [|intros ?]
    | match goal with
      | |- at_most _ _ (match ?x with _ => _ end) => destruct x
      end ].

Lemma lookup_sends_no_create (gitlab_token : string) (project_id : json)
    (current_branch target_branch : string) :
  at_most 0 is_create
    (get_already_exist_mr_link gitlab_token project_id current_branch target_branch).
Proof. unfold get_already_exist_mr_link, ret. quiet. Qed.

Lemma title_sends_no_create (jira_token task : string) :
  at_most 0 is_create (get_task_title jira_token task).
Proof. unfold get_task_title. quiet. Qed.

Lemma user_sends_no_create (gitlab_token : string) :
  at_most 0 is_create (get_user_id gitlab_token).
Proof. unfold get_user_id. quiet. Qed.

Lemma link_task_sends_no_create (jira_token task : string) (mr_link : json) :
  at_most 0 is_create (link_task jira_token task mr_link).
Proof.
  unfold link_task, is_issue_link_already_exist, add_jira_issue_link. quiet.
Qed.

(** What [create_mr] leaves in the trace: its request, once. *)
Lemma create_mr_events (gitlab_token : string) (project_id : json)
    (title current_branch target_branch : string) (user_id : json)
    (squash remove_source_branch : bool) (w : World) :
  let rq := {| rq_method := "POST"; rq_host := GITLAB_HOST;
               rq_path := "/api/" ++ GITLAB_API_VERSION ++ "/projects/" ++ py_str project_id
                            ++ "/merge_requests";
               rq_headers := [("PRIVATE-TOKEN", gitlab_token);
                              ("Content-Type", "application/json")];
               rq_body := create_mr_request_body title current_branch target_branch
                            user_id squash remove_source_branch |} in
  events (create_mr gitlab_token project_id title current_branch target_branch user_id
            squash remove_source_branch w)
  = [Sent rq 201 (snd (https w rq))].
Proof.
  cbv zeta. unfold create_mr, bind. cbn [send_https_request out world events].
  destruct (check_reply _ _ _ _ _ _); reflexivity.
Qed.

Lemma events_bind_stop {A B : Type} (m : M A) (f : A -> M B) (w : World) :
  (forall a, out (m w) <> Ret a) -> events (bind m f w) = events (m w).
Proof.
  intros H. unfold bind. destruct (out (m w)) as [a|e|c]; [now elim (H a) | reflexivity..].
Qed.

Lemma at_most_bind_le {A B : Type} (a b n : nat) (p : request -> bool)
    (m : M A) (f : A -> M B) :
  a + b <= n ->
  at_most a p m -> (forall x, at_most b p (f x)) -> at_most n p (bind m f).
Proof.
  intros Hle Hm Hf w. pose proof (at_most_bind a b p m f Hm Hf w). lia.
Qed.

Lemma at_most_zero {A : Type} (p : request -> bool) (m : M A) (w : World) :
  at_most 0 p m -> count_sent p (events (m w)) = 0.
Proof. intros H. specialize (H w). lia. Qed.

Lemma create_mr_sends_one (gitlab_token : string) (project_id : json)
    (title current_branch target_branch : string) (user_id : json)
    (squash remove_source_branch : bool) (w : World) :
  count_sent is_create
    (events (create_mr gitlab_token project_id title current_branch target_branch
               user_id squash remove_source_branch w)) = 1.
Proof. now rewrite create_mr_events. Qed.

Lemma find_or_create_at_most_once (jira_token gitlab_token : string) (project_id : json)
    (task current_branch : string) :
  at_most 1 is_create
    (find_or_create_mr jira_token gitlab_token project_id task current_branch).
Proof.
  unfold find_or_create_mr.
  apply (at_most_bind_le 0 1); [lia | apply at_most_print | intros _].
  apply (at_most_bind_le 0 1); [lia | apply lookup_sends_no_create | intros mr_link].
  assert (Hquiet : at_most 1 is_create
            (print ("MR already opened:" ++ Text.nl ++ BLUE ++ py_str mr_link ++ NC) ;;
             ret mr_link)).
  { apply (at_most_bind_le 0 0); [lia | apply at_most_print | intros _; apply at_most_lift]. }
  destruct mr_link; try exact Hquiet.
  apply (at_most_bind_le 0 1); [lia | apply at_most_print | intros _].
  apply (at_most_bind_le 0 1); [lia | apply at_most_print | intros _].
  apply (at_most_bind_le 0 1); [lia | apply title_sends_no_create | intros summary].
  apply (at_most_bind_le 0 1); [lia | apply at_most_lift | intros title].
  apply (at_most_bind_le 0 1); [lia | apply at_most_print | intros _].
  apply (at_most_bind_le 0 1); [lia | apply at_most_print | intros _].
  apply (at_most_bind_le 0 1); [lia | apply user_sends_no_create | intros user_id].
  apply (at_most_bind_le 1 0); [lia | | intros created].
  - intros w. rewrite create_mr_sends_one. lia.
  - unfold ret. quiet.
Qed.

Lemma rest_sends_no_create (jira_token task : string) (mr_link : json) :
  at_most 0 is_create
    (link_task jira_token task mr_link ;;
     print (BLUE ++ "https://" ++ JIRA_HOST ++ "/browse/" ++ task ++ NC)).
Proof.
  apply (at_most_bind 0 0); [apply link_task_sends_no_create | intros _; apply at_most_print].
Qed.

Lemma creates_of_main (jira_token gitlab_token : string) (project_id : json)
    (task current_branch : string) (w : World) :
  count_sent is_create
    (events (main_from_mr_check jira_token gitlab_token project_id task current_branch w))
  = count_sent is_create
      (events (find_or_create_mr jira_token gitlab_token project_id task current_branch w)).
Proof.
  unfold main_from_mr_check, bind at 1.
  destruct (out (find_or_create_mr _ _ _ _ _ w)) as [mr_link| |]; cbn [events];
    [|reflexivity..].
  rewrite count_sent_app.
  rewrite (at_most_zero _ _ _ (rest_sends_no_create jira_token task mr_link)). lia.
Qed.

(** The branch of [find_or_create_mr] that reuses an open merge request. *)
Lemma find_or_create_reuses (jira_token gitlab_token : string) (project_id : json)
    (task current_branch : string) (w : World) (mr_link : json) :
  let found := get_already_exist_mr_link gitlab_token project_id current_branch
                 TARGET_BRANCH w in
  out found = Ret mr_link -> mr_link <> JNull ->
  find_or_create_mr jira_token gitlab_token project_id task current_branch w =
  {| out := Ret mr_link;
     world := world found;
     events := (Printed ">>> Check if MR is already oppened..." ::
                events found ++
                [Printed ("MR already opened:" ++ Text.nl ++ BLUE ++ py_str mr_link ++ NC)])%list
  |}.
Proof.
  intros found Hfound Hlink. unfold find_or_create_mr.
  rewrite bind_print. fold found in Hfound |- *.
  rewrite (bind_ret _ _ _ _ Hfound). fold found.
  destruct mr_link; try (now elim Hlink); reflexivity.
Qed.

(** The branch of [find_or_create_mr] in which the look-up did not return. *)
Lemma find_or_create_stops (jira_token gitlab_token : string) (project_id : json)
    (task current_branch : string) (w : World) :
  let found := get_already_exist_mr_link gitlab_token project_id current_branch
                 TARGET_BRANCH w in
  (forall mr_link, out found <> Ret mr_link) ->
  events (find_or_create_mr jira_token gitlab_token project_id task current_branch w) =
  Printed ">>> Check if MR is already oppened..." :: events found.
Proof.
  intros found Hfound. unfold find_or_create_mr.
  rewrite bind_print. cbn [events]. f_equal.
  now apply events_bind_stop.
Qed.

Lemma create_then_quiet {B : Type} (gitlab_token : string) (project_id : json)
    (title current_branch : string) (user_id : json) (k : json -> M B) (w : World) :
  (forall created, at_most 0 is_create (k created)) ->
  let rq := create_request gitlab_token project_id title current_branch user_id in
  exists after,
    events (bind (create_mr gitlab_token project_id title current_branch TARGET_BRANCH
                    user_id SQUASH REMOVE_SOURCE_BRANCH) k w)
    = Sent rq 201 (snd (https w rq)) :: after /\
    count_sent is_create after = 0.
Proof.
  intros Hk rq. unfold bind at 1.
  pose proof (create_mr_events gitlab_token project_id title current_branch TARGET_BRANCH
                user_id SQUASH REMOVE_SOURCE_BRANCH w) as Hev.
  cbv zeta in Hev. fold (create_request gitlab_token project_id title current_branch user_id)
    in Hev. fold rq in Hev.
  destruct (out (create_mr _ _ _ _ _ _ _ _ w)) as [created| |]; cbn [events]; rewrite Hev.
  - eexists. split; [reflexivity |]. now apply at_most_zero.
  - now exists [].
  - now exists [].
Qed.

(** The branch of [find_or_create_mr] that creates a merge request. *)
Lemma find_or_create_creates (jira_token gitlab_token : string) (project_id : json)
    (task current_branch : string) (w : World) (summary : string) (user_id : json) :
  let found := get_already_exist_mr_link gitlab_token project_id current_branch
                 TARGET_BRANCH w in
  let titled := get_task_title jira_token task (world found) in
  let user := get_user_id gitlab_token (world titled) in
  let rq := create_request gitlab_token project_id (task ++ summary) current_branch
              user_id in
  out found = Ret JNull ->
  out titled = Ret (JStr summary) ->
  out user = Ret user_id ->
  exists before after,
    events (find_or_create_mr jira_token gitlab_token project_id task current_branch w)
    = (before ++ Sent rq 201 (snd (https (world user) rq)) :: after)%list /\
    count_sent is_create before = 0 /\
    count_sent is_create after = 0.
Proof.
  intros found titled user rq Hfound Htitled Huser. unfold find_or_create_mr.
  rewrite bind_print. fold found. rewrite (bind_ret _ _ _ _ Hfound). fold found.
  cbn [out world events]. rewrite !bind_print. cbn [out world events].
  fold titled. rewrite (bind_ret _ _ _ _ Htitled). fold titled.
  cbn [out world events].
  change (str_add task (JStr summary)) with (Ret (task ++ summary)).
  rewrite (bind_ret (lift (Ret (task ++ summary))) _ _ (task ++ summary)) by reflexivity.
  cbn [lift out world events app]. rewrite !bind_print. cbn [out world events].
  fold user. rewrite (bind_ret _ _ _ _ Huser). fold user. cbn [out world events].
  match goal with
  | |- context [events (bind (create_mr _ _ _ _ _ _ _ _) ?k ?w0)] =>
      destruct (create_then_quiet gitlab_token project_id (task ++ summary)
                  current_branch user_id k w0) as (after & -> & Hafter)
  end.
  { intros created. unfold ret. quiet. }
  fold rq.
  exists (Printed ">>> Check if MR is already oppened..." ::
          events found ++
          Printed "No open MR was found. A new one will be created" ::
          Printed ">>> Getting task title..." ::
          events titled ++
          Printed (task ++ summary) ::
          Printed ">>> Creating MR..." ::
          events user)%list, after.
  split; [|split; [|exact Hafter]].
  - cbn [app]. f_equal. rewrite <- !app_assoc. cbn [app]. f_equal. f_equal. f_equal.
    rewrite <- !app_assoc. reflexivity.
  - rewrite count_sent_cons_printed, count_sent_app, !count_sent_cons_printed,
      count_sent_app, !count_sent_cons_printed.
    unfold found, titled, user.
    rewrite (at_most_zero _ _ _ (lookup_sends_no_create _ _ _ _)),
      (at_most_zero _ _ _ (title_sends_no_create _ _)),
      (at_most_zero _ _ _ (user_sends_no_create _)).
    reflexivity.
Qed.

(** What the look-up returns on a list of open merge requests. *)
Lemma lookup_on_list (gitlab_token : string) (project_id : json)
    (current_branch target_branch content : string) (found : list json) (w : World) :
  snd (https w (lookup_request gitlab_token project_id current_branch target_branch))
    = Response 200 content ->
  json_load content = Some (JArr found) ->
  out (get_already_exist_mr_link gitlab_token project_id current_branch target_branch w) =
  match found with
  | first :: _ => get_item first "web_url"
  | [] => Ret JNull
  end.
Proof.
  intros Hreply Hload. unfold get_already_exist_mr_link, bind, lookup_request in *.
  cbn [send_https_request out world events]. rewrite Hreply.
  cbn [check_reply Z.eqb Pos.eqb negb]. rewrite Hload.
  cbn [py_len lift out world events].
  destruct found as [|first others]; reflexivity.
Qed.

(** *** The link from the ticket *)

Lemma any_link_to_links (mr_link : json) (links urls : list json) :
  Forall2 remote_link links urls ->
  any_link_to mr_link links = Ret (existsb (fun url => py_eq url mr_link) urls).
Proof.
  induction 1 as [|link url links urls (fields & object & -> & Hobject & Hurl) _ IH];
    [reflexivity |].
  cbn [any_link_to get_item existsb]. rewrite Hobject. cbn [and_then get_item].
  rewrite Hurl. cbn [and_then].
  destruct (py_eq url mr_link); [reflexivity | exact IH].
Qed.

Lemma check_on_links (jira_token task content : string) (mr_link : json)
    (links urls : list json) (w : World) :
  snd (https w (links_request jira_token task)) = Response 200 content ->
  json_load content = Some (JArr links) ->
  Forall2 remote_link links urls ->
  out (is_issue_link_already_exist jira_token task mr_link w)
  = Ret (existsb (fun url => py_eq url mr_link) urls).
Proof.
  intros Hreply Hload Hlinks. unfold is_issue_link_already_exist, bind, links_request in *.
  cbn [send_https_request out world events]. rewrite Hreply.
  cbn [check_reply Z.eqb Pos.eqb negb]. rewrite Hload.
  cbn [py_iter lift out world events]. now apply any_link_to_links.
Qed.

Lemma check_sends_no_link (jira_token task : string) (mr_link : json) :
  at_most 0 is_add_link (is_issue_link_already_exist jira_token task mr_link).
Proof. unfold is_issue_link_already_exist. quiet. Qed.

(** The step that links the ticket, by what the check returned: no request
    to add a link when the ticket has one; one request, with the link and
    the title found in it, when the ticket has none and a title is found. *)
Lemma link_added_once (jira_token task : string) (mr_link : json) (w : World) :
  let checked := is_issue_link_already_exist jira_token task mr_link w in
  let r := link_task jira_token task mr_link w in
  (out checked = Ret true ->
     out r = Ret tt /\ count_sent is_add_link (events r) = 0) /\
  (forall title,
     out checked = Ret false ->
     get_service_name_from mr_link = Ret title ->
     let rq := add_link_request jira_token task mr_link title in
     count_sent is_add_link (events r) = 1 /\
     exists before after,
       events r = (before ++ Sent rq 201 (snd (https (world checked) rq)) :: after)%list /\
       count_sent is_add_link before = 0 /\
       count_sent is_add_link after = 0).
Proof.
  intros checked r. split.
  - intros Hcheck. unfold r, link_task. rewrite bind_print. fold checked.
    rewrite (bind_ret _ _ _ _ Hcheck). fold checked. cbn [print out world events].
    split; [reflexivity |].
    rewrite count_sent_cons_printed, count_sent_app.
    unfold checked. now rewrite (at_most_zero _ _ _ (check_sends_no_link _ _ _)).
  - intros title Hcheck Htitle rq.
    assert (Hev : exists after,
              events r =
              ((Printed ">>> Check if MR link in task is already exist..." ::
                events checked ++
                [Printed "MR link not found"; Printed ">>> Adding MR link to task..."]) ++
               Sent rq 201 (snd (https (world checked) rq)) :: after)%list /\
              count_sent is_add_link after = 0).
    { unfold r, link_task. rewrite bind_print. fold checked.
      rewrite (bind_ret _ _ _ _ Hcheck). fold checked. cbn [out world events].
      rewrite !bind_print. cbn [out world events].
      unfold add_jira_issue_link, create_jira_issue_link_request_body.
      rewrite Htitle. cbn [and_then].
      unfold bind. cbn [lift send_https_request out world events app].
      fold (add_link_request jira_token task mr_link title). fold rq.
      destruct (check_reply _ _ _ _ _ _); cbn [out world events print app].
      - eexists. split; [|shelve]. cbn [app]. f_equal. rewrite <- app_assoc.
        cbn [app]. reflexivity.
      - eexists. split; [|shelve]. cbn [app]. f_equal. rewrite <- app_assoc.
        cbn [app]. reflexivity.
      - eexists. split; [|shelve]. cbn [app]. f_equal. rewrite <- app_assoc.
        cbn [app]. reflexivity.
      Unshelve. all: reflexivity. }
    destruct Hev as (after & Hev & Hafter).
    assert (Hbefore : count_sent is_add_link
              (Printed ">>> Check if MR link in task is already exist..." ::
               events checked ++
               [Printed "MR link not found"; Printed ">>> Adding MR link to task..."]) = 0).
    { rewrite count_sent_cons_printed, count_sent_app.
      unfold checked. now rewrite (at_most_zero _ _ _ (check_sends_no_link _ _ _)). }
    split; [|eauto].
    rewrite Hev, count_sent_app, count_sent_cons_sent, Hbefore, Hafter. reflexivity.
Qed.

Lemma py_eq_str (v : json) (u : string) : py_eq v (JStr u) = true <-> v = JStr u.
Proof.
  destruct v; cbn [py_eq]; try (split; [discriminate | intros [=]]).
  rewrite String.eqb_eq. split; [now intros -> | now intros [= ->]].
Qed.

Lemma linked_to (u : string) (urls : list json) :
  existsb (fun url => py_eq url (JStr u)) urls = true <-> In (JStr u) urls.
Proof.
  rewrite existsb_exists. split.
  - intros (url & Hin & Heq). apply py_eq_str in Heq. now subst.
  - intros Hin. exists (JStr u). split; [exact Hin | now apply py_eq_str].
Qed.

(** X18. The step that links the ticket, by the links that the tracker lists for
    it: nothing is added when one of them is to the URL of the merge request;
    when none is and the URL gives a title, the link is added once, with this
    URL and this title. *)
Lemma link_task_on_links (jira_token task u content : string) (links urls : list json)
    (w : World) :
  snd (https w (links_request jira_token task)) = Response 200 content ->
  json_load content = Some (JArr links) ->
  Forall2 remote_link links urls ->
  let r := link_task jira_token task (JStr u) w in
  (In (JStr u) urls -> out r = Ret tt /\ count_sent is_add_link (events r) = 0) /\
  (~ In (JStr u) urls ->
   forall title, get_service_name_from (JStr u) = Ret title ->
   count_sent is_add_link (events r) = 1 /\
   exists reply, In (Sent (add_link_request jira_token task (JStr u) title) 201 reply)
                    (events r)).
Proof.
  intros Hreply Hload Hlinks r.
  pose proof (check_on_links jira_token task content (JStr u) links urls w
                Hreply Hload Hlinks) as Hcheck.
  destruct (link_added_once jira_token task (JStr u) w) as [Hthere Habsent].
  split.
  - intros Hin. apply Hthere. rewrite Hcheck. f_equal. now apply linked_to.
  - intros Hno title Htitle.
    assert (Hfalse : existsb (fun url => py_eq url (JStr u)) urls = false).
    { destruct (existsb _ urls) eqn:E; [|reflexivity]. now apply linked_to in E. }
    rewrite Hfalse in Hcheck.
    destruct (Habsent title Hcheck Htitle) as (Hone & before & after & Hev & _).
    split; [exact Hone |]. eexists. unfold r. rewrite Hev.
    apply in_or_app. right. now left.
Qed.

(** *** From the start of [main] to the check of the merge request *)

Lemma main_reaches_mr_check (jira_token gitlab_token : string) (w : World) (m : matched)
    (project_id : json) :
  String.eqb (branch_in w) TARGET_BRANCH = false ->
  match_ TASK_NAME_REGEX (branch_in w) = Some m ->
  out (get_project_id gitlab_token w) = Ret project_id ->
  let rest := main_from_mr_check jira_token gitlab_token project_id (group0 m) (branch_in w)
                (world (get_project_id gitlab_token w)) in
  out (main jira_token gitlab_token w) = out rest /\
  events (main jira_token gitlab_token w) =
    (Printed ">>> Geting current branch name..." ::
     Printed (branch_in w) ::
     Printed ">>> Extracting task name from branch name..." ::
     Printed (group0 m) ::
     Printed ">>> Getting GitLab project id..." ::
     events (get_project_id gitlab_token w) ++
     Printed (py_str project_id) :: events rest)%list.
Proof.
  intros Hbranch Hmatch Hproject rest.
  unfold main, get_current_branch, check_not_target, extract_task.
  cbn [bind print ret subprocess_stdout out world events app].
  fold (branch_in w). rewrite Hbranch.
  cbn [bind print ret subprocess_stdout out world events app].
  rewrite Hmatch.
  cbn [bind print ret subprocess_stdout out world events app].
  rewrite (bind_ret _ _ _ _ Hproject).
  cbn [bind print ret subprocess_stdout out world events app].
  fold rest. split; reflexivity.
Qed.

(* ------------------------------------------------------------------ *)
(** *** The output of git *)

Lemma rev_acc_append (s acc : string) : Text.rev_acc s acc = Text.rev s ++ acc.
Proof.
  unfold Text.rev. revert acc. induction s as [|c s IH]; intros acc; cbn [Text.rev_acc].
  - reflexivity.
  - rewrite IH, (IH (String c EmptyString)), append_assoc. reflexivity.
Qed.

Lemma rev_append (a b : string) : Text.rev (a ++ b) = Text.rev b ++ Text.rev a.
Proof.
  induction a as [|c a IH]; cbn [append].
  - unfold Text.rev at 3. cbn [Text.rev_acc]. now rewrite append_nil_r.
  - unfold Text.rev at 1 3. cbn [Text.rev_acc].
    rewrite !rev_acc_append, IH, append_assoc. reflexivity.
Qed.

Lemma rev_involutive (s : string) : Text.rev (Text.rev s) = s.
Proof.
  induction s as [|c s IH]; [reflexivity |].
  change (String c s) with (String c EmptyString ++ s) at 1.
  rewrite rev_append, rev_append, IH. reflexivity.
Qed.

Lemma rev_newlines (s : string) :
  Text.all is_newline s = true -> Text.all is_newline (Text.rev s) = true.
Proof.
  induction s as [|c s IH]; [reflexivity |].
  cbn [Text.all]. intros H. apply andb_true_iff in H as [Hc Hs].
  change (String c s) with (String c EmptyString ++ s).
  rewrite rev_append, all_append, (IH Hs).
  cbv [Text.rev Text.rev_acc Text.all]. now rewrite Hc.
Qed.

Lemma lstrip_newlines (a s : string) :
  Text.all is_newline a = true -> Text.lstrip_nl (a ++ s) = Text.lstrip_nl s.
Proof.
  induction a as [|c a IH]; [reflexivity |].
  cbn [Text.all append Text.lstrip_nl]. intros H. apply andb_true_iff in H as [Hc Ha].
  unfold is_newline in Hc. rewrite Hc. now apply IH.
Qed.

Lemma lstrip_fixed (s : string) :
  starts_with_newline s = false -> Text.lstrip_nl s = s.
Proof.
  destruct s as [|c s]; [reflexivity |].
  cbn [starts_with_newline Text.lstrip_nl]. unfold is_newline. now intros ->.
Qed.

Lemma lstrip_all_newlines (s : string) :
  Text.all is_newline s = true -> Text.lstrip_nl s = EmptyString.
Proof.
  intros H. rewrite <- (append_nil_r s). now rewrite lstrip_newlines.
Qed.

Lemma starts_append (a b : string) :
  a <> EmptyString -> starts_with_newline (a ++ b) = starts_with_newline a.
Proof. destruct a; [now intros [] | reflexivity]. Qed.

Lemma rev_not_empty (s : string) : s <> EmptyString -> Text.rev s <> EmptyString.
Proof.
  intros Hs E. apply Hs. rewrite <- (rev_involutive s), E. reflexivity.
Qed.

(** What [s.strip] keeps of a text between two runs of newlines. *)
Lemma strip_nl_between (a core b : string) :
  Text.all is_newline a = true ->
  Text.all is_newline b = true ->
  starts_with_newline core = false ->
  ends_with_newline core = false ->
  Text.strip_nl (a ++ core ++ b) = core.
Proof.
  intros Ha Hb Hstart Hend. unfold Text.strip_nl.
  rewrite (lstrip_newlines a _ Ha).
  destruct core as [|c core].
  - cbn [append]. rewrite (lstrip_all_newlines b Hb). reflexivity.
  - rewrite (lstrip_fixed (String c core ++ b)) by exact Hstart.
    rewrite rev_append, (lstrip_newlines _ _ (rev_newlines _ Hb)).
    rewrite (lstrip_fixed (Text.rev (String c core))) by exact Hend.
    apply rev_involutive.
Qed.

(** X1. [get_current_branch] gives what git printed without the newlines
    around it, and keeps what is between them: for an output made of
    newlines, a text that neither starts nor ends with a newline, and
    newlines, it returns the text, prints nothing and sends nothing. *)
Theorem current_branch_is_stripped (w : World) (a core b : string) :
  git w ["git"; "branch"; "--show-current"] = a ++ core ++ b ->
  Text.all is_newline a = true ->
  Text.all is_newline b = true ->
  starts_with_newline core = false ->
  ends_with_newline core = false ->
  get_current_branch w = {| out := Ret core; world := w; events := [] |}.
Proof.
  intros Hgit Ha Hb Hstart Hend. unfold get_current_branch, bind.
  cbn [subprocess_stdout ret out world events app].
  now rewrite Hgit, strip_nl_between.
Qed.

(* ------------------------------------------------------------------ *)
(** *** The gate of the ticket *)

Lemma match_task_name (branch : string) :
  match_ TASK_NAME_REGEX branch =
  match strip_prefix "TCRM-" branch with
  | Some rest => Some {| whole := "TCRM-" ++ take_while digit rest; groups := [] |}
  | None => None
  end.
Proof.
  unfold match_, TASK_NAME_REGEX. rewrite match_here_lit.
  destruct (strip_prefix "TCRM-" branch) as [rest|]; [|reflexivity].
  cbn [match_here match_items].
  rewrite (star_total digit _ {| whole := EmptyString; groups := [] |}) by reflexivity.
  cbn [whole groups]. now rewrite !append_nil_r.
Qed.

(** X2. The gate of the ticket looks at the start of the branch only, and at
    its case: [extract_task] returns exactly for the branches that start with
    [TCRM-], with a ticket that is the start of the branch; for every other
    branch it ends with [exit(1)] after a message that names the target
    branch, not the branch that was refused. *)
Theorem ticket_gate_is_a_prefix_test (branch : string) (w : World) :
  (prefix "TCRM-" branch = true ->
   exists rest,
     branch = "TCRM-" ++ rest /\
     out (extract_task branch w) = Ret ("TCRM-" ++ take_while digit rest) /\
     prefix ("TCRM-" ++ take_while digit rest) branch = true) /\
  (prefix "TCRM-" branch = false ->
   extract_task branch w =
   {| out := Exit 1;
      world := w;
      events := [Printed ">>> Extracting task name from branch name...";
                 Printed (RED ++ "Cannot open MR:" ++ NC ++ " current branch name (develop)"
                            ++ " doesn't start with 'TCRM-[0-9]*'")] |}).
Proof.
  rewrite prefix_strip. unfold extract_task. rewrite match_task_name.
  destruct (strip_prefix "TCRM-" branch) as [rest|] eqn:E; split; try discriminate.
  - intros _. exists rest. apply strip_prefix_some in E. subst branch.
    split; [reflexivity | split; [reflexivity |]].
    rewrite <- (take_drop_while digit rest) at 2.
    rewrite <- !append_assoc. apply prefix_append.
  - intros _. reflexivity.
Qed.

(* ------------------------------------------------------------------ *)
(** *** The name of the project *)

Lemma match_here_run (cls : ascii -> bool) (m0 : ascii) (marker s : string) :
  cls m0 = false ->
  match_here (lit "/" ++ (Group [Many (Set_ cls)] :: lit (String m0 marker)))%list s =
  match s with
  | String c s' =>
      if Ascii.eqb c "/" && prefix (String m0 marker) (drop_while cls s')
      then Some {| whole := "/" ++ take_while cls s' ++ String m0 marker;
                   groups := [take_while cls s'] |}
      else None
  | EmptyString => None
  end.
Proof.
  intros Hm0.
  assert (Hmarker : forall t,
            match_here (lit (String m0 marker)) t =
            if prefix (String m0 marker) t
            then Some {| whole := String m0 marker; groups := [] |} else None).
  { intros t. rewrite <- (app_nil_r (lit (String m0 marker))), match_here_lit, prefix_strip.
    destruct (strip_prefix (String m0 marker) t); [|reflexivity].
    cbn [match_here whole groups]. now rewrite append_nil_r. }
  rewrite match_here_lit.
  destruct s as [|c s]; [reflexivity |].
  cbn [strip_prefix]. destruct (Ascii.eqb c "/"); [|reflexivity].
  rewrite match_here_group, match_items_many, star_maximal.
  - cbn [match_items andb]. rewrite Hmarker.
    destruct (prefix (String m0 marker) (drop_while cls s)); [|reflexivity].
    cbn [whole groups]. now rewrite append_nil_r.
  - intros c' t Hc'. cbn [match_items]. rewrite Hmarker.
    cbn [prefix]. destruct (ascii_dec m0 c') as [<-|]; [congruence | reflexivity].
Qed.

Lemma search_run (cls : ascii -> bool) (m0 : ascii) (marker s : string) :
  cls m0 = false ->
  search_group1 (lit "/" ++ (Group [Many (Set_ cls)] :: lit (String m0 marker)))%list s =
  match find_run cls (String m0 marker) s with
  | Some g => Ret g
  | None => Raise AttributeError
  end.
Proof.
  intros Hm0. unfold search_group1.
  induction s as [|c s IH].
  - cbn [search]. rewrite match_here_run by exact Hm0. reflexivity.
  - cbn [search find_run]. rewrite match_here_run by exact Hm0.
    destruct (Ascii.eqb c "/" && prefix (String m0 marker) (drop_while cls s));
      [reflexivity | exact IH].
Qed.

Lemma search_project_name (s : string) :
  search_group1 PROJECT_NAME_REGEX s =
  match find_run project_char git_suffix s with
  | Some g => Ret g
  | None => Raise AttributeError
  end.
Proof.
  change PROJECT_NAME_REGEX
    with (lit "/" ++ (Group [Many (Set_ project_char)] :: lit (String "." "git")))%list.
  now apply search_run.
Qed.

Lemma find_run_sound (cls : ascii -> bool) (marker s g : string) :
  find_run cls marker s = Some g ->
  exists a b, s = a ++ "/" ++ g ++ marker ++ b /\ Text.all cls g = true.
Proof.
  induction s as [|c s IH]; [discriminate |].
  cbn [find_run].
  destruct (Ascii.eqb c "/" && prefix marker (drop_while cls s)) eqn:E.
  - intros [= <-]. apply andb_true_iff in E as [Ec Ep].
    apply Ascii.eqb_eq in Ec as ->.
    rewrite prefix_strip in Ep.
    destruct (strip_prefix marker (drop_while cls s)) as [b|] eqn:Eb; [|discriminate].
    apply strip_prefix_some in Eb.
    exists EmptyString, b. split; [|apply take_while_all].
    cbn [append]. rewrite <- Eb, take_drop_while. reflexivity.
  - intros H. destruct (IH H) as (a & b & -> & Hg).
    exists (String c a), b. now split.
Qed.

Lemma find_run_complete (cls : ascii -> bool) (m0 : ascii) (marker a g b : string) :
  cls m0 = false ->
  Text.all cls g = true ->
  exists g', find_run cls (String m0 marker) (a ++ "/" ++ g ++ String m0 marker ++ b) = Some g'.
Proof.
  intros Hm0 Hg. induction a as [|c a IH].
  - exists g. cbn [append find_run].
    destruct (take_while_run cls g m0 (marker ++ b) Hg Hm0) as [Ht Hd].
    change (g ++ String m0 (marker ++ b)) with (g ++ String m0 (marker ++ b)).
    rewrite Ht, Hd.
    change (String m0 (marker ++ b)) with (String m0 marker ++ b).
    now rewrite prefix_append.
  - cbn [append find_run].
    destruct (Ascii.eqb c "/" && prefix (String m0 marker) _); [eauto | exact IH].
Qed.

Lemma project_char_not_slash (c : ascii) : project_char c = true -> Ascii.eqb c "/" = false.
Proof.
  intros H. destruct (Ascii.eqb_spec c "/") as [->|]; [discriminate | reflexivity].
Qed.

Lemma project_chars_no_slash (g : string) :
  Text.all project_char g = true -> no_slash g = true.
Proof.
  unfold no_slash. induction g as [|c g IH]; simpl; [reflexivity |].
  intros H. apply andb_true_iff in H as [Hc Hg].
  now rewrite (project_char_not_slash _ Hc), IH.
Qed.

(** In a remote URL with one suffix, the search can only find the name
    before it. *)
Lemma find_project_name_segment (pre name post g : string) :
  no_slash name = true ->
  occurrences git_suffix (remote_url_of pre name post) 0
    = [String.length (pre ++ "/" ++ name)] ->
  find_run project_char git_suffix (remote_url_of pre name post) = Some g ->
  g = name /\ Text.all project_char name = true.
Proof.
  intros Hname Hocc Hfind.
  destruct (find_run_sound _ _ _ _ Hfind) as (a & b & E & Hg).
  assert (E' : (a ++ "/" ++ g) ++ (git_suffix ++ b)
               = (pre ++ "/" ++ name) ++ (git_suffix ++ post)).
  { unfold remote_url_of in E. now rewrite !append_assoc, <- E. }
  assert (L : String.length (a ++ "/" ++ g) = String.length (pre ++ "/" ++ name)).
  { pose proof (occurrences_here git_suffix (a ++ "/" ++ g) (git_suffix ++ b) 0
                  (prefix_append _ _)) as Hin.
    rewrite E' in Hin.
    replace ((pre ++ "/" ++ name) ++ git_suffix ++ post) with (remote_url_of pre name post)
      in Hin by (unfold remote_url_of; now rewrite !append_assoc).
    rewrite Hocc in Hin. destruct Hin as [Hin|[]]. now rewrite Hin. }
  destruct (same_length_prefix _ _ _ _ E' L) as [Eq _].
  destruct (last_slash_unique _ _ _ _ Eq (project_chars_no_slash _ Hg) Hname) as [_ ->].
  now split.
Qed.

Lemma get_project_id_without_name (gitlab_token : string) (w : World) :
  find_run project_char git_suffix (remote_in w) = None ->
  get_project_id gitlab_token w = {| out := Raise AttributeError; world := w; events := [] |}.
Proof.
  intros Hfind. unfold get_project_id, bind.
  cbn [subprocess_stdout out world events]. fold (remote_in w).
  rewrite search_project_name, Hfind. reflexivity.
Qed.

(** X3. Without the suffix [.git] in the URL of the remote, as in
    [https://gitlab.com/group/repo], the pattern of [get_project_id] finds
    nothing: the function ends with [AttributeError] and no request is sent. *)
Theorem remote_without_suffix_raises (gitlab_token : string) (w : World) :
  occurrences git_suffix (remote_in w) 0 = [] ->
  get_project_id gitlab_token w = {| out := Raise AttributeError; world := w; events := [] |}.
Proof.
  intros Hocc. apply get_project_id_without_name.
  destruct (find_run project_char git_suffix (remote_in w)) as [g|] eqn:Hfind; [|reflexivity].
  destruct (find_run_sound _ _ _ _ Hfind) as (a & b & E & _).
  pose proof (occurrences_here git_suffix (a ++ "/" ++ g) (git_suffix ++ b) 0
                (prefix_append _ _)) as Hin.
  assert (Hs : (a ++ "/" ++ g) ++ git_suffix ++ b = remote_in w)
    by (rewrite E, !append_assoc; reflexivity).
  rewrite Hs, Hocc in Hin. destruct Hin.
Qed.

(** X4. A name of project with a character that is neither a letter, a digit
    nor a hyphen (an underscore, a dot) is not found in the URL of the
    remote: [get_project_id] ends with [AttributeError] and no request is
    sent. *)
Theorem project_name_outside_pattern_raises (gitlab_token pre name post : string)
    (w : World) :
  remote_in w = remote_url_of pre name post ->
  no_slash name = true ->
  Text.all project_char name = false ->
  occurrences git_suffix (remote_url_of pre name post) 0
    = [String.length (pre ++ "/" ++ name)] ->
  get_project_id gitlab_token w = {| out := Raise AttributeError; world := w; events := [] |}.
Proof.
  intros Hremote Hslash Hname Hocc. apply get_project_id_without_name. rewrite Hremote.
  destruct (find_run project_char git_suffix (remote_url_of pre name post)) as [g|] eqn:Hg;
    [|reflexivity].
  destruct (find_project_name_segment _ _ _ _ Hslash Hocc Hg) as [_ H]. congruence.
Qed.

(** X5. For a remote [<pre>/<name>.git] whose name is made of letters, digits
    and hyphens, [get_project_id] sends one request: a [GET] to GitLab for
    the projects that the name searches, with the token of GitLab, whatever
    the answer is. *)
Theorem project_search_uses_the_name (gitlab_token pre name post : string) (w : World) :
  remote_in w = remote_url_of pre name post ->
  Text.all project_char name = true ->
  occurrences git_suffix (remote_url_of pre name post) 0
    = [String.length (pre ++ "/" ++ name)] ->
  events (get_project_id gitlab_token w) =
  [Sent (projects_request gitlab_token name) 200
     (snd (https w (projects_request gitlab_token name)))].
Proof.
  intros Hremote Hname Hocc.
  assert (Hsearch : search_group1 PROJECT_NAME_REGEX (remote_in w) = Ret name).
  { rewrite search_project_name, Hremote.
    destruct (find_run_complete project_char "." "git" pre name post eq_refl Hname)
      as [g Hg].
    fold git_suffix in Hg. fold (remote_url_of pre name post) in Hg. rewrite Hg.
    now destruct (find_project_name_segment _ _ _ _ (project_chars_no_slash _ Hname)
                    Hocc Hg) as [-> _]. }
  unfold get_project_id, bind.
  cbn [subprocess_stdout out world events]. fold (remote_in w).
  rewrite Hsearch. cbn [lift out world events send_https_request app].
  fold (projects_request gitlab_token name).
  destruct (check_reply _ _ _ _ _ _) as [v| |]; cbn [out world events app]; [|reflexivity..].
  destruct (py_iter v); reflexivity.
Qed.

(* ------------------------------------------------------------------ *)
(** *** The entries of the search *)

Lemma find_project_skips (url : string) (before rest : list json) :
  project_entries before ->
  (forall other, In other before -> ~ cloned_from url other) ->
  find_project url (before ++ rest) = find_project url rest.
Proof.
  intros Hwf Hno. induction before as [|x before IH]; [reflexivity |].
  inversion Hwf as [|? ? Hx Hrest]; subst. cbn [app].
  rewrite find_project_other; [|exact Hx | apply Hno; now left].
  apply IH; [exact Hrest |]. intros other Hin. apply Hno. now right.
Qed.

(** X6. [get_project_id] returns at the first entry that has the URL of the
    remote: the entries after it are not read, whether they have the URL too
    or are no projects at all. *)
Theorem first_matching_project_wins (gitlab_token name content : string)
    (before : list json) (entry : json) (after : list json) (id : Z) (ssh http : string)
    (w : World) :
  search_group1 PROJECT_NAME_REGEX (remote_in w) = Ret name ->
  snd (https w (projects_request gitlab_token name)) = Response 200 content ->
  json_load content = Some (JArr (before ++ entry :: after)) ->
  project_entries before ->
  (forall other, In other before -> ~ cloned_from (remote_in w) other) ->
  project_entry entry id ssh http ->
  ssh = remote_in w \/ http = remote_in w ->
  out (get_project_id gitlab_token w) = Ret (JInt id).
Proof.
  intros Hname Hreply Hload Hwf Hno He Hurl.
  rewrite (get_project_id_found _ _ _ _ _ Hname Hreply Hload).
  now apply (find_project_first _ _ _ _ id ssh http).
Qed.

(** X7. An entry that is read and lacks one of the two clone URLs ends
    [get_project_id] with [KeyError], and one that is no object with
    [TypeError], even when an entry after it has the URL of the remote. *)
Theorem malformed_project_entry_raises (gitlab_token name content : string)
    (before : list json) (entry : json) (after : list json) (w : World) :
  search_group1 PROJECT_NAME_REGEX (remote_in w) = Ret name ->
  snd (https w (projects_request gitlab_token name)) = Response 200 content ->
  json_load content = Some (JArr (before ++ entry :: after)) ->
  project_entries before ->
  (forall other, In other before -> ~ cloned_from (remote_in w) other) ->
  ((exists fields,
      entry = JObj fields /\
      (lookup "ssh_url_to_repo" fields = None \/ lookup "http_url_to_repo" fields = None)) ->
   out (get_project_id gitlab_token w) = Raise KeyError) /\
  ((forall fields, entry <> JObj fields) ->
   out (get_project_id gitlab_token w) = Raise TypeError).
Proof.
  intros Hname Hreply Hload Hwf Hno.
  rewrite (get_project_id_found _ _ _ _ _ Hname Hreply Hload).
  rewrite (find_project_skips _ _ _ Hwf Hno). split.
  - intros (fields & -> & Hmissing). cbn [find_project get_item].
    destruct (lookup "ssh_url_to_repo" fields) as [ssh|]; [|reflexivity].
    destruct Hmissing as [Hs|Hh]; [discriminate |]. now rewrite Hh.
  - intros Hno_object. cbn [find_project].
    destruct entry; try reflexivity. now elim (Hno_object fields).
Qed.

(* ------------------------------------------------------------------ *)
(** *** The look-up of the open merge request *)

Lemma lookup_events (gitlab_token : string) (project_id : json)
    (current_branch target_branch : string) (w : World) :
  let rq := lookup_request gitlab_token project_id current_branch target_branch in
  events (get_already_exist_mr_link gitlab_token project_id current_branch target_branch w)
  = [Sent rq 200 (snd (https w rq))].
Proof.
  cbv zeta. unfold get_already_exist_mr_link, bind, lookup_request.
  cbn [send_https_request out world events].
  destruct (check_reply _ _ _ _ _ _) as [v| |]; cbn [out world events app]; [|reflexivity..].
  cbn [lift out world events app].
  destruct (py_len v) as [n| |]; cbn [out world events app]; [|reflexivity..].
  destruct (0 <? n)%nat; cbn [ret lift out world events app]; [|reflexivity].
  destruct (get_first v); reflexivity.
Qed.

(** X8. [get_already_exist_mr_link] sends one request, the [GET] of the open
    merge requests of the project from the branch to the target, and reads
    the first entry of the answer only: its [web_url] is returned, [KeyError]
    is raised when it has none, and the entries after it do not matter.  An
    empty list, and an empty object too, give [None]. *)
Theorem lookup_reads_first_entry_only (gitlab_token : string) (project_id : json)
    (current_branch target_branch content : string) (w : World) :
  let rq := lookup_request gitlab_token project_id current_branch target_branch in
  let found := get_already_exist_mr_link gitlab_token project_id current_branch
                 target_branch w in
  snd (https w rq) = Response 200 content ->
  events found = [Sent rq 200 (Response 200 content)] /\
  (forall fields others,
     json_load content = Some (JArr (JObj fields :: others)) ->
     out found = match lookup "web_url" fields with
                 | Some link => Ret link
                 | None => Raise KeyError
                 end) /\
  (json_load content = Some (JArr []) -> out found = Ret JNull) /\
  (json_load content = Some (JObj []) -> out found = Ret JNull).
Proof.
  intros rq found Hreply. split; [|split; [|split]].
  - unfold found. rewrite lookup_events. fold rq. now rewrite Hreply.
  - intros fields others Hload. unfold found.
    now rewrite (lookup_on_list _ _ _ _ _ _ _ Hreply Hload).
  - intros Hload. unfold found. now rewrite (lookup_on_list _ _ _ _ _ _ _ Hreply Hload).
  - intros Hload. unfold found, get_already_exist_mr_link, bind.
    cbn [send_https_request out world events]. fold rq. unfold rq, lookup_request in Hreply.
    rewrite Hreply. cbn [check_reply Z.eqb Pos.eqb negb]. rewrite Hload. reflexivity.
Qed.

Lemma title_events (jira_token task : string) (w : World) :
  events (get_task_title jira_token task w)
  = [Sent (title_request jira_token task) 200 (snd (https w (title_request jira_token task)))].
Proof.
  unfold get_task_title, bind, title_request. cbn [send_https_request out world events].
  destruct (check_reply _ _ _ _ _ _); reflexivity.
Qed.

(** X9. An open merge request whose [web_url] is [null] counts as none: the
    look-up returns [None], and the script says that no open merge request
    was found and goes on to ask the tracker for the title of the ticket. *)
Theorem null_link_counts_as_none (jira_token gitlab_token : string) (project_id : json)
    (task current_branch content : string) (fields : list (string * json))
    (others : list json) (w : World) :
  let rq := lookup_request gitlab_token project_id current_branch TARGET_BRANCH in
  snd (https w rq) = Response 200 content ->
  json_load content = Some (JArr (JObj fields :: others)) ->
  lookup "web_url" fields = Some JNull ->
  out (get_already_exist_mr_link gitlab_token project_id current_branch TARGET_BRANCH w)
    = Ret JNull /\
  exists later,
    events (find_or_create_mr jira_token gitlab_token project_id task current_branch w) =
    (Printed ">>> Check if MR is already oppened..." ::
     Sent rq 200 (Response 200 content) ::
     Printed "No open MR was found. A new one will be created" ::
     Printed ">>> Getting task title..." ::
     Sent (title_request jira_token task) 200
       (snd (https (fst (https w rq)) (title_request jira_token task))) :: later).
Proof.
  intros rq Hreply Hload Hnull.
  assert (Hfound : out (get_already_exist_mr_link gitlab_token project_id current_branch
                          TARGET_BRANCH w) = Ret JNull).
  { rewrite (lookup_on_list _ _ _ _ _ _ _ Hreply Hload). cbn [get_item]. now rewrite Hnull. }
  split; [exact Hfound |].
  unfold find_or_create_mr. rewrite bind_print. cbn [events].
  rewrite (bind_ret _ _ _ _ Hfound). cbn [events].
  rewrite lookup_events. fold rq. rewrite Hreply. cbn [app].
  rewrite !bind_print. cbn [events].
  assert (Hworld : world (get_already_exist_mr_link gitlab_token project_id current_branch
                            TARGET_BRANCH w) = fst (https w rq)).
  { unfold get_already_exist_mr_link, bind. cbn [send_https_request out world events].
    fold rq.
    destruct (check_reply _ _ _ _ _ _) as [v| |]; cbn [out world events]; [|reflexivity..].
    cbn [lift out world events].
    destruct (py_len v) as [n| |]; cbn [out world events]; [|reflexivity..].
    destruct (0 <? n)%nat; cbn [ret lift out world events]; [|reflexivity].
    destruct (get_first v); reflexivity. }
  rewrite Hworld.
  unfold bind at 1.
  destruct (out (get_task_title jira_token task (fst (https w rq)))) as [summary| |];
    cbn [events]; rewrite title_events; cbn [app]; eexists; reflexivity.
Qed.

(** X10. When the summary of the ticket is not a text, the title cannot be
    built: the run ends with [TypeError], and neither a merge request nor a
    link was created. *)
Theorem title_needs_text_summary (jira_token gitlab_token : string) (project_id : json)
    (task current_branch : string) (summary : json) (w : World) :
  let found := get_already_exist_mr_link gitlab_token project_id current_branch
                 TARGET_BRANCH w in
  let r := main_from_mr_check jira_token gitlab_token project_id task current_branch w in
  out found = Ret JNull ->
  out (get_task_title jira_token task (world found)) = Ret summary ->
  (forall text, summary <> JStr text) ->
  out r = Raise TypeError /\
  count_sent is_post (events r) = 0.
Proof.
  intros found r Hfound Htitle Hsummary.
  assert (Hadd : str_add task summary = Raise TypeError).
  { destruct summary; try reflexivity. now elim (Hsummary s). }
  assert (Hfoc : find_or_create_mr jira_token gitlab_token project_id task current_branch w =
                 {| out := Raise TypeError;
                    world := world (get_task_title jira_token task (world found));
                    events := (Printed ">>> Check if MR is already oppened..." ::
                               events found ++
                               Printed "No open MR was found. A new one will be created" ::
                               Printed ">>> Getting task title..." ::
                               events (get_task_title jira_token task (world found)))%list
                 |}).
  { unfold find_or_create_mr. rewrite bind_print. fold found.
    rewrite (bind_ret _ _ _ _ Hfound). fold found. cbn [out world events].
    rewrite !bind_print. cbn [out world events].
    rewrite (bind_ret _ _ _ _ Htitle). cbn [out world events].
    rewrite (bind_raise (lift (str_add task summary)) _ _ TypeError)
      by (cbn [lift out]; exact Hadd).
    cbn [lift out world events]. f_equal. f_equal. f_equal.
    now rewrite app_nil_r. }
  unfold r, main_from_mr_check.
  rewrite (bind_raise _ _ _ TypeError) by now rewrite Hfoc.
  rewrite Hfoc. cbn [out world events]. split; [reflexivity |].
  rewrite count_sent_cons_printed, count_sent_app, !count_sent_cons_printed.
  unfold found. rewrite lookup_events, title_events. reflexivity.
Qed.

Lemma user_events (gitlab_token : string) (w : World) :
  events (get_user_id gitlab_token w)
  = [Sent (user_request gitlab_token) 200 (snd (https w (user_request gitlab_token)))].
Proof.
  unfold get_user_id, bind, user_request. cbn [send_https_request out world events].
  destruct (check_reply _ _ _ _ _ _); reflexivity.
Qed.

Lemma check_events (jira_token task : string) (mr_link : json) (w : World) :
  events (is_issue_link_already_exist jira_token task mr_link w)
  = [Sent (links_request jira_token task) 200 (snd (https w (links_request jira_token task)))].
Proof.
  unfold is_issue_link_already_exist, bind, links_request.
  cbn [send_https_request out world events].
  destruct (check_reply _ _ _ _ _ _) as [v| |]; cbn [out world events app]; [|reflexivity..].
  cbn [lift out world events app]. destruct (py_iter v); reflexivity.
Qed.

(** X11. There is no way back from a created merge request: when the answer
    to its creation has the status 201 and no [web_url], the run ends with
    [KeyError] after the one request that created it, and nothing is asked
    of the tracker about links. *)
Theorem created_without_link_is_left (jira_token gitlab_token : string) (project_id : json)
    (task current_branch summary content : string) (user_id : json)
    (fields : list (string * json)) (w : World) :
  let found := get_already_exist_mr_link gitlab_token project_id current_branch
                 TARGET_BRANCH w in
  let titled := get_task_title jira_token task (world found) in
  let user := get_user_id gitlab_token (world titled) in
  let rq := create_request gitlab_token project_id (task ++ summary) current_branch
              user_id in
  let r := main_from_mr_check jira_token gitlab_token project_id task current_branch w in
  out found = Ret JNull ->
  out titled = Ret (JStr summary) ->
  out user = Ret user_id ->
  snd (https (world user) rq) = Response 201 content ->
  json_load content = Some (JObj fields) ->
  lookup "web_url" fields = None ->
  out r = Raise KeyError /\
  count_sent is_create (events r) = 1 /\
  count_sent (by_route (fun _ host => String.eqb host JIRA_HOST)) (events r) = 1 /\
  exists before, events r = (before ++ [Sent rq 201 (Response 201 content)])%list.
Proof.
  intros found titled user rq r Hfound Htitled Huser Hreply Hload Hweb.
  assert (Hcreate : create_mr gitlab_token project_id (task ++ summary) current_branch
                      TARGET_BRANCH user_id SQUASH REMOVE_SOURCE_BRANCH (world user) =
                    {| out := Raise KeyError;
                       world := fst (https (world user) rq);
                       events := [Sent rq 201 (Response 201 content)] |}).
  { unfold create_mr, bind. cbn [send_https_request out world events].
    fold (create_request gitlab_token project_id (task ++ summary) current_branch user_id).
    fold rq. rewrite Hreply. cbn [check_reply Z.eqb Pos.eqb negb]. rewrite Hload.
    cbn [lift get_item out world events]. rewrite Hweb. reflexivity. }
  assert (Hfoc : out (find_or_create_mr jira_token gitlab_token project_id task
                        current_branch w) = Raise KeyError /\
                 events (find_or_create_mr jira_token gitlab_token project_id task
                           current_branch w) =
                 ((Printed ">>> Check if MR is already oppened..." ::
                   events found ++
                   Printed "No open MR was found. A new one will be created" ::
                   Printed ">>> Getting task title..." ::
                   events titled ++
                   Printed (task ++ summary) ::
                   Printed ">>> Creating MR..." ::
                   events user) ++ [Sent rq 201 (Response 201 content)])%list).
  { unfold find_or_create_mr. rewrite bind_print. fold found.
    rewrite (bind_ret _ _ _ _ Hfound). fold found. cbn [out world events].
    rewrite !bind_print. cbn [out world events].
    fold titled. rewrite (bind_ret _ _ _ _ Htitled). fold titled. cbn [out world events].
    change (str_add task (JStr summary)) with (Ret (task ++ summary)).
    rewrite (bind_ret (lift (Ret (task ++ summary))) _ _ (task ++ summary)) by reflexivity.
    cbn [lift out world events app]. rewrite !bind_print. cbn [out world events].
    fold user. rewrite (bind_ret _ _ _ _ Huser). fold user. cbn [out world events].
    rewrite (bind_raise _ _ _ KeyError) by now rewrite Hcreate.
    rewrite Hcreate. cbn [out world events]. split; [reflexivity |].
    cbn [app]. f_equal. rewrite <- !app_assoc. cbn [app]. f_equal. f_equal. f_equal.
    rewrite <- !app_assoc. reflexivity. }
  destruct Hfoc as [Hout Hev].
  unfold r, main_from_mr_check. rewrite (bind_raise _ _ _ _ Hout). cbn [out events].
  rewrite Hev.
  split; [reflexivity | split; [|split; [|eauto]]].
  - rewrite count_sent_app, count_sent_cons_printed, count_sent_app,
      !count_sent_cons_printed, count_sent_app, !count_sent_cons_printed.
    unfold found, titled, user. rewrite lookup_events, title_events, user_events.
    reflexivity.
  - rewrite count_sent_app, count_sent_cons_printed, count_sent_app,
      !count_sent_cons_printed, count_sent_app, !count_sent_cons_printed.
    unfold found, titled, user. rewrite lookup_events, title_events, user_events.
    reflexivity.
Qed.

(** X12. Running the script again changes nothing: when the branch has an
    open merge request and the ticket has a link to it, the run ends well
    after two [GET] requests and no [POST], and its last line is the address
    of the ticket. *)
Theorem rerun_only_reads (jira_token gitlab_token : string) (project_id mr_link : json)
    (task current_branch : string) (w : World) :
  let found := get_already_exist_mr_link gitlab_token project_id current_branch
                 TARGET_BRANCH w in
  let checked := is_issue_link_already_exist jira_token task mr_link (world found) in
  let r := main_from_mr_check jira_token gitlab_token project_id task current_branch w in
  out found = Ret mr_link ->
  mr_link <> JNull ->
  out checked = Ret true ->
  out r = Ret tt /\
  count_sent is_post (events r) = 0 /\
  events r =
    (Printed ">>> Check if MR is already oppened..." ::
     events found ++
     Printed ("MR already opened:" ++ Text.nl ++ BLUE ++ py_str mr_link ++ NC) ::
     Printed ">>> Check if MR link in task is already exist..." ::
     events checked ++
     [Printed "MR link already added to task"; Printed (browse_line task)])%list.
Proof.
  intros found checked r Hfound Hlink Hchecked.
  pose proof (find_or_create_reuses jira_token gitlab_token project_id task current_branch
                w mr_link Hfound Hlink) as Hfoc.
  fold found in Hfoc.
  assert (Hr : out r = Ret tt /\
               events r =
               (Printed ">>> Check if MR is already oppened..." ::
                events found ++
                Printed ("MR already opened:" ++ Text.nl ++ BLUE ++ py_str mr_link ++ NC) ::
                Printed ">>> Check if MR link in task is already exist..." ::
                events checked ++
                [Printed "MR link already added to task"; Printed (browse_line task)])%list).
  { unfold r, main_from_mr_check.
    rewrite (bind_ret _ _ _ mr_link) by now rewrite Hfoc.
    rewrite Hfoc. cbn [out world events].
    assert (Hlinked : link_task jira_token task mr_link (world found) =
                      {| out := Ret tt; world := world checked;
                         events := (Printed ">>> Check if MR link in task is already exist..."
                                    :: events checked ++
                                    [Printed "MR link already added to task"])%list |}).
    { unfold link_task. rewrite bind_print. fold checked.
      rewrite (bind_ret _ _ _ _ Hchecked). fold checked. reflexivity. }
    rewrite (bind_ret _ _ _ tt) by now rewrite Hlinked.
    rewrite Hlinked. cbn [print out world events].
    split; [reflexivity |]. cbn [app]. f_equal. rewrite <- !app_assoc. reflexivity. }
  destruct Hr as [Hout Hev]. split; [exact Hout | split; [|exact Hev]].
  rewrite Hev, count_sent_cons_printed, count_sent_app, !count_sent_cons_printed,
    count_sent_app.
  unfold found, checked. rewrite lookup_events, check_events. reflexivity.
Qed.

(* ------------------------------------------------------------------ *)
(** *** The links of the ticket *)

Lemma any_link_to_skips (mr_link : json) (before urls rest : list json) :
  Forall2 remote_link before urls ->
  existsb (fun url => py_eq url mr_link) urls = false ->
  any_link_to mr_link (before ++ rest) = any_link_to mr_link rest.
Proof.
  induction 1 as [|link url before urls (fields & object & -> & Hobject & Hurl) _ IH];
    [reflexivity |].
  cbn [existsb app any_link_to get_item]. intros H. apply orb_false_iff in H as [Hne Hrest].
  rewrite Hobject. cbn [and_then get_item]. rewrite Hurl. cbn [and_then].
  rewrite Hne. now apply IH.
Qed.

(** X13. [is_issue_link_already_exist] goes through the links of the ticket
    in order and stops at the first one to the merge request: it returns
    [True] whatever comes after it, and it ends with [KeyError] at a link
    without [object] that comes before any link to the merge request. *)
Theorem link_check_stops_at_first_link (jira_token task content : string) (mr_link : json)
    (before urls : list json) (link : json) (after : list json) (w : World) :
  snd (https w (links_request jira_token task)) = Response 200 content ->
  json_load content = Some (JArr (before ++ link :: after)) ->
  Forall2 remote_link before urls ->
  existsb (fun url => py_eq url mr_link) urls = false ->
  (forall url, remote_link link url -> py_eq url mr_link = true ->
   out (is_issue_link_already_exist jira_token task mr_link w) = Ret true) /\
  (forall fields, link = JObj fields -> lookup "object" fields = None ->
   out (is_issue_link_already_exist jira_token task mr_link w) = Raise KeyError).
Proof.
  intros Hreply Hload Hbefore Hnone.
  assert (Hout : out (is_issue_link_already_exist jira_token task mr_link w)
                 = any_link_to mr_link (link :: after)).
  { unfold is_issue_link_already_exist, bind, links_request in *.
    cbn [send_https_request out world events]. rewrite Hreply.
    cbn [check_reply Z.eqb Pos.eqb negb]. rewrite Hload.
    cbn [py_iter lift out world events]. now apply any_link_to_skips with (urls := urls). }
  rewrite Hout. split.
  - intros url (fields & object & -> & Hobject & Hurl) Heq.
    cbn [any_link_to get_item]. rewrite Hobject. cbn [and_then get_item].
    rewrite Hurl. cbn [and_then]. now rewrite Heq.
  - intros fields -> Hmissing. cbn [any_link_to get_item]. now rewrite Hmissing.
Qed.

(* ------------------------------------------------------------------ *)
(** *** No call is retried or passed over *)

Lemma failure_ret_quiet {A : Type} (a : A) (evs : list event) :
  ends_at_failure (Ret a) evs -> forallb (fun ev => negb (failed ev)) evs = true.
Proof.
  induction evs as [|ev evs IH]; simpl; [reflexivity |].
  destruct (failed ev); simpl; [intros (_ & e & _ & H); discriminate | exact IH].
Qed.

Lemma failure_exit_quiet {A : Type} (c : Z) (evs : list event) :
  ends_at_failure (@Exit A c) evs -> forallb (fun ev => negb (failed ev)) evs = true.
Proof.
  induction evs as [|ev evs IH]; simpl; [reflexivity |].
  destruct (failed ev); simpl; [intros (_ & e & _ & H); discriminate | exact IH].
Qed.

Lemma quiet_failure {A : Type} (o : outcome A) (evs later : list event) :
  forallb (fun ev => negb (failed ev)) evs = true ->
  ends_at_failure o later -> ends_at_failure o (evs ++ later).
Proof.
  induction evs as [|ev evs IH]; simpl; [auto |].
  destruct (failed ev); simpl; [discriminate | exact IH].
Qed.

Lemma failure_raise_any {A B : Type} (e : exn) (evs : list event) :
  ends_at_failure (@Raise A e) evs -> ends_at_failure (@Raise B e) evs.
Proof.
  induction evs as [|ev evs IH]; simpl; [auto |].
  destruct (failed ev); [|exact IH].
  intros (-> & e' & He' & H). injection H as ->. split; [reflexivity | eauto].
Qed.

Lemma halts_bind {A B : Type} (m : M A) (f : A -> M B) :
  halts_at_failure m -> (forall a, halts_at_failure (f a)) -> halts_at_failure (bind m f).
Proof.
  intros Hm Hf w. specialize (Hm w). unfold bind.
  destruct (out (m w)) as [a|e|c] eqn:E; cbn [out events].
  - apply quiet_failure; [now apply (failure_ret_quiet a) | apply Hf].
  - now apply (failure_raise_any (A := A)).
  - pose proof (failure_exit_quiet _ _ Hm) as Hq.
    rewrite <- (app_nil_r (events (m w))). now apply quiet_failure.
Qed.

Lemma halts_lift {A : Type} (o : outcome A) : halts_at_failure (lift o).
Proof. intros w. exact I. Qed.

Lemma halts_print (line : string) : halts_at_failure (print line).
Proof. intros w. exact I. Qed.

Lemma halts_subprocess (args : list string) : halts_at_failure (subprocess_stdout args).
Proof. intros w. exact I. Qed.

Lemma check_reply_never_exits (method host path body : string) (expected : Z) (r : reply)
    (c : Z) :
  check_reply method host path body expected r <> Exit c.
Proof.
  destruct r as [status content|]; cbn [check_reply]; [|discriminate].
  destruct (negb (status =? expected)%Z).
  - destruct (decode_utf8 content); discriminate.
  - destruct (json_load content); discriminate.
Qed.

Lemma halts_send (method host path : string) (headers : list (string * string))
    (body : string) (expected : Z) :
  halts_at_failure (send_https_request method host path headers body expected).
Proof.
  intros w. cbn [send_https_request out events ends_at_failure].
  unfold failed. cbn [ended rq_method rq_host rq_path rq_body].
  destruct (check_reply method host path body expected _) as [v|e|c] eqn:E.
  - exact I.
  - split; [reflexivity | eauto].
  - now elim (check_reply_never_exits _ _ _ _ _ _ _ E).
Qed.

Ltac halts :=
  repeat first
    [ apply halts_print | apply halts_send | apply halts_subprocess
    | apply halts_lift
    | apply halts_bind; [|intros ?]
    | match goal with
      | |- halts_at_failure (match ?x with _ => _ end) => destruct x
      end ].

Lemma halts_main (jira_token gitlab_token : string) :
  halts_at_failure (main jira_token gitlab_token).
Proof.
  unfold main, main_from_mr_check, link_task, find_or_create_mr, extract_task,
    check_not_target, get_current_branch, get_project_id, get_already_exist_mr_link,
    get_task_title, get_user_id, create_mr, is_issue_link_already_exist,
    add_jira_issue_link, exit, ret.
  halts.
Qed.

Lemma halts_script (environ : list (string * string)) : halts_at_failure (script environ).
Proof.
  unfold script.
  destruct (lookup "JIRA_TOKEN" environ); [|unfold exit; halts].
  destruct (lookup "GITLAB_TOKEN" environ); [|unfold exit; halts].
  apply halts_main.
Qed.

Lemma ends_at_failure_in {A : Type} (o : outcome A) (evs : list event) (ev : event) :
  ends_at_failure o evs -> In ev evs ->
  failed ev = false \/
  exists e before, ended ev = Raise e /\ o = Raise e /\ evs = (before ++ [ev])%list.
Proof.
  induction evs as [|x evs IH]; simpl; [intros _ [] |].
  intros H [->|Hin].
  - destruct (failed ev) eqn:Ef; [|now left].
    destruct H as (-> & e & He & Ho). right. exists e, []. auto.
  - destruct (failed x) eqn:Ex.
    + destruct H as [-> _]. destruct Hin.
    + destruct (IH H Hin) as [Hok|(e & before & He & Ho & ->)]; [now left |].
      right. exists e, (x :: before). auto.
Qed.

Lemma check_reply_ret (method host path body : string) (expected : Z) (r : reply)
    (v : json) :
  check_reply method host path body expected r = Ret v ->
  exists content, r = Response expected content /\ json_load content = Some v.
Proof.
  destruct r as [status content|]; cbn [check_reply]; [|discriminate].
  destruct (Z.eqb_spec status expected) as [->|]; cbn [negb].
  - destruct (json_load content) as [v'|] eqn:E; [|discriminate].
    intros [= ->]. eauto.
  - destruct (decode_utf8 content); discriminate.
Qed.

(** X14. The script goes from one call to the next only when the call was
    answered with the expected status and a JSON body.  Every other call of
    a run (no response, another status, a body that is no JSON) is the last
    event of the run, which ends with the exception of this call: no request
    is sent again and nothing is sent after it. *)
Theorem script_halts_at_first_failure (environ : list (string * string)) (w : World)
    (rq : request) (expected : Z) (r : reply) :
  In (Sent rq expected r) (events (script environ w)) ->
  (exists content v, r = Response expected content /\ json_load content = Some v) \/
  (exists e before,
     check_reply (rq_method rq) (rq_host rq) (rq_path rq) (rq_body rq) expected r = Raise e /\
     out (script environ w) = Raise e /\
     exit_status (out (script environ w)) = 1%Z /\
     events (script environ w) = (before ++ [Sent rq expected r])%list).
Proof.
  intros Hin.
  destruct (ends_at_failure_in _ _ _ (halts_script environ w) Hin)
    as [Hok|(e & before & He & Ho & Hev)].
  - left. unfold failed in Hok. cbn [ended] in Hok.
    destruct (check_reply _ _ _ _ _ _) as [v| |] eqn:E; try discriminate.
    destruct (check_reply_ret _ _ _ _ _ _ _ E) as (content & -> & Hv). eauto.
  - right. exists e, before. cbn [ended] in He. rewrite Ho. auto.
Qed.

(* ------------------------------------------------------------------ *)
(** *** Where the tokens go *)

Lemma always_bind {A B : Type} (P : event -> Prop) (m : M A) (f : A -> M B) :
  always P m -> (forall a, always P (f a)) -> always P (bind m f).
Proof.
  intros Hm Hf w. specialize (Hm w). unfold bind.
  destruct (out (m w)) as [a|e|c]; cbn [events]; [|assumption..].
  apply Forall_app. split; [assumption | apply Hf].
Qed.

Lemma always_lift {A : Type} (P : event -> Prop) (o : outcome A) : always P (lift o).
Proof. intros w. constructor. Qed.

Lemma always_subprocess (P : event -> Prop) (args : list string) :
  always P (subprocess_stdout args).
Proof. intros w. constructor. Qed.

Lemma always_print (jira_token gitlab_token line : string) :
  always (authorised jira_token gitlab_token) (print line).
Proof. intros w. repeat constructor. Qed.

Lemma always_send (P : event -> Prop) (method host path : string)
    (headers : list (string * string)) (body : string) (expected : Z) :
  (forall r, P (Sent {| rq_method := method; rq_host := host; rq_path := path;
                        rq_headers := headers; rq_body := body |} expected r)) ->
  always P (send_https_request method host path headers body expected).
Proof. intros H w. cbn [send_https_request events]. constructor; [apply H | constructor]. Qed.

Ltac tokens :=
  repeat first
    [ apply always_print | apply always_subprocess | apply always_lift
    | apply always_send; intros ?; cbn; tauto
    | apply always_bind; [|intros ?]
    | match goal with
      | |- always _ (match ?x with _ => _ end) => destruct x
      end ].

Lemma main_is_authorised (jira_token gitlab_token : string) :
  always (authorised jira_token gitlab_token) (main jira_token gitlab_token).
Proof.
  unfold main, main_from_mr_check, link_task, find_or_create_mr, extract_task,
    check_not_target, get_current_branch, get_project_id, get_already_exist_mr_link,
    get_task_title, get_user_id, create_mr, is_issue_link_already_exist,
    add_jira_issue_link, exit, ret.
  tokens.
Qed.

(** X15. Each token goes to its own server only.  Every request of a run is
    a [GET] or a [POST], either to GitLab with the GitLab token in
    [PRIVATE-TOKEN] and no [Authorization] header, or to Jira with the Jira
    token as the bearer and no [PRIVATE-TOKEN] header. *)
Theorem tokens_stay_with_their_server (environ : list (string * string))
    (jira_token gitlab_token : string) (w : World) :
  lookup "JIRA_TOKEN" environ = Some jira_token ->
  lookup "GITLAB_TOKEN" environ = Some gitlab_token ->
  Forall (authorised jira_token gitlab_token) (events (script environ w)).
Proof.
  intros Hj Hg. unfold script. rewrite Hj, Hg. apply main_is_authorised.
Qed.

(* ------------------------------------------------------------------ *)
(** *** How many requests a run sends *)

Lemma at_most_weaken {A : Type} (n n' : nat) (p : request -> bool) (m : M A) :
  n <= n' -> at_most n p m -> at_most n' p m.
Proof. intros Hle Hm w. specialize (Hm w). lia. Qed.

Lemma at_most_subprocess (p : request -> bool) (args : list string) :
  at_most 0 p (subprocess_stdout args).
Proof. intros w. reflexivity. Qed.

Lemma at_most_route_send (q : string -> string -> bool) (method host path : string)
    (headers : list (string * string)) (body : string) (expected : Z) :
  at_most (one_if (q method host)) (by_route q)
    (send_https_request method host path headers body expected).
Proof.
  intros w. cbn [send_https_request events]. rewrite count_sent_cons_sent.
  unfold by_route. cbn [rq_method rq_host]. unfold one_if.
  destruct (q method host); cbn; lia.
Qed.

Section Routes.

Variable q : string -> string -> bool.

Local Abbreviation G := (one_if (q "GET" GITLAB_HOST)).
Local Abbreviation C := (one_if (q "POST" GITLAB_HOST)).
Local Abbreviation J := (one_if (q "GET" JIRA_HOST)).
Local Abbreviation L := (one_if (q "POST" JIRA_HOST)).

Lemma route_project (gitlab_token : string) :
  at_most G (by_route q) (get_project_id gitlab_token).
Proof.
  unfold get_project_id.
  apply (at_most_bind_le 0 G); [lia | apply at_most_subprocess | intros stdout].
  apply (at_most_bind_le 0 G); [lia | apply at_most_lift | intros name].
  apply (at_most_bind_le G 0); [lia | apply at_most_route_send | intros response].
  quiet.
Qed.

Lemma route_lookup (gitlab_token : string) (project_id : json)
    (current_branch target_branch : string) :
  at_most G (by_route q)
    (get_already_exist_mr_link gitlab_token project_id current_branch target_branch).
Proof.
  intros w. rewrite lookup_events, count_sent_cons_sent.
  unfold by_route, one_if. cbn. destruct (q _ _); lia.
Qed.

Lemma route_title (jira_token task : string) :
  at_most J (by_route q) (get_task_title jira_token task).
Proof.
  intros w. rewrite title_events, count_sent_cons_sent.
  unfold by_route, one_if. cbn. destruct (q _ _); lia.
Qed.

Lemma route_user (gitlab_token : string) :
  at_most G (by_route q) (get_user_id gitlab_token).
Proof.
  intros w. rewrite user_events, count_sent_cons_sent.
  unfold by_route, one_if. cbn. destruct (q _ _); lia.
Qed.

Lemma route_create (gitlab_token : string) (project_id : json)
    (title current_branch target_branch : string) (user_id : json)
    (squash remove_source_branch : bool) :
  at_most C (by_route q)
    (create_mr gitlab_token project_id title current_branch target_branch user_id
       squash remove_source_branch).
Proof.
  intros w. rewrite create_mr_events, count_sent_cons_sent.
  unfold by_route, one_if. cbn. destruct (q _ _); lia.
Qed.

Lemma route_check (jira_token task : string) (mr_link : json) :
  at_most J (by_route q) (is_issue_link_already_exist jira_token task mr_link).
Proof.
  intros w. rewrite check_events, count_sent_cons_sent.
  unfold by_route, one_if. cbn. destruct (q _ _); lia.
Qed.

Lemma route_add (jira_token task : string) (mr_link : json) :
  at_most L (by_route q) (add_jira_issue_link jira_token task mr_link).
Proof.
  unfold add_jira_issue_link.
  apply (at_most_bind_le 0 L); [lia | apply at_most_lift | intros body].
  apply at_most_route_send.
Qed.

Lemma route_find_or_create (jira_token gitlab_token : string) (project_id : json)
    (task current_branch : string) :
  at_most (G + J + G + C) (by_route q)
    (find_or_create_mr jira_token gitlab_token project_id task current_branch).
Proof.
  unfold find_or_create_mr.
  apply (at_most_bind_le 0 (G + J + G + C)); [lia | apply at_most_print | intros _].
  apply (at_most_bind_le G (J + G + C)); [lia | apply route_lookup | intros mr_link].
  assert (Hquiet : at_most (J + G + C) (by_route q)
            (print ("MR already opened:" ++ Text.nl ++ BLUE ++ py_str mr_link ++ NC) ;;
             ret mr_link)).
  { apply (at_most_weaken 0); [lia |]. unfold ret. quiet. }
  destruct mr_link; try exact Hquiet.
  apply (at_most_bind_le 0 (J + G + C)); [lia | apply at_most_print | intros _].
  apply (at_most_bind_le 0 (J + G + C)); [lia | apply at_most_print | intros _].
  apply (at_most_bind_le J (G + C)); [lia | apply route_title | intros summary].
  apply (at_most_bind_le 0 (G + C)); [lia | apply at_most_lift | intros title].
  apply (at_most_bind_le 0 (G + C)); [lia | apply at_most_print | intros _].
  apply (at_most_bind_le 0 (G + C)); [lia | apply at_most_print | intros _].
  apply (at_most_bind_le G C); [lia | apply route_user | intros user_id].
  apply (at_most_bind_le C 0); [lia | apply route_create | intros created].
  unfold ret. quiet.
Qed.

Lemma route_link_task (jira_token task : string) (mr_link : json) :
  at_most (J + L) (by_route q) (link_task jira_token task mr_link).
Proof.
  unfold link_task.
  apply (at_most_bind_le 0 (J + L)); [lia | apply at_most_print | intros _].
  apply (at_most_bind_le J L); [lia | apply route_check | intros linked].
  destruct linked.
  - apply (at_most_weaken 0); [lia | apply at_most_print].
  - apply (at_most_bind_le 0 L); [lia | apply at_most_print | intros _].
    apply (at_most_bind_le 0 L); [lia | apply at_most_print | intros _].
    apply (at_most_bind_le L 0); [lia | apply route_add | intros _].
    apply at_most_print.
Qed.

Lemma route_main (jira_token gitlab_token : string) :
  at_most (3 * G + C + 2 * J + L) (by_route q) (main jira_token gitlab_token).
Proof.
  unfold main, main_from_mr_check.
  apply (at_most_bind_le 0 (3 * G + C + 2 * J + L)); [lia | apply at_most_print | intros _].
  apply (at_most_bind_le 0 (3 * G + C + 2 * J + L)); [lia | | intros current_branch].
  { unfold get_current_branch, ret. quiet. apply at_most_subprocess. }
  apply (at_most_bind_le 0 (3 * G + C + 2 * J + L)); [lia | apply at_most_print | intros _].
  apply (at_most_bind_le 0 (3 * G + C + 2 * J + L)); [lia | | intros _].
  { unfold check_not_target, exit, ret. quiet. }
  apply (at_most_bind_le 0 (3 * G + C + 2 * J + L)); [lia | | intros task].
  { unfold extract_task, exit, ret. quiet. }
  apply (at_most_bind_le 0 (3 * G + C + 2 * J + L)); [lia | apply at_most_print | intros _].
  apply (at_most_bind_le G (G + J + G + C + (J + L))); [lia | apply route_project |
                                                         intros project_id].
  apply (at_most_bind_le 0 (G + J + G + C + (J + L))); [lia | apply at_most_print | intros _].
  apply (at_most_bind_le (G + J + G + C) (J + L));
    [lia | apply route_find_or_create | intros mr_link].
  apply (at_most_bind_le (J + L) 0); [lia | apply route_link_task | intros _].
  apply at_most_print.
Qed.

Lemma route_script (environ : list (string * string)) :
  at_most (3 * G + C + 2 * J + L) (by_route q) (script environ).
Proof.
  unfold script.
  destruct (lookup "JIRA_TOKEN" environ);
    [|apply (at_most_weaken 0); [lia | unfold exit; quiet]].
  destruct (lookup "GITLAB_TOKEN" environ);
    [|apply (at_most_weaken 0); [lia | unfold exit; quiet]].
  apply route_main.
Qed.

End Routes.

(** X16. A run of the script sends at most seven requests: at most three
    [GET] and one [POST] to GitLab, and at most two [GET] and one [POST] to
    Jira.  So at most one merge request is created and at most one link is
    added in a run. *)
Theorem request_budget (environ : list (string * string)) (w : World) :
  let evs := events (script environ w) in
  count_sent any_request evs <= 7 /\
  count_sent (by_route (fun method host =>
                String.eqb method "GET" && String.eqb host GITLAB_HOST)) evs <= 3 /\
  count_sent (by_route (fun method host =>
                String.eqb method "GET" && String.eqb host JIRA_HOST)) evs <= 2 /\
  count_sent is_create evs <= 1 /\
  count_sent is_add_link evs <= 1 /\
  count_sent is_post evs <= 2.
Proof.
  cbv zeta. repeat split.
  - exact (route_script (fun _ _ => true) environ w).
  - exact (route_script (fun method host =>
             String.eqb method "GET" && String.eqb host GITLAB_HOST) environ w).
  - exact (route_script (fun method host =>
             String.eqb method "GET" && String.eqb host JIRA_HOST) environ w).
  - exact (route_script (fun method host =>
             String.eqb method "POST" && String.eqb host GITLAB_HOST) environ w).
  - exact (route_script (fun method host =>
             String.eqb method "POST" && String.eqb host JIRA_HOST) environ w).
  - exact (route_script (fun method _ => String.eqb method "POST") environ w).
Qed.

(* ------------------------------------------------------------------ *)
(** *** What a run that ends well has done *)

Lemma bind_ret_inv {A B : Type} (m : M A) (f : A -> M B) (w : World) (b : B) :
  out (bind m f w) = Ret b ->
  exists a,
    out (m w) = Ret a /\
    out (f a (world (m w))) = Ret b /\
    events (bind m f w) = (events (m w) ++ events (f a (world (m w))))%list.
Proof.
  unfold bind. destruct (out (m w)) as [a|e|c]; cbn [out events]; try discriminate.
  intros H. exists a. auto.
Qed.

(** The ticket has a link when the step that links it ends well: it was
    found, or the request that adds it was answered with 201. *)
Lemma link_task_ends_linked (jira_token task : string) (mr_link : json) (w : World) :
  out (link_task jira_token task mr_link w) = Ret tt ->
  In (Printed "MR link already added to task") (events (link_task jira_token task mr_link w)) \/
  exists title content,
    In (Sent (add_link_request jira_token task mr_link title) 201 (Response 201 content))
       (events (link_task jira_token task mr_link w)).
Proof.
  unfold link_task. rewrite bind_print. cbn [out events]. intros H.
  apply bind_ret_inv in H as (linked & Hcheck & Hrest & ->).
  destruct linked.
  - left. right. apply in_or_app. right. now left.
  - right. rewrite !bind_print in Hrest |- *. cbn [out events] in Hrest |- *.
    apply bind_ret_inv in Hrest as (added & Hadd & _ & ->).
    unfold add_jira_issue_link in Hadd |- *.
    apply bind_ret_inv in Hadd as (body & Hbody & Hsend & Hev).
    rewrite Hev. clear Hev.
    cbn [lift out world events] in Hbody, Hsend |- *.
    unfold create_jira_issue_link_request_body in Hbody.
    destruct (get_service_name_from mr_link) as [title| |]; try discriminate.
    cbn [and_then] in Hbody. injection Hbody as <-.
    cbn [send_https_request out events] in Hsend |- *.
    fold (add_link_request jira_token task mr_link title) in Hsend |- *.
    destruct (check_reply_ret _ _ _ _ _ _ _ Hsend) as (content & Hreply & _).
    exists title, content. rewrite Hreply.
    right. apply in_or_app. right. right. right. now left.
Qed.

(** X17. A run of the script that ends well has done its work: both tokens
    were set, the branch is not the target and starts with [TCRM-], the last
    line printed is the address of the ticket of the branch, and the ticket
    has a link to the merge request, which was found there or added by a
    request that the tracker answered with 201. *)
Theorem normal_end_means_linked (environ : list (string * string)) (w : World) :
  out (script environ w) = Ret tt ->
  (exists jira_token, lookup "JIRA_TOKEN" environ = Some jira_token) /\
  (exists gitlab_token, lookup "GITLAB_TOKEN" environ = Some gitlab_token) /\
  branch_in w <> TARGET_BRANCH /\
  exists rest,
    branch_in w = "TCRM-" ++ rest /\
    (exists before,
       events (script environ w)
       = (before ++ [Printed (browse_line ("TCRM-" ++ take_while digit rest))])%list) /\
    (In (Printed "MR link already added to task") (events (script environ w)) \/
     exists rq content,
       is_add_link rq = true /\
       In (Sent rq 201 (Response 201 content)) (events (script environ w))).
Proof.
  unfold script.
  destruct (lookup "JIRA_TOKEN" environ) as [jt|]; [|discriminate].
  destruct (lookup "GITLAB_TOKEN" environ) as [gt|]; [|discriminate].
  intros H. split; [eauto | split; [eauto |]].
  unfold main, get_current_branch, check_not_target in H |- *.
  cbn [bind print ret subprocess_stdout out world events app] in H |- *.
  fold (branch_in w) in H |- *.
  destruct (String.eqb_spec (branch_in w) TARGET_BRANCH) as [|Hne];
    cbn [bind print ret lift exit out world events app] in H |- *; [discriminate |].
  split; [exact Hne |].
  apply bind_ret_inv in H as (task & Htask & H & ->).
  unfold extract_task in Htask, H |- *.
  rewrite match_task_name in Htask, H |- *.
  destruct (strip_prefix "TCRM-" (branch_in w)) as [rest|] eqn:Erest;
    cbn [bind print ret lift exit out world events app group0 whole] in Htask, H |- *;
    [|discriminate].
  injection Htask as <-.
  exists rest. split; [now apply strip_prefix_some |].
  apply bind_ret_inv in H as (project_id & _ & H & ->).
  rewrite bind_print in H |- *. cbn [out world events] in H |- *.
  unfold main_from_mr_check in H |- *.
  apply bind_ret_inv in H as (mr_link & _ & H & ->).
  apply bind_ret_inv in H as ([] & Hlinked & _ & ->).
  cbn [print events].
  change (String "T" (String "C" (String "R" (String "M" (String "-" (take_while digit rest))))))
    with ("TCRM-" ++ take_while digit rest) in *.
  change (BLUE ++ "https://" ++ JIRA_HOST ++ "/browse/" ++ ("TCRM-" ++ take_while digit rest) ++ NC)
    with (browse_line ("TCRM-" ++ take_while digit rest)).
  set (task := "TCRM-" ++ take_while digit rest) in *. clearbody task.
  set (A := events (get_project_id gt w)).
  set (B := events (find_or_create_mr _ _ _ _ _ _)).
  set (C := events (link_task _ _ _ _)) in *.
  split.
  - exists (Printed ">>> Geting current branch name..."
       :: Printed (branch_in w)
       :: Printed ">>> Extracting task name from branch name..."
       :: Printed task
       :: Printed ">>> Getting GitLab project id..."
       :: A ++ Printed (py_str project_id) :: B ++ C)%list.
    cbn [app]. do 5 f_equal.
    rewrite <- app_assoc. cbn [app]. do 2 f_equal.
    now rewrite <- app_assoc.
  - destruct (link_task_ends_linked _ _ _ _ Hlinked) as [Hin|(title & content & Hin)].
    + left. do 5 right. apply in_or_app. right. right.
      apply in_or_app. right. apply in_or_app. left. exact Hin.
    + right. exists (add_link_request jt task mr_link title), content.
      split; [reflexivity |].
      do 5 right. apply in_or_app. right. right.
      apply in_or_app. right. apply in_or_app. left. exact Hin.
Qed.

(* ------------------------------------------------------------------ *)
(** *** The creation of the merge request, case by case *)

(** What [get_task_title] gives, by the answer of the tracker. *)
Lemma title_by_answer (jira_token task : string) (w : World) :
  let answer := snd (https w (title_request jira_token task)) in
  let titled := get_task_title jira_token task w in
  ((forall content v, answer = Response 200 content -> json_load content <> Some v) ->
   exists e, out titled = Raise e) /\
  (forall content v,
     answer = Response 200 content -> json_load content = Some v ->
     out titled =
     match v with
     | JObj items =>
         match lookup "fields" items with
         | Some (JObj fields) =>
             match lookup "summary" fields with
             | Some summary => Ret summary
             | None => Raise KeyError
             end
         | Some _ => Raise TypeError
         | None => Raise KeyError
         end
     | _ => Raise TypeError
     end).
Proof.
  cbv zeta. unfold get_task_title, bind, title_request.
  cbn [send_https_request out world events].
  destruct (snd (https w _)) as [status content|]; cbn [check_reply].
  - split.
    + intros Hbad. destruct (Z.eqb_spec status 200) as [->|_]; cbn [negb].
      * destruct (json_load content) as [v|] eqn:E; [now elim (Hbad content v) |].
        cbn [out]. eauto.
      * destruct (decode_utf8 content); cbn [out]; eauto.
    + intros content' v [= -> ->] Hload. cbn [Z.eqb Pos.eqb negb]. rewrite Hload.
      cbn [lift out]. destruct v as [| | | |items|items]; try reflexivity.
      cbn [get_item and_then]. destruct (lookup "fields" items) as [fields|]; [|reflexivity].
      cbn [and_then]. destruct fields; reflexivity.
  - split; [intros _; cbn [out]; eauto | discriminate].
Qed.

(** What [get_user_id] gives, by the answer of GitLab. *)
Lemma user_by_answer (gitlab_token : string) (w : World) :
  let answer := snd (https w (user_request gitlab_token)) in
  let user := get_user_id gitlab_token w in
  ((forall content v, answer = Response 200 content -> json_load content <> Some v) ->
   exists e, out user = Raise e) /\
  (forall content v,
     answer = Response 200 content -> json_load content = Some v ->
     out user =
     match v with
     | JObj items =>
         match lookup "id" items with
         | Some id => Ret id
         | None => Raise KeyError
         end
     | _ => Raise TypeError
     end).
Proof.
  cbv zeta. unfold get_user_id, bind, user_request.
  cbn [send_https_request out world events].
  destruct (snd (https w _)) as [status content|]; cbn [check_reply].
  - split.
    + intros Hbad. destruct (Z.eqb_spec status 200) as [->|_]; cbn [negb].
      * destruct (json_load content) as [v|] eqn:E; [now elim (Hbad content v) |].
        cbn [out]. eauto.
      * destruct (decode_utf8 content); cbn [out]; eauto.
    + intros content' v [= -> ->] Hload. cbn [Z.eqb Pos.eqb negb]. rewrite Hload.
      cbn [lift out]. destruct v; reflexivity.
  - split; [intros _; cbn [out]; eauto | discriminate].
Qed.

Lemma title_never_exits (jira_token task : string) (w : World) (c : Z) :
  out (get_task_title jira_token task w) <> Exit c.
Proof.
  unfold get_task_title, bind. cbn [send_https_request out world events].
  pose proof (check_reply_never_exits "GET" JIRA_HOST
                ("/rest/api/" ++ JIRA_API_VERSION ++ "/issue/" ++ task) EmptyString 200
                (snd (https w (title_request jira_token task)))) as Hc.
  unfold title_request in Hc.
  destruct (check_reply _ _ _ _ _ _) as [v| |c']; cbn [lift out]; [|discriminate|now elim (Hc c')].
  destruct v as [| | | |items|items]; try discriminate.
  cbn [get_item and_then]. destruct (lookup "fields" items) as [fields|]; [|discriminate].
  cbn [and_then]. destruct fields as [| | | |xs|xs]; try discriminate.
  cbn [get_item]. destruct (lookup "summary" xs); discriminate.
Qed.

Lemma user_never_exits (gitlab_token : string) (w : World) (c : Z) :
  out (get_user_id gitlab_token w) <> Exit c.
Proof.
  unfold get_user_id, bind. cbn [send_https_request out world events].
  pose proof (check_reply_never_exits "GET" GITLAB_HOST
                ("/api/" ++ GITLAB_API_VERSION ++ "/user") EmptyString 200
                (snd (https w (user_request gitlab_token)))) as Hc.
  unfold user_request in Hc.
  destruct (check_reply _ _ _ _ _ _) as [v| |c']; cbn [lift out]; [|discriminate|now elim (Hc c')].
  destruct v as [| | | |items|items]; try discriminate.
  cbn [get_item]. destruct (lookup "id" items); discriminate.
Qed.

(** The branch of [find_or_create_mr] in which the look-up failed. *)
Lemma find_or_create_lookup_fails (jira_token gitlab_token : string) (project_id : json)
    (task current_branch : string) (w : World) (e : exn) :
  let found := get_already_exist_mr_link gitlab_token project_id current_branch
                 TARGET_BRANCH w in
  out found = Raise e ->
  find_or_create_mr jira_token gitlab_token project_id task current_branch w =
  {| out := Raise e;
     world := world found;
     events := Printed ">>> Check if MR is already oppened..." :: events found |}.
Proof.
  intros found Hfound. unfold find_or_create_mr. rewrite bind_print. fold found.
  now rewrite (bind_raise _ _ _ _ Hfound).
Qed.

(** The branch of [find_or_create_mr] in which the title was not obtained. *)
Lemma find_or_create_title_fails (jira_token gitlab_token : string) (project_id : json)
    (task current_branch : string) (w : World) (e : exn) :
  let found := get_already_exist_mr_link gitlab_token project_id current_branch
                 TARGET_BRANCH w in
  let titled := get_task_title jira_token task (world found) in
  out found = Ret JNull ->
  out titled = Raise e ->
  find_or_create_mr jira_token gitlab_token project_id task current_branch w =
  {| out := Raise e;
     world := world titled;
     events := (Printed ">>> Check if MR is already oppened..." ::
                events found ++
                Printed "No open MR was found. A new one will be created" ::
                Printed ">>> Getting task title..." ::
                events titled)%list |}.
Proof.
  intros found titled Hfound Htitle. unfold find_or_create_mr. rewrite bind_print. fold found.
  rewrite (bind_ret _ _ _ _ Hfound). fold found. cbn [out world events].
  rewrite !bind_print. cbn [out world events]. fold titled.
  now rewrite (bind_raise _ _ _ _ Htitle).
Qed.

(** The branch of [find_or_create_mr] in which the summary is not a text. *)
Lemma find_or_create_title_not_text (jira_token gitlab_token : string) (project_id : json)
    (task current_branch : string) (w : World) (summary : json) :
  let found := get_already_exist_mr_link gitlab_token project_id current_branch
                 TARGET_BRANCH w in
  let titled := get_task_title jira_token task (world found) in
  out found = Ret JNull ->
  out titled = Ret summary ->
  (forall text, summary <> JStr text) ->
  find_or_create_mr jira_token gitlab_token project_id task current_branch w =
  {| out := Raise TypeError;
     world := world titled;
     events := (Printed ">>> Check if MR is already oppened..." ::
                events found ++
                Printed "No open MR was found. A new one will be created" ::
                Printed ">>> Getting task title..." ::
                events titled)%list |}.
Proof.
  intros found titled Hfound Htitle Hsummary.
  assert (Hadd : str_add task summary = Raise TypeError).
  { destruct summary; try reflexivity. now elim (Hsummary s). }
  unfold find_or_create_mr. rewrite bind_print. fold found.
  rewrite (bind_ret _ _ _ _ Hfound). fold found. cbn [out world events].
  rewrite !bind_print. cbn [out world events]. fold titled.
  rewrite (bind_ret _ _ _ _ Htitle). cbn [out world events].
  rewrite (bind_raise (lift (str_add task summary)) _ _ TypeError)
    by (cbn [lift out]; exact Hadd).
  cbn [lift out world events]. f_equal. f_equal. f_equal.
  now rewrite app_nil_r.
Qed.

(** The branch of [find_or_create_mr] in which the id of the user was not
    obtained. *)
Lemma find_or_create_user_fails (jira_token gitlab_token : string) (project_id : json)
    (task current_branch : string) (w : World) (summary : string) (e : exn) :
  let found := get_already_exist_mr_link gitlab_token project_id current_branch
                 TARGET_BRANCH w in
  let titled := get_task_title jira_token task (world found) in
  let user := get_user_id gitlab_token (world titled) in
  out found = Ret JNull ->
  out titled = Ret (JStr summary) ->
  out user = Raise e ->
  find_or_create_mr jira_token gitlab_token project_id task current_branch w =
  {| out := Raise e;
     world := world user;
     events := (Printed ">>> Check if MR is already oppened..." ::
                events found ++
                Printed "No open MR was found. A new one will be created" ::
                Printed ">>> Getting task title..." ::
                events titled ++
                Printed (task ++ summary) ::
                Printed ">>> Creating MR..." ::
                events user)%list |}.
Proof.
  intros found titled user Hfound Htitle Huser.
  unfold find_or_create_mr. rewrite bind_print. fold found.
  rewrite (bind_ret _ _ _ _ Hfound). fold found. cbn [out world events].
  rewrite !bind_print. cbn [out world events]. fold titled.
  rewrite (bind_ret _ _ _ _ Htitle). fold titled. cbn [out world events].
  change (str_add task (JStr summary)) with (Ret (task ++ summary)).
  rewrite (bind_ret (lift (Ret (task ++ summary))) _ _ (task ++ summary)) by reflexivity.
  cbn [lift out world events app]. rewrite !bind_print. cbn [out world events].
  fold user. now rewrite (bind_raise _ _ _ _ Huser).
Qed.

(** [main] from the check on, when the merge request was neither found nor
    created. *)
Lemma main_stops_with (jira_token gitlab_token : string) (project_id : json)
    (task current_branch : string) (w w' : World) (e : exn) (evs : list event) :
  find_or_create_mr jira_token gitlab_token project_id task current_branch w =
    {| out := Raise e; world := w'; events := evs |} ->
  let r := main_from_mr_check jira_token gitlab_token project_id task current_branch w in
  out r = Raise e /\ events r = evs.
Proof.
  intros Hfoc r. unfold r, main_from_mr_check.
  rewrite (bind_raise _ _ _ e) by now rewrite Hfoc.
  now rewrite Hfoc.
Qed.

Lemma lookup_never_exits (gitlab_token : string) (project_id : json)
    (current_branch target_branch : string) (w : World) (c : Z) :
  out (get_already_exist_mr_link gitlab_token project_id current_branch target_branch w)
  <> Exit c.
Proof.
  unfold get_already_exist_mr_link, bind. cbn [send_https_request out world events].
  match goal with
  | |- context [check_reply ?m ?h ?p ?b ?x ?r] =>
      pose proof (check_reply_never_exits m h p b x r) as Hc;
      destruct (check_reply m h p b x r) as [v| |c']
  end; cbn [lift out world]; [|discriminate|now elim (Hc c')].
  destruct (py_len v) as [n| |c'] eqn:En; cbn [out world]; [|discriminate|].
  - destruct (0 <? n)%nat; cbn [ret out]; [|discriminate].
    destruct (get_first v) as [first| |c'] eqn:Ef; cbn [out world].
    + destruct first as [| | | |xs|xs]; try discriminate.
      cbn [get_item]. destruct (lookup "web_url" xs); discriminate.
    + discriminate.
    + destruct v as [| | |s|xs|xs]; try discriminate.
      * destruct s; discriminate.
      * destruct xs; discriminate.
  - destruct v; discriminate.
Qed.

(** C1, as the script has it.  From the check of the merge request on, the
    request that creates one is sent at most once, and only when the look-up
    returned [None], which it does for an empty answer and for a first entry
    whose [web_url] is [null].  After [None] the title of the ticket and then
    the id of the user are asked for: the request is sent, once, when the
    summary is a text and the id was obtained; when the title or the id is
    not obtained (no response, another status than 200, a body that is no
    JSON, an answer without [fields], [summary] or [id]) or the summary is
    not a text, the run ends there with that exception and nothing is
    created.  When the look-up returns another value than [None] (the
    [web_url] of the first entry of the answer), no such request is sent and
    the value goes to the step that links the ticket.  When the look-up
    itself fails the run ends there. *)
Theorem create_only_without_open_mr (jira_token gitlab_token : string) (project_id : json)
    (task current_branch : string) (w : World) :
  let found := get_already_exist_mr_link gitlab_token project_id current_branch
                 TARGET_BRANCH w in
  let r := main_from_mr_check jira_token gitlab_token project_id task current_branch w in
  count_sent is_create (events r) <= 1 /\
  (count_sent is_create (events r) = 1 -> out found = Ret JNull) /\
  (forall mr_link,
     out found = Ret mr_link -> mr_link <> JNull ->
     let rest := (link_task jira_token task mr_link ;;
                  print (BLUE ++ "https://" ++ JIRA_HOST ++ "/browse/" ++ task ++ NC))
                   (world found) in
     count_sent is_create (events r) = 0 /\
     out r = out rest /\
     events r =
       (Printed ">>> Check if MR is already oppened..." ::
        events found ++
        Printed ("MR already opened:" ++ Text.nl ++ BLUE ++ py_str mr_link ++ NC) ::
        events rest)%list) /\
  (forall summary user_id,
     let titled := get_task_title jira_token task (world found) in
     let user := get_user_id gitlab_token (world titled) in
     let rq := create_request gitlab_token project_id (task ++ summary) current_branch
                 user_id in
     out found = Ret JNull ->
     out titled = Ret (JStr summary) ->
     out user = Ret user_id ->
     count_sent is_create (events r) = 1 /\
     exists before after,
       events r = (before ++ Sent rq 201 (snd (https (world user) rq)) :: after)%list /\
       count_sent is_create before = 0 /\
       count_sent is_create after = 0) /\
  (forall content first others,
     snd (https w (lookup_request gitlab_token project_id current_branch TARGET_BRANCH))
       = Response 200 content ->
     json_load content = Some (JArr (first :: others)) ->
     out found = get_item first "web_url") /\
  (forall content,
     snd (https w (lookup_request gitlab_token project_id current_branch TARGET_BRANCH))
       = Response 200 content ->
     json_load content = Some (JArr []) ->
     out found = Ret JNull) /\
  (forall e,
     out found = Raise e ->
     out r = Raise e /\
     events r = Printed ">>> Check if MR is already oppened..." :: events found /\
     count_sent is_create (events r) = 0) /\
  (let titled := get_task_title jira_token task (world found) in
   let user := get_user_id gitlab_token (world titled) in
   let asked := (Printed ">>> Check if MR is already oppened..." ::
                 events found ++
                 Printed "No open MR was found. A new one will be created" ::
                 Printed ">>> Getting task title..." ::
                 events titled)%list in
   out found = Ret JNull ->
   (forall e,
      out titled = Raise e ->
      out r = Raise e /\ events r = asked /\ count_sent is_create (events r) = 0) /\
   (forall summary,
      out titled = Ret summary -> (forall text, summary <> JStr text) ->
      out r = Raise TypeError /\ events r = asked /\ count_sent is_create (events r) = 0) /\
   (forall summary e,
      out titled = Ret (JStr summary) -> out user = Raise e ->
      out r = Raise e /\
      events r = (asked ++ Printed (task ++ summary) :: Printed ">>> Creating MR..." ::
                  events user)%list /\
      count_sent is_create (events r) = 0)) /\
  (forall w0,
     let answer := snd (https w0 (title_request jira_token task)) in
     let titled := get_task_title jira_token task w0 in
     events titled = [Sent (title_request jira_token task) 200 answer] /\
     (forall c, out titled <> Exit c) /\
     ((forall content v, answer = Response 200 content -> json_load content <> Some v) ->
      exists e, out titled = Raise e) /\
     (forall content v,
        answer = Response 200 content -> json_load content = Some v ->
        out titled =
        match v with
        | JObj items =>
            match lookup "fields" items with
            | Some (JObj fields) =>
                match lookup "summary" fields with
                | Some summary => Ret summary
                | None => Raise KeyError
                end
            | Some _ => Raise TypeError
            | None => Raise KeyError
            end
        | _ => Raise TypeError
        end)) /\
  (forall w0,
     let answer := snd (https w0 (user_request gitlab_token)) in
     let user := get_user_id gitlab_token w0 in
     events user = [Sent (user_request gitlab_token) 200 answer] /\
     (forall c, out user <> Exit c) /\
     ((forall content v, answer = Response 200 content -> json_load content <> Some v) ->
      exists e, out user = Raise e) /\
     (forall content v,
        answer = Response 200 content -> json_load content = Some v ->
        out user =
        match v with
        | JObj items =>
            match lookup "id" items with
            | Some id => Ret id
            | None => Raise KeyError
            end
        | _ => Raise TypeError
        end)) /\
  (forall c, out found <> Exit c).
Proof.
  intros found r.
  assert (Hreuse : forall mr_link,
            out found = Ret mr_link -> mr_link <> JNull ->
            count_sent is_create (events r) = 0).
  { intros mr_link Hfound Hlink. unfold r. rewrite creates_of_main.
    rewrite (find_or_create_reuses _ _ _ _ _ _ _ Hfound Hlink). cbn [events].
    rewrite count_sent_cons_printed, count_sent_app.
    unfold found. now rewrite (at_most_zero _ _ _ (lookup_sends_no_create _ _ _ _)). }
  assert (Hstop : (forall mr_link, out found <> Ret mr_link) ->
            count_sent is_create (events r) = 0).
  { intros Hfound. unfold r. rewrite creates_of_main.
    rewrite (find_or_create_stops _ _ _ _ _ _ Hfound).
    rewrite count_sent_cons_printed.
    now rewrite (at_most_zero _ _ _ (lookup_sends_no_create _ _ _ _)). }
  assert (Hasked : count_sent is_create
            (Printed ">>> Check if MR is already oppened..." ::
             events found ++
             Printed "No open MR was found. A new one will be created" ::
             Printed ">>> Getting task title..." ::
             events (get_task_title jira_token task (world found)))%list = 0).
  { rewrite count_sent_cons_printed, count_sent_app, !count_sent_cons_printed.
    unfold found. now rewrite lookup_events, title_events. }
  split; [|split; [|split; [|split; [|split; [|split; [|split; [|split; [|split;
    [|split]]]]]]]]].
  - unfold r. rewrite creates_of_main. apply find_or_create_at_most_once.
  - intros Hone. destruct (out found) as [mr_link|e|c] eqn:Hfound.
    + destruct mr_link; try reflexivity;
        rewrite (Hreuse _ eq_refl) in Hone; discriminate.
    + rewrite Hstop in Hone; [discriminate | intros ?; discriminate].
    + rewrite Hstop in Hone; [discriminate | intros ?; discriminate].
  - intros mr_link Hfound Hlink rest.
    split; [now apply (Hreuse mr_link) | ].
    unfold r, main_from_mr_check.
    pose proof (find_or_create_reuses jira_token gitlab_token project_id task
                  current_branch w mr_link Hfound Hlink) as Hfoc.
    fold found in Hfoc.
    rewrite (bind_ret _ _ _ mr_link) by now rewrite Hfoc.
    rewrite Hfoc. cbn [out world events]. fold rest.
    split; [reflexivity |]. cbn [app]. f_equal. now rewrite <- app_assoc.
  - intros summary user_id titled user rq Hfound Htitled Huser.
    destruct (find_or_create_creates jira_token gitlab_token project_id task
                current_branch w summary user_id Hfound Htitled Huser)
      as (before & after & Hev & Hbefore & Hafter).
    fold found titled user rq in Hev.
    assert (Hr : exists later,
              events r = (before ++ Sent rq 201 (snd (https (world user) rq)) :: later)%list /\
              count_sent is_create later = 0).
    { unfold r, main_from_mr_check, bind at 1.
      destruct (out (find_or_create_mr _ _ _ _ _ w)) as [mr_link| |]; cbn [events];
        rewrite Hev.
      - eexists. rewrite <- app_assoc. cbn [app]. split; [reflexivity |].
        rewrite count_sent_app, Hafter.
        now rewrite (at_most_zero _ _ _ (rest_sends_no_create jira_token task mr_link)).
      - now exists after.
      - now exists after. }
    destruct Hr as (later & Hr & Hlater).
    split; [|now exists before, later].
    rewrite Hr, count_sent_app, count_sent_cons_sent, Hbefore, Hlater. reflexivity.
  - intros content first others Hreply Hload.
    unfold found. now rewrite (lookup_on_list _ _ _ _ _ _ _ Hreply Hload).
  - intros content Hreply Hload.
    unfold found. now rewrite (lookup_on_list _ _ _ _ _ _ _ Hreply Hload).
  - intros e Hfound.
    destruct (main_stops_with _ _ _ _ _ _ _ _ _
                (find_or_create_lookup_fails jira_token gitlab_token project_id task
                   current_branch w e Hfound)) as [Hout Hev].
    fold r found in Hout, Hev. split; [exact Hout | split; [exact Hev |]].
    rewrite Hev, count_sent_cons_printed. unfold found. now rewrite lookup_events.
  - intros titled user asked Hfound. split; [|split].
    + intros e Htitle.
      destruct (main_stops_with _ _ _ _ _ _ _ _ _
                  (find_or_create_title_fails jira_token gitlab_token project_id task
                     current_branch w e Hfound Htitle)) as [Hout Hev].
      fold r found titled asked in Hout, Hev.
      split; [exact Hout | split; [exact Hev |]]. rewrite Hev. exact Hasked.
    + intros summary Htitle Hsummary.
      destruct (main_stops_with _ _ _ _ _ _ _ _ _
                  (find_or_create_title_not_text jira_token gitlab_token project_id task
                     current_branch w summary Hfound Htitle Hsummary)) as [Hout Hev].
      fold r found titled asked in Hout, Hev.
      split; [exact Hout | split; [exact Hev |]]. rewrite Hev. exact Hasked.
    + intros summary e Htitle Huser.
      destruct (main_stops_with _ _ _ _ _ _ _ _ _
                  (find_or_create_user_fails jira_token gitlab_token project_id task
                     current_branch w summary e Hfound Htitle Huser)) as [Hout Hev].
      fold r found titled user in Hout, Hev.
      split; [exact Hout |].
      assert (Hsame : events r =
                (asked ++ Printed (task ++ summary) :: Printed ">>> Creating MR..." ::
                 events user)%list).
      { rewrite Hev. unfold asked. cbn [app]. f_equal.
        rewrite <- app_assoc. reflexivity. }
      split; [exact Hsame |].
      rewrite Hsame, count_sent_app.
      replace (count_sent is_create asked) with 0 by (symmetry; exact Hasked).
      rewrite !count_sent_cons_printed. unfold user. now rewrite user_events.
  - intros w0 answer titled. split; [apply title_events | split; [|]].
    + intros c. apply title_never_exits.
    + apply (title_by_answer jira_token task w0).
  - intros w0 answer user. split; [apply user_events | split; [|]].
    + intros c. apply user_never_exits.
    + apply (user_by_answer gitlab_token w0).
  - intros c. apply lookup_never_exits.
Qed.

End Runs.

(* ================================================================== *)
(** ** The script on the mock platform *)

Section OnMock.

Local Existing Instance Mock.platform.

(** C8. The title is not derived for every repository segment: for
    [https://host/group/my-service/-/merge_requests/7] it is [my-service],
    but for a segment with a digit, which the pattern of [get_project_id]
    accepts in the name of the project, [get_service_name_from] ends with
    [AttributeError] and no title is derived. *)
Theorem display_title_lost_on_digit :
  get_service_name_from (JStr "https://host/group/my-service/-/merge_requests/7")
    = Ret "my-service" /\
  get_service_name_from (JStr Mock.digit_url) = Raise AttributeError /\
  search_group1 PROJECT_NAME_REGEX "git@gitlab.com:group/my-service2.git"
    = Ret "my-service2".
Proof. repeat split. Qed.

(** C2. The request that adds the link is not sent in every run in which
    the ticket has no link to the merge request.  In the repository
    [group/my-service2], whose name holds a digit, the script finds the
    project and the open merge request of the branch; the ticket has no link,
    the check returns [False], and the run ends with [AttributeError] without
    having sent the request that adds the link. *)
Theorem link_step_crashes_on_digit :
  let w := Mock.checkout "group/my-service2" "TCRM-42-fix-bug"
             [Response 200 "projects2"; Response 200 "reviews2"; Response 200 "[]";
              Response 201 "link"] in
  let w' := Mock.checkout "group/my-service2" "TCRM-42-fix-bug"
              [Response 200 "[]"; Response 201 "link"] in
  let r := script Mock.environ w in
  out r = Raise AttributeError /\
  count_sent is_add_link (events r) = 0 /\
  events r =
    [Printed ">>> Geting current branch name...";
     Printed "TCRM-42-fix-bug";
     Printed ">>> Extracting task name from branch name...";
     Printed "TCRM-42";
     Printed ">>> Getting GitLab project id...";
     Sent {| rq_method := "GET"; rq_host := GITLAB_HOST;
             rq_path := projects_path "my-service2";
             rq_headers := [("PRIVATE-TOKEN", "gitlab-secret")];
             rq_body := EmptyString |} 200 (Response 200 "projects2");
     Printed "13";
     Printed ">>> Check if MR is already oppened...";
     Sent (lookup_request "gitlab-secret" (JInt 13) "TCRM-42-fix-bug" TARGET_BRANCH) 200
       (Response 200 "reviews2");
     Printed ("MR already opened:" ++ Text.nl ++ BLUE ++ Mock.digit_url ++ NC);
     Printed ">>> Check if MR link in task is already exist...";
     Sent (links_request "jira-secret" "TCRM-42") 200 (Response 200 "[]");
     Printed "MR link not found";
     Printed ">>> Adding MR link to task..."] /\
  out (is_issue_link_already_exist "jira-secret" "TCRM-42" (JStr Mock.digit_url) w')
    = Ret false /\
  out (link_task "jira-secret" "TCRM-42" (JStr Mock.digit_url) w') = Raise AttributeError.
Proof. repeat split. Qed.

(** C4. Not every call with an unexpected status ends with the message of
    [send_https_request].  The tracker answers the request for the title of
    the ticket with the status 500 and a body that is no UTF-8 text (the
    bytes FF FE): decoding the body for the message fails, and the call, and
    with it the run of the script, ends with the error of the decoding,
    which holds neither the method, the URL, the status nor the body.  With
    a body of text the same call ends with the message. *)
Theorem decode_error_hides_failure :
  let w := Mock.at_branch "TCRM-42-fix-bug"
             [Response 200 "projects"; Response 200 "[]"; Response 500 Mock.binary_body] in
  let call body :=
    send_https_request "GET" JIRA_HOST "/rest/api/2/issue/TCRM-42"
      [("Authorization", "Bearer jira-secret")] EmptyString 200
      (Mock.at_branch "TCRM-42-fix-bug" [Response 500 body]) in
  let r := script Mock.environ w in
  decode_utf8 Mock.binary_body = None /\
  out (call Mock.binary_body) = Raise ValueError /\
  events (call Mock.binary_body) =
    [Sent (title_request "jira-secret" "TCRM-42") 200 (Response 500 Mock.binary_body)] /\
  out (call "Internal Server Error") =
    Raise (PyException
             (Text.esc ++ "[0;31mRequest failed" ++ Text.esc ++ "[0m" ++ Text.nl ++
              "request: GET https://jira.atlassian.com/rest/api/2/issue/TCRM-42" ++ Text.nl ++
              Text.nl ++ Text.nl ++
              "response status: 500" ++ Text.nl ++
              "response body: Internal Server Error")) /\
  out r = Raise ValueError /\
  exit_status (out r) = 1%Z /\
  events r =
    [Printed ">>> Geting current branch name...";
     Printed "TCRM-42-fix-bug";
     Printed ">>> Extracting task name from branch name...";
     Printed "TCRM-42";
     Printed ">>> Getting GitLab project id...";
     Sent (projects_request "gitlab-secret" "my-service") 200 (Response 200 "projects");
     Printed "12";
     Printed ">>> Check if MR is already oppened...";
     Sent (lookup_request "gitlab-secret" (JInt 12) "TCRM-42-fix-bug" TARGET_BRANCH) 200
       (Response 200 "[]");
     Printed "No open MR was found. A new one will be created";
     Printed ">>> Getting task title...";
     Sent (title_request "jira-secret" "TCRM-42") 200 (Response 500 Mock.binary_body)].
Proof. repeat split. Qed.

(** A run in which the look-up finds no open merge request and none is
    created: the look-up answers with an empty list, the tracker answers 404
    for the ticket, and the run ends with the exception of that call. *)
Lemma create_skipped_when_title_fails :
  let w := Mock.at_branch "TCRM-42-fix-bug"
             [Response 200 "projects"; Response 200 "[]";
              Response 404 "Issue Does Not Exist"] in
  let w' := Mock.at_branch "TCRM-42-fix-bug"
              [Response 200 "[]"; Response 404 "Issue Does Not Exist"] in
  let r := script Mock.environ w in
  world (get_project_id "gitlab-secret" w) = w' /\
  out (get_already_exist_mr_link "gitlab-secret" (JInt 12) "TCRM-42-fix-bug"
         TARGET_BRANCH w') = Ret JNull /\
  In (Sent (lookup_request "gitlab-secret" (JInt 12) "TCRM-42-fix-bug" TARGET_BRANCH) 200
        (Response 200 "[]")) (events r) /\
  count_sent is_create (events r) = 0 /\
  count_sent is_create
    (events (main_from_mr_check "jira-secret" "gitlab-secret" (JInt 12) "TCRM-42"
               "TCRM-42-fix-bug" w')) = 0 /\
  out r = Raise (PyException
                   (failure_message "GET" JIRA_HOST "/rest/api/2/issue/TCRM-42" EmptyString
                      404 "Issue Does Not Exist")).
Proof.
  repeat split. cbv. tauto.
Qed.

(** *** The theorems at work *)

Lemma exits_on_target_branch_witness :
  let w := Mock.at_branch "develop" [Response 200 "projects"] in
  out (script Mock.environ w) = Exit 1 /\
  exit_status (out (script Mock.environ w)) <> 0%Z /\
  no_request (events (script Mock.environ w)).
Proof.
  exact (exits_on_target_branch (platform := Mock.platform) Mock.environ
           (Mock.at_branch "develop" [Response 200 "projects"]) eq_refl).
Defined.

Lemma exits_on_unticketed_branch_witness :
  let w := Mock.at_branch "feature/login" [Response 200 "projects"] in
  out (script Mock.environ w) = Exit 1 /\
  exit_status (out (script Mock.environ w)) <> 0%Z /\
  no_request (events (script Mock.environ w)) /\
  reports_error (events (script Mock.environ w)).
Proof.
  exact (exits_on_unticketed_branch (platform := Mock.platform) Mock.environ
           (Mock.at_branch "feature/login" [Response 200 "projects"]) eq_refl).
Defined.

Lemma ticket_is_matched_prefix_witness :
  option_map group0 (match_ (ticket_pattern "TICKET") "TICKET-42-fix-bug") = Some "TICKET-42" /\
  out (extract_task (platform := Mock.platform) "TCRM-42-fix-bug"
         (Mock.at_branch "TCRM-42-fix-bug" [])) = Ret "TCRM-42".
Proof.
  destruct (ticket_is_matched_prefix (platform := Mock.platform) "TICKET" "42" "fix-bug"
              (Mock.at_branch "TCRM-42-fix-bug" []) eq_refl) as (H1 & _ & H3 & _).
  split; [exact H1 | exact H3].
Defined.

Lemma bare_prefix_passes_gate_witness :
  let w := Mock.at_branch "TCRM-hotfix" [] in
  out (extract_task (branch_in w) w) = Ret "TCRM-".
Proof.
  intros w.
  destruct (bare_prefix_passes_gate (platform := Mock.platform) "hotfix" "jira-secret" "gitlab-secret" w eq_refl)
    as (_ & _ & _ & H).
  exact (H eq_refl).
Defined.

Lemma bad_segment_raises_uncaught_witness :
  let w := Mock.at_branch "TCRM-42-fix-bug" [Response 200 "[]"] in
  get_service_name_from (JStr Mock.digit_url) = Raise AttributeError /\
  out (link_task "jira-secret" "TCRM-42" (JStr Mock.digit_url) w) = Raise AttributeError /\
  count_sent is_add_link (events (link_task "jira-secret" "TCRM-42" (JStr Mock.digit_url) w)) = 0.
Proof.
  intros w.
  destruct (bad_segment_raises_uncaught (platform := Mock.platform) "https://gitlab.com/group" "my-service2" "/7"
              "jira-secret" "TCRM-42" w eq_refl eq_refl eq_refl)
    as (_ & Hname & _ & _ & _ & Hstep).
  destruct (Hstep eq_refl) as (Hout & _ & Hcount & _).
  split; [exact Hname | split; [exact Hout | exact Hcount]].
Defined.

Lemma unexpected_status_raises_witness :
  let w := Mock.at_branch "TCRM-42-fix-bug" [Response 404 "Issue Does Not Exist"] in
  out (send_https_request "GET" JIRA_HOST "/rest/api/2/issue/TCRM-42"
         [("Authorization", "Bearer jira-secret")] EmptyString 200 w)
  = Raise (PyException
             (Text.esc ++ "[0;31mRequest failed" ++ Text.esc ++ "[0m" ++ Text.nl ++
              "request: GET https://jira.atlassian.com/rest/api/2/issue/TCRM-42" ++ Text.nl ++
              Text.nl ++ Text.nl ++
              "response status: 404" ++ Text.nl ++
              "response body: Issue Does Not Exist")).
Proof.
  intros w.
  destruct (unexpected_status_raises (platform := Mock.platform) "GET" JIRA_HOST
              "/rest/api/2/issue/TCRM-42" [("Authorization", "Bearer jira-secret")]
              EmptyString 200 w 404 "Issue Does Not Exist" eq_refl) as (_ & Hbad & _).
  destruct Hbad as (_ & Hmsg & _); [discriminate |].
  exact (proj1 (Hmsg "Issue Does Not Exist" eq_refl)).
Defined.

Lemma project_id_of_matching_entry_witness :
  let w := Mock.at_branch "TCRM-42-fix-bug" [Response 200 "projects"] in
  out (get_project_id "gitlab-secret" w) = Ret (JInt 12).
Proof.
  intros w.
  assert (Hwf : project_entries
                  [Mock.project 11 "group/my-service-api"; Mock.project 12 "group/my-service"]).
  { repeat constructor; do 3 eexists; eexists; repeat split. }
  destruct (project_id_of_matching_entry (platform := Mock.platform) "gitlab-secret" "my-service" "projects"
              [Mock.project 11 "group/my-service-api"; Mock.project 12 "group/my-service"]
              w eq_refl eq_refl eq_refl Hwf) as [Hone _].
  apply (Hone [Mock.project 11 "group/my-service-api"] (Mock.project 12 "group/my-service")
           [] 12%Z "git@gitlab.com:group/my-service.git"
           "https://gitlab.com/group/my-service.git" eq_refl).
  - eexists. repeat split.
  - left. reflexivity.
  - intros other [[<-|[]]|[]] (id & ssh & http & (fields & E & _ & Hssh & Hhttp) & Hurl).
    injection E as <-. cbn in Hssh, Hhttp.
    injection Hssh as <-. injection Hhttp as <-.
    destruct Hurl as [Hurl|Hurl]; discriminate Hurl.
Defined.

Lemma create_only_without_open_mr_witness :
  let run answers :=
    main_from_mr_check "jira-secret" "gitlab-secret" (JInt 12) "TCRM-42" "TCRM-42-fix-bug"
      (Mock.at_branch "TCRM-42-fix-bug" answers) in
  count_sent is_create
    (events (run [Response 200 "[]"; Response 200 "issue"; Response 200 "user";
                  Response 201 "review"; Response 200 "[]"; Response 201 "link"])) = 1 /\
  out (run [Response 200 "[]"; Response 200 "link"; Response 200 "user";
            Response 201 "review"]) = Raise KeyError /\
  count_sent is_create
    (events (run [Response 200 "[]"; Response 200 "link"; Response 200 "user";
                  Response 201 "review"])) = 0.
Proof.
  intros run. split.
  - destruct (create_only_without_open_mr (platform := Mock.platform) "jira-secret"
                "gitlab-secret" (JInt 12) "TCRM-42" "TCRM-42-fix-bug"
                (Mock.at_branch "TCRM-42-fix-bug"
                   [Response 200 "[]"; Response 200 "issue"; Response 200 "user";
                    Response 201 "review"; Response 200 "[]"; Response 201 "link"]))
      as (_ & _ & _ & Hcreate & _).
    exact (proj1 (Hcreate "Fix the bug" (JInt 5) eq_refl eq_refl eq_refl)).
  - destruct (create_only_without_open_mr (platform := Mock.platform) "jira-secret"
                "gitlab-secret" (JInt 12) "TCRM-42" "TCRM-42-fix-bug"
                (Mock.at_branch "TCRM-42-fix-bug"
                   [Response 200 "[]"; Response 200 "link"; Response 200 "user";
                    Response 201 "review"]))
      as (_ & _ & _ & _ & _ & _ & _ & Hstops & Htitle & _).
    destruct (Hstops eq_refl) as (Hfails & _).
    destruct (Htitle (Mock.at_branch "TCRM-42-fix-bug"
                        [Response 200 "link"; Response 200 "user"; Response 201 "review"]))
      as (_ & _ & _ & Hanswer).
    destruct (Hfails KeyError (Hanswer "link" (JObj [("id", JInt 10001)]) eq_refl eq_refl))
      as (Hout & _ & Hcount).
    split; [exact Hout | exact Hcount].
Defined.

End OnMock.

(* ================================================================== *)
(** ** Runs on the second mock platform *)

Section OnLab.

Local Existing Instance Lab.platform.

Lemma current_branch_is_stripped_witness :
  let w := {| Mock.branch_out := Text.nl ++ "TCRM-42-fix-bug" ++ Text.nl ++ Text.nl;
              Mock.remote_out := "git@gitlab.com:group/my-service.git" ++ Text.nl;
              Mock.replies := [] |} in
  get_current_branch w = {| out := Ret "TCRM-42-fix-bug"; world := w; events := [] |}.
Proof.
  intros w.
  exact (current_branch_is_stripped (platform := Lab.platform) w Text.nl "TCRM-42-fix-bug"
           (Text.nl ++ Text.nl) eq_refl eq_refl eq_refl eq_refl eq_refl).
Defined.

Lemma ticket_gate_is_a_prefix_test_witness :
  let w := Mock.at_branch "TCRM-42-fix-bug" [] in
  (exists rest,
     "TCRM-42-fix-bug" = "TCRM-" ++ rest /\
     out (extract_task "TCRM-42-fix-bug" w) = Ret ("TCRM-" ++ take_while digit rest)) /\
  out (extract_task "tcrm-42-fix-bug" w) = Exit 1.
Proof.
  intros w. split.
  - destruct (proj1 (ticket_gate_is_a_prefix_test (platform := Lab.platform)
                       "TCRM-42-fix-bug" w) eq_refl) as (rest & E & Hout & _).
    exists rest. split; [exact E | exact Hout].
  - rewrite (proj2 (ticket_gate_is_a_prefix_test (platform := Lab.platform)
                      "tcrm-42-fix-bug" w) eq_refl).
    reflexivity.
Defined.

Lemma remote_without_suffix_raises_witness :
  let w := Lab.cloned "https://gitlab.com/group/my-service" "TCRM-42-fix-bug"
             [Response 200 "projects"] in
  get_project_id "gitlab-secret" w = {| out := Raise AttributeError; world := w; events := [] |}.
Proof.
  intros w.
  exact (remote_without_suffix_raises (platform := Lab.platform) "gitlab-secret" w eq_refl).
Defined.

Lemma project_name_outside_pattern_raises_witness :
  let w := Lab.cloned "git@gitlab.com:group/my_service.git" "TCRM-42-fix-bug"
             [Response 200 "projects"] in
  get_project_id "gitlab-secret" w = {| out := Raise AttributeError; world := w; events := [] |}.
Proof.
  intros w.
  exact (project_name_outside_pattern_raises (platform := Lab.platform) "gitlab-secret"
           "git@gitlab.com:group" "my_service" EmptyString w
           eq_refl eq_refl eq_refl eq_refl).
Defined.

Lemma project_search_uses_the_name_witness :
  let w := Lab.cloned "https://gitlab.com/group/my-service2.git" "TCRM-42-fix-bug"
             [Response 503 "busy"] in
  events (get_project_id "gitlab-secret" w) =
  [Sent (projects_request "gitlab-secret" "my-service2") 200 (Response 503 "busy")].
Proof.
  intros w.
  exact (project_search_uses_the_name (platform := Lab.platform) "gitlab-secret"
           "https://gitlab.com/group" "my-service2" EmptyString w eq_refl eq_refl eq_refl).
Defined.

Lemma first_matching_project_wins_witness :
  let w := Mock.at_branch "TCRM-42-fix-bug" [Response 200 "twice"] in
  out (get_project_id "gitlab-secret" w) = Ret (JInt 21).
Proof.
  intros w.
  apply (first_matching_project_wins (platform := Lab.platform) "gitlab-secret" "my-service"
           "twice" [] (Mock.project 21 "group/my-service") [Mock.project 22 "group/my-service"]
           21%Z "git@gitlab.com:group/my-service.git" "https://gitlab.com/group/my-service.git"
           w eq_refl eq_refl eq_refl).
  - constructor.
  - intros other [].
  - eexists. repeat split.
  - left. reflexivity.
Defined.

Lemma malformed_project_entry_raises_witness :
  out (get_project_id "gitlab-secret" (Mock.at_branch "TCRM-42-fix-bug" [Response 200 "broken"]))
    = Raise KeyError /\
  out (get_project_id "gitlab-secret" (Mock.at_branch "TCRM-42-fix-bug" [Response 200 "plain"]))
    = Raise TypeError.
Proof.
  split.
  - apply (malformed_project_entry_raises (platform := Lab.platform) "gitlab-secret"
             "my-service" "broken" [] (JObj [("id", JInt 1)])
             [Mock.project 12 "group/my-service"]
             (Mock.at_branch "TCRM-42-fix-bug" [Response 200 "broken"])
             eq_refl eq_refl eq_refl (Forall_nil _) (fun other (H : In other []) => match H with end)).
    exists [("id", JInt 1)]. split; [reflexivity | left; reflexivity].
  - apply (malformed_project_entry_raises (platform := Lab.platform) "gitlab-secret"
             "my-service" "plain" [] (JInt 0)
             [Mock.project 12 "group/my-service"]
             (Mock.at_branch "TCRM-42-fix-bug" [Response 200 "plain"])
             eq_refl eq_refl eq_refl (Forall_nil _) (fun other (H : In other []) => match H with end)).
    intros fields. discriminate.
Defined.

Lemma lookup_reads_first_entry_only_witness :
  let found content := get_already_exist_mr_link "gitlab-secret" (JInt 12) "TCRM-42-fix-bug"
                         "develop" (Mock.at_branch "TCRM-42-fix-bug" [Response 200 content]) in
  out (found "several") = Ret (JStr Lab.service_url) /\
  out (found "nameless") = Raise KeyError /\
  out (found "{}") = Ret JNull.
Proof.
  intros found. split; [|split].
  - destruct (lookup_reads_first_entry_only (platform := Lab.platform) "gitlab-secret" (JInt 12)
                "TCRM-42-fix-bug" "develop" "several"
                (Mock.at_branch "TCRM-42-fix-bug" [Response 200 "several"]) eq_refl)
      as (_ & Hfirst & _).
    exact (Hfirst [("iid", JInt 7); ("web_url", JStr Lab.service_url)] [JInt 0] eq_refl).
  - destruct (lookup_reads_first_entry_only (platform := Lab.platform) "gitlab-secret" (JInt 12)
                "TCRM-42-fix-bug" "develop" "nameless"
                (Mock.at_branch "TCRM-42-fix-bug" [Response 200 "nameless"]) eq_refl)
      as (_ & Hfirst & _).
    exact (Hfirst [("iid", JInt 7)] [] eq_refl).
  - destruct (lookup_reads_first_entry_only (platform := Lab.platform) "gitlab-secret" (JInt 12)
                "TCRM-42-fix-bug" "develop" "{}"
                (Mock.at_branch "TCRM-42-fix-bug" [Response 200 "{}"]) eq_refl)
      as (_ & _ & _ & Hobject).
    exact (Hobject eq_refl).
Defined.

Lemma null_link_counts_as_none_witness :
  let w := Mock.at_branch "TCRM-42-fix-bug" [Response 200 "nulled"; Response 200 "issue"] in
  out (get_already_exist_mr_link "gitlab-secret" (JInt 12) "TCRM-42-fix-bug" TARGET_BRANCH w)
    = Ret JNull /\
  exists later,
    events (find_or_create_mr "jira-secret" "gitlab-secret" (JInt 12) "TCRM-42"
              "TCRM-42-fix-bug" w) =
    (Printed ">>> Check if MR is already oppened..." ::
     Sent (lookup_request "gitlab-secret" (JInt 12) "TCRM-42-fix-bug" TARGET_BRANCH) 200
       (Response 200 "nulled") ::
     Printed "No open MR was found. A new one will be created" ::
     Printed ">>> Getting task title..." ::
     Sent (title_request "jira-secret" "TCRM-42") 200 (Response 200 "issue") :: later).
Proof.
  intros w.
  exact (null_link_counts_as_none (platform := Lab.platform) "jira-secret" "gitlab-secret"
           (JInt 12) "TCRM-42" "TCRM-42-fix-bug" "nulled"
           [("iid", JInt 7); ("web_url", JNull)] [] w eq_refl eq_refl eq_refl).
Defined.

Lemma title_needs_text_summary_witness :
  let w := Mock.at_branch "TCRM-42-fix-bug"
             [Response 200 "[]"; Response 200 "numbered"; Response 200 "user";
              Response 201 "review"] in
  let r := main_from_mr_check "jira-secret" "gitlab-secret" (JInt 12) "TCRM-42"
             "TCRM-42-fix-bug" w in
  out r = Raise TypeError /\ count_sent is_post (events r) = 0.
Proof.
  intros w r.
  apply (title_needs_text_summary (platform := Lab.platform) "jira-secret" "gitlab-secret"
           (JInt 12) "TCRM-42" "TCRM-42-fix-bug" (JInt 42) w eq_refl eq_refl).
  intros text. discriminate.
Defined.

Lemma created_without_link_is_left_witness :
  let w := Mock.at_branch "TCRM-42-fix-bug"
             [Response 200 "[]"; Response 200 "issue"; Response 200 "user";
              Response 201 "created"; Response 200 "[]"; Response 201 "link"] in
  let r := main_from_mr_check "jira-secret" "gitlab-secret" (JInt 12) "TCRM-42"
             "TCRM-42-fix-bug" w in
  out r = Raise KeyError /\
  count_sent is_create (events r) = 1 /\
  count_sent (by_route (fun _ host => String.eqb host JIRA_HOST)) (events r) = 1.
Proof.
  intros w r.
  destruct (created_without_link_is_left (platform := Lab.platform) "jira-secret"
              "gitlab-secret" (JInt 12) "TCRM-42" "TCRM-42-fix-bug" "Fix the bug" "created"
              (JInt 5) [("iid", JInt 8)] w eq_refl eq_refl eq_refl eq_refl eq_refl eq_refl)
    as (Hout & Hcreate & Hjira & _).
  split; [exact Hout | split; [exact Hcreate | exact Hjira]].
Defined.

Lemma rerun_only_reads_witness :
  let w := Mock.at_branch "TCRM-42-fix-bug" [Response 200 "several"; Response 200 "mixed"] in
  let r := main_from_mr_check "jira-secret" "gitlab-secret" (JInt 12) "TCRM-42"
             "TCRM-42-fix-bug" w in
  out r = Ret tt /\ count_sent is_post (events r) = 0.
Proof.
  intros w r.
  destruct (rerun_only_reads (platform := Lab.platform) "jira-secret" "gitlab-secret"
              (JInt 12) (JStr Lab.service_url) "TCRM-42" "TCRM-42-fix-bug" w eq_refl)
    as (Hout & Hpost & _).
  - discriminate.
  - reflexivity.
  - split; [exact Hout | exact Hpost].
Defined.

Lemma link_check_stops_at_first_link_witness :
  let checked content :=
    is_issue_link_already_exist "jira-secret" "TCRM-42" (JStr Lab.service_url)
      (Mock.at_branch "TCRM-42-fix-bug" [Response 200 content]) in
  out (checked "mixed") = Ret true /\ out (checked "unlinked") = Raise KeyError.
Proof.
  intros checked. split.
  - destruct (link_check_stops_at_first_link (platform := Lab.platform) "jira-secret" "TCRM-42"
                "mixed" (JStr Lab.service_url) [] [] (Mock.link_to Lab.service_url)
                [JObj [("id", JInt 3)]]
                (Mock.at_branch "TCRM-42-fix-bug" [Response 200 "mixed"])
                eq_refl eq_refl (Forall2_nil _) eq_refl) as [Hlink _].
    apply (Hlink (JStr Lab.service_url)); [|reflexivity].
    do 2 eexists. repeat split.
  - destruct (link_check_stops_at_first_link (platform := Lab.platform) "jira-secret" "TCRM-42"
                "unlinked" (JStr Lab.service_url) [] [] (JObj [("id", JInt 3)])
                [Mock.link_to Lab.service_url]
                (Mock.at_branch "TCRM-42-fix-bug" [Response 200 "unlinked"])
                eq_refl eq_refl (Forall2_nil _) eq_refl) as [_ Hbad].
    exact (Hbad [("id", JInt 3)] eq_refl eq_refl).
Defined.

Lemma script_halts_at_first_failure_witness :
  let w := Mock.at_branch "TCRM-42-fix-bug"
             [Response 200 "projects"; Response 500 "oops"; Response 200 "issue"] in
  let rq := lookup_request "gitlab-secret" (JInt 12) "TCRM-42-fix-bug" TARGET_BRANCH in
  exit_status (out (script Mock.environ w)) = 1%Z /\
  exists before,
    events (script Mock.environ w) = (before ++ [Sent rq 200 (Response 500 "oops")])%list.
Proof.
  intros w rq.
  destruct (script_halts_at_first_failure (platform := Lab.platform) Mock.environ w rq 200%Z
              (Response 500 "oops"))
    as [(content & v & E & _)|(e & before & _ & _ & Hstatus & Hev)].
  - do 8 right. left. reflexivity.
  - discriminate E.
  - split; [exact Hstatus | exists before; exact Hev].
Defined.

Lemma tokens_stay_with_their_server_witness :
  let w := Mock.at_branch "TCRM-42-fix-bug"
             [Response 200 "projects"; Response 200 "[]"; Response 200 "issue";
              Response 200 "user"; Response 201 "review"; Response 200 "[]";
              Response 201 "link"] in
  Forall (authorised "jira-secret" "gitlab-secret") (events (script Mock.environ w)).
Proof.
  intros w.
  exact (tokens_stay_with_their_server (platform := Lab.platform) Mock.environ "jira-secret"
           "gitlab-secret" w eq_refl eq_refl).
Defined.

Lemma normal_end_means_linked_witness :
  let w := Mock.at_branch "TCRM-42-fix-bug"
             [Response 200 "projects"; Response 200 "[]"; Response 200 "issue";
              Response 200 "user"; Response 201 "review"; Response 200 "[]";
              Response 201 "link"] in
  branch_in w <> TARGET_BRANCH /\
  (In (Printed "MR link already added to task") (events (script Mock.environ w)) \/
   exists rq content,
     is_add_link rq = true /\
     In (Sent rq 201 (Response 201 content)) (events (script Mock.environ w))).
Proof.
  intros w.
  destruct (normal_end_means_linked (platform := Lab.platform) Mock.environ w eq_refl)
    as (_ & _ & Hne & rest & _ & _ & Hlinked).
  split; [exact Hne | exact Hlinked].
Defined.

Lemma link_task_on_links_witness :
  let r content := link_task "jira-secret" "TCRM-42" (JStr Lab.service_url)
                     (Mock.at_branch "TCRM-42-fix-bug" [Response 200 content; Response 201 "link"]) in
  (out (r "links") = Ret tt /\ count_sent is_add_link (events (r "links")) = 0) /\
  count_sent is_add_link (events (r "[]")) = 1.
Proof.
  intros r. split.
  - destruct (link_task_on_links (platform := Lab.platform) "jira-secret" "TCRM-42"
                Lab.service_url "links"
                [Mock.link_to "https://example.org/doc"; Mock.link_to Lab.service_url]
                [JStr "https://example.org/doc"; JStr Lab.service_url]
                (Mock.at_branch "TCRM-42-fix-bug" [Response 200 "links"; Response 201 "link"])
                eq_refl eq_refl) as [Hthere _].
    + repeat constructor; do 2 eexists; repeat split.
    + apply Hthere. right. left. reflexivity.
  - destruct (link_task_on_links (platform := Lab.platform) "jira-secret" "TCRM-42"
                Lab.service_url "[]" [] []
                (Mock.at_branch "TCRM-42-fix-bug" [Response 200 "[]"; Response 201 "link"])
                eq_refl eq_refl (Forall2_nil _)) as [_ Habsent].
    exact (proj1 (Habsent (fun H : In _ [] => H) "my-service" eq_refl)).
Defined.

Lemma display_title_is_segment_witness :
  get_service_name_from (JStr "https://gitlab.com/group/my-service/-/merge_requests/7")
    = Ret "my-service".
Proof.
  exact (proj1 (display_title_is_segment (platform := Lab.platform) "https://gitlab.com/group"
                  "my-service" "/7" eq_refl eq_refl)).
Defined.

End OnLab.
